(** * ImageDataDeserializer: a shallow embedding and its properties

    The development follows [ImageDataDeserializer.cpp] of the CNTK image
    reader: the one-hot label generator, the construction of the sequence
    timeline from a tab-separated map file, and the materialisation of
    (feature, label) sequences for a batch of ids.

    Conventions.
    - [size_t] values are [N]; the conversion of a negative [int] wraps
      modulo 2^64 and is written out ([size_t_of_int]).
    - A C++ exception, a failed [assert] and undefined behaviour end a
      computation; they are the [Err] results of the [result] monad.
    - [assert] depends on the build: with [NDEBUG] defined it expands to
      nothing.  The flag is the parameter [ndebug] of every function that
      contains an [assert].
    - OpenCV is an external library: its operations are the fields of the
      [OpenCV] interface. *)

From Equations Require Import Equations.
From Equations.Prop Require Import Logic.
From Stdlib Require Import List String Ascii NArith ZArith Bool Lia.
From Stdlib Require Import SpecFloat.
Import ListNotations.

Local Open Scope string_scope.
Local Open Scope N_scope.

(** ** Errors and the result monad *)

(** Modelled from the spec: the [ElementType] enumeration is declared in a
    reader header that is not part of the sources at hand.  The spec lists
    32-bit float and 64-bit float "at minimum"; [et_atom] stands for any
    further representation. *)
Inductive ElementType := et_float | et_double | et_atom.

Definition ElementType_eqb (a b : ElementType) : bool :=
  match a, b with
  | et_float, et_float | et_double, et_double | et_atom, et_atom => true
  | _, _ => false
  end.

(** The arguments handed to a printf-style format string. *)
Inductive FormatArg :=
| arg_string (s : string)
| arg_size_t (n : N)
| arg_ElementType (e : ElementType).

Inductive Error :=
| runtime_error (fmt : string) (args : list FormatArg)
| invalid_argument (what : string)
| out_of_range (what : string)
| assertion_failure
| undefined_behaviour.

Inductive result (A : Type) :=
| Ok (a : A)
| Err (e : Error).
Arguments Ok {A} a.
Arguments Err {A} e.

Definition bind {A B} (r : result A) (k : A -> result B) : result B :=
  match r with
  | Ok a => k a
  | Err e => Err e
  end.

Notation "x <- r ;; k" := (bind r (fun x => k))
  (at level 61, r at next level, right associativity).
Notation "' p <- r ;; k" := (bind r (fun x => let p := x in k))
  (at level 61, p pattern, r at next level, right associativity).

Definition is_Ok {A} (r : result A) : bool :=
  match r with Ok _ => true | Err _ => false end.

(** Modelled from the spec: [RuntimeError] is a helper of the CNTK basics
    header, not part of the sources at hand.  The spec calls the errors it
    raises fatal; it is a formatted [std::runtime_error], kept here as the
    format string with its arguments. *)
Definition RuntimeError {A} (fmt : string) (args : list FormatArg) : result A :=
  Err (runtime_error fmt args).

(** [throw std::runtime_error(what)]. *)
Definition throw_runtime_error {A} (what : string) : result A :=
  Err (runtime_error what []).

(** [assert(c)]: nothing when [NDEBUG] is defined, an abort when the
    condition is false otherwise. *)
Definition assert (ndebug : bool) (c : bool) : result unit :=
  if ndebug then Ok tt
  else if c then Ok tt else Err assertion_failure.

(** ** The pieces of the C++ standard library the reader uses *)

Module Std.

(** *** [size_t] and [int] *)

Definition SIZE_MAX_plus_1 : Z := Z.pow 2 64.
Definition INT_MIN : Z := - Z.pow 2 31.
Definition INT_MAX : Z := Z.pow 2 31 - 1.

(** Implicit conversion of an [int] to [size_t]. *)
Definition size_t_of_int (i : Z) : N := Z.to_N (Z.modulo i SIZE_MAX_plus_1).

(** *** [std::vector] *)

(** [v[i]]: outside the vector the behaviour is undefined. *)
Definition at_ {A} (v : list A) (i : N) : result A :=
  match nth_error v (N.to_nat i) with
  | Some a => Ok a
  | None => Err undefined_behaviour
  end.

Definition size {A} (v : list A) : N := N.of_nat (List.length v).

Definition push_back {A} (v : list A) (a : A) : list A := v ++ [a].

(** [std::fill(v.begin(), v.end(), a)]. *)
Definition fill {A} (v : list A) (a : A) : list A := map (fun _ => a) v.

(** [v[i] = a] for [i] inside the vector. *)
Fixpoint assign {A} (v : list A) (i : nat) (a : A) : list A :=
  match v, i with
  | [], _ => []
  | _ :: v', O => a :: v'
  | x :: v', S i' => x :: assign v' i' a
  end.

(** [v.resize(n, a)] on an empty vector. *)
Definition resize_empty {A} (n : N) (a : A) : list A := repeat a (N.to_nat n).

(** *** Input streams *)

(** The unread characters and the two state bits the reader's code can
    observe. *)
Record istream := {
  buf : string;
  eofbit : bool;
  failbit : bool
}.

Definition good (strm : istream) : bool := negb (eofbit strm) && negb (failbit strm).

(** [if (strm)] and the loop condition [std::getline(...)]: [!fail()]. *)
Definition to_bool (strm : istream) : bool := negb (failbit strm).

(** [std::stringstream ss{ line }]. *)
Definition stringstream (s : string) : istream :=
  {| buf := s; eofbit := false; failbit := false |}.

(** [std::ifstream f(path)] over a file system that maps a path to the
    content of the file, when it can be opened. *)
Definition ifstream (fs : string -> option string) (path : string) : istream :=
  match fs path with
  | Some content => {| buf := content; eofbit := false; failbit := false |}
  | None => {| buf := ""; eofbit := false; failbit := true |}
  end.

(** Characters up to the first [delim]; the rest after it when there is
    one, [None] when the end of the input is reached first. *)
Fixpoint read_until (delim : ascii) (s : string) : string * option string :=
  match s with
  | EmptyString => (EmptyString, None)
  | String c s' =>
      if Ascii.eqb c delim then (EmptyString, Some s')
      else let (l, r) := read_until delim s' in (String c l, r)
  end.

(** [std::getline(strm, str, delim)]: the stream after the call and the new
    value of [str].  When the stream is not good on entry the sentry sets
    [failbit] and [str] is left alone.  Otherwise characters are
    extracted up to the delimiter (extracted too, and dropped) or the end
    of input (which sets [eofbit]); extracting nothing at all, not even a
    delimiter, sets [failbit]. *)
Definition getline (strm : istream) (str : string) (delim : ascii) : istream * string :=
  if good strm then
    match read_until delim (buf strm) with
    | (s, Some rest) =>
        ({| buf := rest; eofbit := false; failbit := false |}, s)
    | (s, None) =>
        ({| buf := ""; eofbit := true;
            failbit := match s with EmptyString => true | _ => false end |}, s)
    end
  else ({| buf := buf strm; eofbit := eofbit strm; failbit := true |}, str).

(** *** [std::stoi] *)

(** [isspace] in the C locale. *)
Definition isspace (c : ascii) : bool :=
  let n := N_of_ascii c in (n =? 32) || ((9 <=? n) && (n <=? 13)).

Definition isdigit (c : ascii) : bool :=
  let n := N_of_ascii c in (48 <=? n) && (n <=? 57).

Definition digit_value (c : ascii) : Z := Z.of_N (N_of_ascii c) - 48.

Fixpoint skip_space (s : string) : string :=
  match s with
  | String c s' => if isspace c then skip_space s' else s
  | EmptyString => s
  end.

(** The value of the longest prefix of decimal digits, after [acc];
    [None] when there is no digit. *)
Fixpoint digits (s : string) (acc : option Z) : option Z :=
  match s with
  | String c s' =>
      if isdigit c
      then digits s' (Some (10 * match acc with Some a => a | None => 0 end
                            + digit_value c)%Z)
      else acc
  | EmptyString => acc
  end.

(** [std::stoi(str)] (base 10): leading white space, an optional sign,
    then digits; what follows the digits is ignored. *)
Definition stoi (str : string) : result Z :=
  let s := skip_space str in
  let '(neg, s) :=
    match s with
    | String "-" s' => (true, s')
    | String "+" s' => (false, s')
    | _ => (false, s)
    end in
  match digits s None with
  | None => Err (invalid_argument "stoi")
  | Some v =>
      let v := if neg then (- v)%Z else v in
      if ((INT_MIN <=? v) && (v <=? INT_MAX))%Z then Ok v
      else Err (out_of_range "stoi")
  end.

End Std.

(** ** Element representations *)

(** The numeric types a [TypedLabelGenerator] is instantiated at.  The only
    operation the generator needs is the conversion of an [int] constant
    ([static_cast<TElement>(0)], and the implicit one in [... = 1]). *)
Class TElement (T : Type) := { of_int : Z -> T }.

(** IEEE 754 binary32 and binary64 values, on the specification floats of
    the standard library. *)
Record float := mk_float { float_val : spec_float }.
Record double := mk_double { double_val : spec_float }.

#[export] Instance float_TElement : TElement float :=
  {| of_int z := mk_float (binary_normalize 24 128 z 0 false) |}.
#[export] Instance double_TElement : TElement double :=
  {| of_int z := mk_double (binary_normalize 53 1024 z 0 false) |}.

(** ** The label generator *)

Section TypedLabelGenerator.
Context {T : Type} `{TElement T}.

Record TypedLabelGenerator := { m_labelData : list T }.

(** The constructor: [m_labelData.resize(dimensions, 0)]. *)
Definition new_TypedLabelGenerator (dimensions : N) : TypedLabelGenerator :=
  {| m_labelData := Std.resize_empty dimensions (of_int 0%Z) |}.

(** [GetLabelDataFor(classId)]: the generator after the call.  The value
    returned to the caller is the address of the buffer, [&m_labelData[0]],
    which is the same at every call.  Writing at [classId] outside the
    buffer is undefined behaviour. *)
Definition GetLabelDataFor_typed (g : TypedLabelGenerator) (classId : N)
  : result TypedLabelGenerator :=
  let data := Std.fill (m_labelData g) (of_int 0%Z) in
  if classId <? Std.size data
  then Ok {| m_labelData := Std.assign data (N.to_nat classId) (of_int 1%Z) |}
  else Err undefined_behaviour.
End TypedLabelGenerator.
Arguments TypedLabelGenerator T : clear implicits.

(** [ImageDataDeserializer::LabelGenerator], the interface the two
    instantiations are used through. *)
Inductive LabelGenerator :=
| gen_float (g : TypedLabelGenerator float)
| gen_double (g : TypedLabelGenerator double).

(** What a [void*] into a label buffer points to. *)
Inductive LabelBuffer :=
| buf_float (data : list float)
| buf_double (data : list double).

Definition label_buffer (g : LabelGenerator) : LabelBuffer :=
  match g with
  | gen_float g => buf_float (m_labelData g)
  | gen_double g => buf_double (m_labelData g)
  end.

(** The virtual call [m_labelGenerator->GetLabelDataFor(classId)]. *)
Definition GetLabelDataFor (g : LabelGenerator) (classId : N) : result LabelGenerator :=
  match g with
  | gen_float g => g' <- GetLabelDataFor_typed g classId ;; Ok (gen_float g')
  | gen_double g => g' <- GetLabelDataFor_typed g classId ;; Ok (gen_double g')
  end.

(** The one-hot vector of [dimension] elements for [classId]: the
    conversion of 1 at position [classId], the conversion of 0 elsewhere. *)
Definition one_hot {T} `{TElement T} (dimension classId : nat) : list T :=
  map (fun i => if Nat.eqb i classId then of_int 1%Z else of_int 0%Z)
      (seq 0 dimension).

(** ** Sequences and their descriptions *)

(** Modelled from the spec: the layout classes are declared in headers that
    are not part of the sources at hand; a sample layout is an ordered tuple
    of axis extents, and the height of the label layout is the label
    dimension. *)
Record ImageLayout := ImageLayoutWHC {
  GetWidth : N;
  GetHeight : N;
  GetNumChannels : N
}.

(** Modelled from the spec: [ImageSequenceDescription] is declared in the
    deserializer's header, not part of the sources at hand; the fields are
    the ones the spec's data model lists and the code assigns.  [classId]
    is compared with a [size_t] and passed as one, so it is read as a
    [size_t] wherever the code uses it. *)
Record ImageSequenceDescription := {
  id : N;
  numberOfSamples : N;
  chunkId : N;
  isValid : bool;
  path : string;
  classId : N
}.

(** [description.classId = v]. *)
Definition set_classId (description : ImageSequenceDescription) (v : N)
  : ImageSequenceDescription :=
  {| id := id description;
     numberOfSamples := numberOfSamples description;
     chunkId := chunkId description;
     isValid := isValid description;
     path := path description;
     classId := v |}.

(** Modelled from the spec: [InputDescription] comes from the reader
    interfaces, not part of the sources at hand; the two fields the
    constructor reads. *)
Record InputDescription := {
  elementType : ElementType;
  sampleLayout : ImageLayout
}.

(** Modelled from the spec: [ImageConfigHelper] resolves the configuration
    (which stream is the feature and which the label, and the map file);
    it is an external collaborator, taken here as the values it returns. *)
Record ImageConfigHelper := {
  GetInputs_of_config : list InputDescription;
  GetLabelInputIndex : N;
  GetFeatureInputIndex : N;
  GetMapPath : string
}.

(** ** OpenCV *)

(** The matrix operations the reader calls.  [ptr] is the address of the
    pixel data of a matrix. *)
Class OpenCV := {
  Mat : Type;
  uchar_ptr : Type;
  imread : string -> Mat;        (* cv::imread(path, cv::IMREAD_COLOR) *)
  isContinuous : Mat -> bool;
  type : Mat -> Z;
  channels : Mat -> Z;
  cols : Mat -> Z;
  rows : Mat -> Z;
  convertTo : Mat -> Z -> Mat;   (* m.convertTo(m, rtype) *)
  ptr : Mat -> uchar_ptr
}.

Definition CV_32F : Z := 5.
Definition CV_64F : Z := 6.
Definition CV_CN_SHIFT : Z := 3.
Definition CV_MAT_DEPTH_MASK : Z := 7.
Definition CV_MAKETYPE (depth cn : Z) : Z :=
  (Z.land depth CV_MAT_DEPTH_MASK + Z.shiftl (cn - 1) CV_CN_SHIFT)%Z.

(** ** The deserializer *)

Section Deserializer.
Context {cv : OpenCV}.

(** [Sequence::data] is a [void*]: the address of the label generator's
    buffer, or the address of the pixel data of a decoded image. *)
Inductive void_ptr :=
| label_data_ptr
| image_data_ptr (p : uchar_ptr).

(** Modelled from the spec: [Sequence] comes from the reader interfaces,
    not part of the sources at hand; a payload is a buffer with its layout
    and sample count. *)
Record Sequence := {
  data : void_ptr;
  layout : ImageLayout;
  Sequence_numberOfSamples : N
}.

(** The members of [ImageDataDeserializer].  [m_sequences] holds pointers
    to the elements of [m_imageSequences]: their positions. *)
Record ImageDataDeserializer := {
  m_imageSequences : list ImageSequenceDescription;
  m_sequences : list nat;
  m_labelGenerator : LabelGenerator;
  m_currentImages : list Mat;
  m_labelSampleLayout : ImageLayout;
  m_featureElementType : ElementType
}.

Definition set_imageSequences (this : ImageDataDeserializer) v :=
  {| m_imageSequences := v;
     m_sequences := m_sequences this;
     m_labelGenerator := m_labelGenerator this;
     m_currentImages := m_currentImages this;
     m_labelSampleLayout := m_labelSampleLayout this;
     m_featureElementType := m_featureElementType this |}.

Definition set_sequences (this : ImageDataDeserializer) v :=
  {| m_imageSequences := m_imageSequences this;
     m_sequences := v;
     m_labelGenerator := m_labelGenerator this;
     m_currentImages := m_currentImages this;
     m_labelSampleLayout := m_labelSampleLayout this;
     m_featureElementType := m_featureElementType this |}.

Definition set_labelGenerator (this : ImageDataDeserializer) v :=
  {| m_imageSequences := m_imageSequences this;
     m_sequences := m_sequences this;
     m_labelGenerator := v;
     m_currentImages := m_currentImages this;
     m_labelSampleLayout := m_labelSampleLayout this;
     m_featureElementType := m_featureElementType this |}.

Definition set_currentImages (this : ImageDataDeserializer) v :=
  {| m_imageSequences := m_imageSequences this;
     m_sequences := m_sequences this;
     m_labelGenerator := m_labelGenerator this;
     m_currentImages := v;
     m_labelSampleLayout := m_labelSampleLayout this;
     m_featureElementType := m_featureElementType this |}.

(** What the [data] pointer of a label sequence points to, in a state of
    the deserializer. *)
Definition deref_label (this : ImageDataDeserializer) (p : void_ptr)
  : option LabelBuffer :=
  match p with
  | label_data_ptr => Some (label_buffer (m_labelGenerator this))
  | image_data_ptr _ => None
  end.

Variable ndebug : bool.

(** *** [CreateSequenceDescriptions] *)

Definition tab : ascii := "009"%char.
Definition newline : ascii := "010"%char.

(** The two extractions of the condition
    [!std::getline(ss, imgPath, '\t') || !std::getline(ss, clsId, '\t')],
    the second one only when the first succeeded: the two fields, or
    [None] when the condition holds. *)
Definition read_columns (line : string) : option (string * string) :=
  let ss := Std.stringstream line in
  let '(ss, imgPath) := Std.getline ss "" tab in
  if negb (Std.to_bool ss) then None
  else
    let '(ss, clsId) := Std.getline ss "" tab in
    if negb (Std.to_bool ss) then None
    else Some (imgPath, clsId).

(** The body of the loop over the lines of the map file, for the line
    [line] with number [cline]: the loop variable [description] and
    the deserializer after the iteration. *)
Definition read_row (mapPath : string) (labelDimension : N)
    (line : string) (cline : N)
    (description : ImageSequenceDescription) (this : ImageDataDeserializer)
  : result (ImageSequenceDescription * ImageDataDeserializer) :=
  match read_columns line with
  | None =>
      RuntimeError
        "Invalid map file format, must contain 2 tab-delimited columns: %s, line: %d."
        [arg_string mapPath; arg_size_t cline]
  | Some (imgPath, clsId) =>
      let description :=
        {| id := cline;
           numberOfSamples := numberOfSamples description;
           chunkId := cline;
           isValid := isValid description;
           path := imgPath;
           classId := classId description |} in
      n <- Std.stoi clsId ;;
      let description := set_classId description (Std.size_t_of_int n) in
      _ <- assert ndebug (classId description <? labelDimension) ;;
      Ok (description,
          set_imageSequences this
            (Std.push_back (m_imageSequences this) description))
  end.

(** The loop [for (size_t cline = 0; std::getline(mapFile, line); cline++)].
    Every iteration that enters the body has consumed at least one
    character of the file. *)
Equations? read_rows (mapPath : string) (labelDimension : N)
    (mapFile : Std.istream) (line : string) (cline : N)
    (description : ImageSequenceDescription) (this : ImageDataDeserializer)
  : result ImageDataDeserializer
  by wf (String.length (Std.buf mapFile)) lt :=
  read_rows mapPath labelDimension mapFile line cline description this
    with inspect (Std.getline mapFile line newline) := {
    | exist _ (mapFile', line') Hgetline
        with inspect (Std.to_bool mapFile') := {
        | exist _ false _ := Ok this
        | exist _ true Hgood
            with read_row mapPath labelDimension line' cline description this := {
            | Err e := Err e
            | Ok (description', this') :=
                read_rows mapPath labelDimension mapFile' line' (cline + 1)
                          description' this' } } }.
Proof.
  clear read_rows. revert Hgetline Hgood.
  unfold Std.getline, Std.to_bool.
  destruct (Std.good mapFile); [| intros [= <- <-]; discriminate].
  assert (Hlen : forall s l r, Std.read_until newline s = (l, r) ->
            match r with
            | Some rest => (String.length rest < String.length s)%nat
            | None => l = s
            end).
  { induction s as [|c s IH]; simpl; intros l r Hr.
    - inversion Hr; reflexivity.
    - destruct (Ascii.eqb c newline).
      + inversion Hr; subst; simpl; lia.
      + destruct (Std.read_until newline s) as [l0 r0].
        inversion Hr; subst. specialize (IH l0 r eq_refl).
        destruct r; [simpl; lia | now subst]. }
  destruct (Std.read_until newline (Std.buf mapFile)) as [l r] eqn:Hr.
  specialize (Hlen _ _ _ Hr).
  destruct r; intros [= <- <-]; simpl.
  - intros _. exact Hlen.
  - subst l. destruct (Std.buf mapFile); [discriminate | simpl; lia].
Qed.

(** [CreateSequenceDescriptions(mapPath, labelDimension)].  The first
    statement, [UNREFERENCED_PARAMETER(labelDimension)], does nothing: it
    keeps the parameter referenced where the [assert] of the loop body
    expands to nothing. *)
Definition CreateSequenceDescriptions (fs : string -> option string)
    (this : ImageDataDeserializer) (mapPath : string) (labelDimension : N)
  : result ImageDataDeserializer :=
  let mapFile := Std.ifstream fs mapPath in
  if negb (Std.to_bool mapFile)
  then RuntimeError "Could not open %s for reading." [arg_string mapPath]
  else
    let line := "" in
    (* Only [numberOfSamples] and [isValid] are set before the loop; the
       other fields are assigned in the body before the description is
       stored. *)
    let description :=
      {| id := 0; numberOfSamples := 1; chunkId := 0; isValid := true;
         path := ""; classId := 0 |} in
    this <- read_rows mapPath labelDimension mapFile line 0 description this ;;
    Ok (fold_left
          (fun this sequence =>
             set_sequences this (Std.push_back (m_sequences this) sequence))
          (seq 0 (List.length (m_imageSequences this)))
          this).

(** *** The constructor *)

Definition new_ImageDataDeserializer (fs : string -> option string)
    (configHelper : ImageConfigHelper) : result ImageDataDeserializer :=
  let inputs := GetInputs_of_config configHelper in
  _ <- assert ndebug (Std.size inputs =? 2) ;;
  label <- Std.at_ inputs (GetLabelInputIndex configHelper) ;;
  feature <- Std.at_ inputs (GetFeatureInputIndex configHelper) ;;
  let labelDimension := GetHeight (sampleLayout label) in
  labelGenerator <-
    (if ElementType_eqb (elementType label) et_float
     then Ok (gen_float (new_TypedLabelGenerator labelDimension))
     else if ElementType_eqb (elementType label) et_double
     then Ok (gen_double (new_TypedLabelGenerator labelDimension))
     else RuntimeError "Unsupported label element type %ull."
                       [arg_ElementType (elementType label)]) ;;
  CreateSequenceDescriptions fs
    {| m_imageSequences := [];
       m_sequences := [];
       m_labelGenerator := labelGenerator;
       m_currentImages := [];
       m_labelSampleLayout := sampleLayout label;
       m_featureElementType := elementType feature |}
    (GetMapPath configHelper) labelDimension.

(** *** The reader interface *)

(** [GetInputs]: [assert(false)], then the throw. *)
Definition GetInputs (this : ImageDataDeserializer)
  : result (list InputDescription) :=
  _ <- assert ndebug false ;;
  throw_runtime_error "Not supported".

Definition SetEpochConfiguration (this : ImageDataDeserializer)
  : ImageDataDeserializer := this.

(** [GetSequenceDescriptions]: the timeline, a vector of pointers. *)
Definition GetSequenceDescriptions (this : ImageDataDeserializer) : list nat :=
  m_sequences this.

(** Reading entry [id] of the timeline through its pointer. *)
Definition lookup (this : ImageDataDeserializer) (id : N)
  : option ImageSequenceDescription :=
  match nth_error (GetSequenceDescriptions this) (N.to_nat id) with
  | Some p => nth_error (m_imageSequences this) p
  | None => None
  end.

(** The body of the loop of [GetSequencesById], for one [id]. *)
Definition GetSequencesById_body
    (this : ImageDataDeserializer) (result_ : list (list Sequence)) (id : N)
  : result (ImageDataDeserializer * list (list Sequence)) :=
  _ <- assert ndebug (id <? Std.size (m_imageSequences this)) ;;
  imageSequence <- Std.at_ (m_imageSequences this) id ;;
  let cvImage := imread (path imageSequence) in
  _ <- assert ndebug (isContinuous cvImage) ;;
  let dataType :=
    if ElementType_eqb (m_featureElementType this) et_float
    then CV_32F else CV_64F in
  let cvImage :=
    if negb (Z.eqb (type cvImage) (CV_MAKETYPE dataType (channels cvImage)))
    then convertTo cvImage dataType
    else cvImage in
  let image :=
    {| data := image_data_ptr (ptr cvImage);
       layout := ImageLayoutWHC (Std.size_t_of_int (cols cvImage))
                                (Std.size_t_of_int (rows cvImage))
                                (Std.size_t_of_int (channels cvImage));
       Sequence_numberOfSamples := numberOfSamples imageSequence |} in
  let this :=
    set_currentImages this (Std.push_back (m_currentImages this) cvImage) in
  labelGenerator <-
    GetLabelDataFor (m_labelGenerator this) (classId imageSequence) ;;
  let this := set_labelGenerator this labelGenerator in
  let label :=
    {| data := label_data_ptr;
       layout := m_labelSampleLayout this;
       Sequence_numberOfSamples := numberOfSamples imageSequence |} in
  Ok (this, Std.push_back result_ [image; label]).

(** [for (auto id : ids)]. *)
Fixpoint GetSequencesById_loop
    (this : ImageDataDeserializer) (result_ : list (list Sequence))
    (ids : list N)
  : result (ImageDataDeserializer * list (list Sequence)) :=
  match ids with
  | [] => Ok (this, result_)
  | id :: ids' =>
      r <- GetSequencesById_body this result_ id ;;
      GetSequencesById_loop (fst r) (snd r) ids'
  end.

Definition GetSequencesById (this : ImageDataDeserializer) (ids : list N)
  : result (ImageDataDeserializer * list (list Sequence)) :=
  _ <- assert ndebug (0 <? Std.size ids) ;;
  (* Remove old images *)
  let this := set_currentImages this [] in
  GetSequencesById_loop this [] ids.

Definition RequireChunk (this : ImageDataDeserializer) (chunkIndex : N)
  : ImageDataDeserializer * bool := (this, true).

Definition ReleaseChunk (this : ImageDataDeserializer) (chunkIndex : N)
  : ImageDataDeserializer := this.

End Deserializer.

(** ** A concrete OpenCV for running the model *)

(** A matrix is its header (size, type) and the name of the file it was
    decoded from, which stands for the pixel data.  [imread] with
    [IMREAD_COLOR] gives a 2 x 2 matrix of three 8-bit channels whatever the
    file. *)
Module ToyCV.
Record mat := { m_file : string; m_depth : Z; m_cn : Z; m_cols : Z; m_rows : Z }.

Definition CV_8U : Z := 0.

#[export] Instance cv : OpenCV :=
  {| Mat := mat;
     uchar_ptr := string * Z;
     imread p := {| m_file := p; m_depth := CV_8U; m_cn := 3; m_cols := 2; m_rows := 2 |};
     isContinuous _ := true;
     type m := CV_MAKETYPE (m_depth m) (m_cn m);
     channels := m_cn;
     cols := m_cols;
     rows := m_rows;
     convertTo m rtype :=
       {| m_file := m_file m; m_depth := Z.land rtype CV_MAT_DEPTH_MASK;
          m_cn := m_cn m; m_cols := m_cols m; m_rows := m_rows m |};
     ptr m := (m_file m, m_depth m) |}.
End ToyCV.

(** ** Vocabulary of the statements *)

(** A run of calls of [GetLabelDataFor] on one generator. *)
Fixpoint generate_all {T} `{TElement T}
    (g : TypedLabelGenerator T) (classIds : list N)
  : result (TypedLabelGenerator T) :=
  match classIds with
  | [] => Ok g
  | c :: cs => g' <- GetLabelDataFor_typed g c ;; generate_all g' cs
  end.

(** The number of elements of the buffer of a generator. *)
Definition dimension (g : LabelGenerator) : N :=
  match g with
  | gen_float g => Std.size (m_labelData g)
  | gen_double g => Std.size (m_labelData g)
  end.

(** The one-hot buffer for [classId], in the representation and of the
    dimension of the generator [g]. *)
Definition one_hot_buffer (g : LabelGenerator) (classId : N) : LabelBuffer :=
  match g with
  | gen_float g =>
      buf_float (one_hot (List.length (m_labelData g)) (N.to_nat classId))
  | gen_double g =>
      buf_double (one_hot (List.length (m_labelData g)) (N.to_nat classId))
  end.

(** *** Map files *)

(** The character [c] does not occur in [s]. *)
Fixpoint absent (c : ascii) (s : string) : bool :=
  match s with
  | EmptyString => true
  | String a s' => negb (Ascii.eqb a c) && absent c s'
  end.

Fixpoint all_digits (s : string) : bool :=
  match s with
  | EmptyString => true
  | String a s' => Std.isdigit a && all_digits s'
  end.

(** A base-10 non-negative integer: one decimal digit or more. *)
Definition decimal (s : string) : bool :=
  match s with
  | EmptyString => false
  | _ => all_digits s
  end.

Fixpoint decimal_value_from (acc : Z) (s : string) : Z :=
  match s with
  | EmptyString => acc
  | String a s' => decimal_value_from (10 * acc + Std.digit_value a)%Z s'
  end.

Definition decimal_value (s : string) : Z := decimal_value_from 0 s.

(** The text of a row with the two fields [path] and [classId]. *)
Definition row_text (r : string * string) : string :=
  fst r ++ String tab (snd r).

(** The class id of a row, as the number its text denotes. *)
Definition row_classId (r : string * string) : N := Z.to_N (decimal_value (snd r)).

(** A file made of the given lines, each ended by a newline. *)
Fixpoint manifest_text (lines : list string) : string :=
  match lines with
  | [] => ""
  | l :: ls => l ++ String newline (manifest_text ls)
  end.

(** A well-formed row for a label dimension: a path without tab or
    newline, and a class id that is a base-10 non-negative integer (within
    the range of [int]) strictly less than the label dimension. *)
Definition well_formed_row (labelDimension : N) (r : string * string) : bool :=
  absent tab (fst r) && absent newline (fst r)
  && decimal (snd r)
  && (decimal_value (snd r) <=? Std.INT_MAX)%Z
  && (row_classId r <? labelDimension).

(** The number of tab-delimited fields of a line. *)
Fixpoint field_count (line : string) : nat :=
  match line with
  | EmptyString => 1
  | String a s' => if Ascii.eqb a tab then S (field_count s') else field_count s'
  end.

(** What the loop body makes of a line, when it accepts it: the path and
    the class id it stores. *)
Definition parse_row (line : string) : option (string * N) :=
  match read_columns line with
  | Some (imgPath, clsId) =>
      match Std.stoi clsId with
      | Ok n => Some (imgPath, Std.size_t_of_int n)
      | Err _ => None
      end
  | None => None
  end.

(** A line without newline that the loop body reads without error. *)
Definition accepted_line (ndebug : bool) (labelDimension : N) (line : string) : bool :=
  absent newline line &&
  match parse_row line with
  | Some (_, c) => ndebug || (c <? labelDimension)
  | None => false
  end.

(** The descriptions appended for a run of accepted lines that starts at
    line number [cline]; [samples] and [valid] are the [numberOfSamples]
    and [isValid] of the loop variable. *)
Fixpoint descriptions_of (samples : N) (valid : bool) (cline : N)
    (lines : list string) : list ImageSequenceDescription :=
  match lines with
  | [] => []
  | l :: ls =>
      match parse_row l with
      | Some (p, c) =>
          {| id := cline;
             numberOfSamples := samples;
             chunkId := cline;
             isValid := valid;
             path := p;
             classId := c |} :: descriptions_of samples valid (cline + 1) ls
      | None => []
      end
  end.

(** A stream just opened on the text [s]. *)
Definition fresh (s : string) : Std.istream :=
  {| Std.buf := s; Std.eofbit := false; Std.failbit := false |}.

(** *** Configurations and states *)

(** The two label element types the constructor has a generator for. *)
Definition supported_label_type (e : ElementType) : bool :=
  match e with
  | et_float | et_double => true
  | et_atom => false
  end.

(** The format strings of the three calls of [RuntimeError]. *)
Definition could_not_open : string := "Could not open %s for reading.".
Definition invalid_map_file : string :=
  "Invalid map file format, must contain 2 tab-delimited columns: %s, line: %d.".
Definition unsupported_label_type : string := "Unsupported label element type %ull.".

(** The label dimension of a deserializer: the height of its label layout. *)
Definition labelDimension_of {cv : OpenCV} (this : ImageDataDeserializer) : N :=
  GetHeight (m_labelSampleLayout this).

(** The invariant of the data model: the timeline points to the
    descriptions in order, every class id is below the label dimension,
    and the label buffer has the label dimension. *)
Definition well_formed {cv : OpenCV} (this : ImageDataDeserializer) : Prop :=
  m_sequences this = seq 0 (List.length (m_imageSequences this))
  /\ Forall (fun s => classId s < labelDimension_of this) (m_imageSequences this)
  /\ dimension (m_labelGenerator this) = labelDimension_of this.

(** The state [CreateSequenceDescriptions] leaves when it has appended
    the descriptions [added]. *)
Definition with_descriptions {cv : OpenCV} (this : ImageDataDeserializer)
    (added : list ImageSequenceDescription) : ImageDataDeserializer :=
  set_sequences
    (set_imageSequences this (m_imageSequences this ++ added))
    (m_sequences this
     ++ seq 0 (List.length (m_imageSequences this ++ added))).

(** The members other than [m_imageSequences] are the same in both
    states. *)
Definition same_but_descriptions {cv : OpenCV}
    (this this' : ImageDataDeserializer) : Prop :=
  m_sequences this' = m_sequences this
  /\ m_labelGenerator this' = m_labelGenerator this
  /\ m_currentImages this' = m_currentImages this
  /\ m_labelSampleLayout this' = m_labelSampleLayout this
  /\ m_featureElementType this' = m_featureElementType this.

(** *** Payloads *)

Section Payloads.
Context {cv : OpenCV}.

(** The matrix [GetSequencesById] keeps for a description: the decoded
    file, converted when its type is not the one of the feature stream. *)
Definition decoded_image (featureElementType : ElementType)
    (imageSequence : ImageSequenceDescription) : Mat :=
  let cvImage := imread (path imageSequence) in
  let dataType :=
    if ElementType_eqb featureElementType et_float then CV_32F else CV_64F in
  if negb (Z.eqb (type cvImage) (CV_MAKETYPE dataType (channels cvImage)))
  then convertTo cvImage dataType
  else cvImage.

(** The feature payload of a description. *)
Definition image_sequence (featureElementType : ElementType)
    (imageSequence : ImageSequenceDescription) : Sequence :=
  let cvImage := decoded_image featureElementType imageSequence in
  {| data := image_data_ptr (ptr cvImage);
     layout := ImageLayoutWHC (Std.size_t_of_int (cols cvImage))
                              (Std.size_t_of_int (rows cvImage))
                              (Std.size_t_of_int (channels cvImage));
     Sequence_numberOfSamples := numberOfSamples imageSequence |}.

(** The label payload of a description: it points to the buffer of the
    generator. *)
Definition label_sequence (labelSampleLayout : ImageLayout)
    (imageSequence : ImageSequenceDescription) : Sequence :=
  {| data := label_data_ptr;
     layout := labelSampleLayout;
     Sequence_numberOfSamples := numberOfSamples imageSequence |}.

(** The pair returned for a description. *)
Definition sequence_pair (this : ImageDataDeserializer)
    (imageSequence : ImageSequenceDescription) : list Sequence :=
  [ image_sequence (m_featureElementType this) imageSequence;
    label_sequence (m_labelSampleLayout this) imageSequence ].

(** The images of the requested ids decode to continuous matrices; this
    matters only where the assertion on it is compiled in. *)
Definition decodable (ndebug : bool) (this : ImageDataDeserializer)
    (ids : list N) : Prop :=
  ndebug = false ->
  forall i imageSequence,
    In i ids ->
    nth_error (m_imageSequences this) (N.to_nat i) = Some imageSequence ->
    isContinuous (imread (path imageSequence)) = true.

(** The part of a state that [GetSequencesById] leaves alone. *)
Definition same_catalog (this this' : ImageDataDeserializer) : Prop :=
  m_imageSequences this' = m_imageSequences this
  /\ m_sequences this' = m_sequences this
  /\ m_labelSampleLayout this' = m_labelSampleLayout this
  /\ m_featureElementType this' = m_featureElementType this.
End Payloads.

(** Two generators of the same representation and dimension. *)
Definition same_shape (g g' : LabelGenerator) : Prop :=
  match g, g' with
  | gen_float a, gen_float b
  | gen_double a, gen_double b =>
      List.length (m_labelData a) = List.length (m_labelData b)
  | _, _ => False
  end.

(** A computation that returned, or stopped at a failed assertion. *)
Definition returns_or_asserts {A} (r : result A) : Prop :=
  match r with
  | Ok _ => True
  | Err e => e = assertion_failure
  end.

(** The OpenCV type of the images of a feature stream: [CV_32F] for
    [et_float], [CV_64F] for every other element type, with the channels
    of the image. *)
Definition feature_type {cv : OpenCV} (featureElementType : ElementType)
    (m : Mat) : Z :=
  CV_MAKETYPE
    (if ElementType_eqb featureElementType et_float then CV_32F else CV_64F)
    (channels m).

(** What OpenCV documents of [convertTo] to a floating-point depth: the
    result has that depth and the channels of the source. *)
Definition convertTo_to_depth {cv : OpenCV} : Prop :=
  forall m depth,
    depth = CV_32F \/ depth = CV_64F ->
    type (convertTo m depth) = CV_MAKETYPE depth (channels m)
    /\ channels (convertTo m depth) = channels m.

(** Text that [std::stoi] does not read as a number: it starts with a
    character that is neither a digit, nor a sign, nor white space. *)
Definition not_a_number (c : string) : bool :=
  match c with
  | EmptyString => false
  | String a _ =>
      negb (Std.isdigit a) && negb (Std.isspace a)
      && negb (Ascii.eqb a "-") && negb (Ascii.eqb a "+")
  end.

(** Text that may follow the digits of the class id on a line: nothing, or
    anything without newline that does not start with a digit. *)
Definition ignored_tail (tail : string) : bool :=
  absent newline tail
  && match tail with
     | EmptyString => true
     | String a _ => negb (Std.isdigit a)
     end.

(** The text of a row followed by a tail. *)
Definition tailed_row_text (r : (string * string) * string) : string :=
  row_text (fst r) ++ snd r.

(** The description the loop stores for line [cline] with the given path
    and class id. *)
Definition description_of_row (cline : N) (p : string) (c : N)
  : ImageSequenceDescription :=
  {| id := cline; numberOfSamples := 1; chunkId := cline; isValid := true;
     path := p; classId := c |}.

(** *** The scenario of two rows *)

Module Scenario.
Import ToyCV.

Definition map_file : string :=
  manifest_text [row_text ("img0.png", "0"); row_text ("img1.png", "2")].

Definition fs (p : string) : option string :=
  if String.eqb p "map.txt" then Some map_file else None.

(** Two streams: the features first, then a label stream of dimension 3. *)
Definition config (labelType : ElementType) : ImageConfigHelper :=
  {| GetInputs_of_config :=
       [ {| elementType := et_float; sampleLayout := ImageLayoutWHC 2 2 3 |};
         {| elementType := labelType; sampleLayout := ImageLayoutWHC 1 3 1 |} ];
     GetLabelInputIndex := 1;
     GetFeatureInputIndex := 0;
     GetMapPath := "map.txt" |}.

(** A file system with one map file of the given lines. *)
Definition fs_of (lines : list string) (p : string) : option string :=
  if String.eqb p "map.txt" then Some (manifest_text lines) else None.

(** The state in which the constructor calls
    [CreateSequenceDescriptions], for a float label stream. *)
Definition initial : ImageDataDeserializer :=
  {| m_imageSequences := [];
     m_sequences := [];
     m_labelGenerator := gen_float (new_TypedLabelGenerator 3);
     m_currentImages := [];
     m_labelSampleLayout := ImageLayoutWHC 1 3 1;
     m_featureElementType := et_float |}.

(** A line of three fields. *)
Definition three_fields : string :=
  "img0.png" ++ String tab ("1" ++ String tab "extra").

Definition zero : float := of_int 0%Z.
Definition one : float := of_int 1%Z.

(** The deserializer the constructor builds for the scenario. *)
Definition deserializer : ImageDataDeserializer :=
  {| m_imageSequences :=
       [ {| id := 0; numberOfSamples := 1; chunkId := 0; isValid := true;
            path := "img0.png"; classId := 0 |};
         {| id := 1; numberOfSamples := 1; chunkId := 1; isValid := true;
            path := "img1.png"; classId := 2 |} ];
     m_sequences := [0%nat; 1%nat];
     m_labelGenerator := gen_float {| m_labelData := [zero; zero; zero] |};
     m_currentImages := [];
     m_labelSampleLayout := ImageLayoutWHC 1 3 1;
     m_featureElementType := et_float |}.
End Scenario.

(** *** Further map files *)

Module Examples.

(** A file system with one map file of the given content. *)
Definition fs_text (content : string) (p : string) : option string :=
  if String.eqb p "map.txt" then Some content else None.

Definition carriage_return : string := String "013"%char "".

(** Two rows with their tails: a carriage return, and a third field. *)
Definition tailed_rows : list ((string * string) * string) :=
  [ (("img0.png", "0"), carriage_return);
    (("img1.png", "2"), String tab "extra") ].

End Examples.

(** ** SimpleEvaluator *)

(** [SimpleEvaluator<ElemType>::Evaluate] and [DisplayEvalStatistics], from
    [SimpleEvaluator.h].  The network and the data reader are external: the
    network is the [ComputationNetwork] interface, and a run of the reader
    is the list of the minibatches it delivers, each with what the network
    answers for it.  The calls that only act on the network or on the
    reader ([AllocateAllMatrices], [StartMinibatchLoop],
    [StartEvaluateMinibatchLoop], [BumpEvalTimeStamp], [DataEnd]) leave
    no trace here.  What the code prints is kept as a list of [Printed]
    events; what was printed before an exception is not part of an [Err]
    result. *)

(** Arithmetic of [double] (IEEE 754 binary64). *)
Definition double_add (a b : double) : double :=
  mk_double (SFadd 53 1024 (double_val a) (double_val b)).
Definition double_sub (a b : double) : double :=
  mk_double (SFsub 53 1024 (double_val a) (double_val b)).
Definition double_div (a b : double) : double :=
  mk_double (SFdiv 53 1024 (double_val a) (double_val b)).

(** The conversion of a [size_t] to [double]. *)
Definition double_of_size_t (n : N) : double := of_int (Z.of_N n).

Definition NaN : double := mk_double S754_nan.

(** [size_t] addition. *)
Definition size_t_add (a b : N) : N := (a + b) mod 18446744073709551616.

(** What [Evaluate] reads of the network: its default evaluation and
    criterion nodes, the node of a name (the call may throw), and for a
    node its number of elements
    ([GetSampleLayout().GetNumElements()]), its name and the name of its
    operation.  Nodes are shared pointers, compared by address. *)
Class ComputationNetwork := {
  Node : Type;
  Node_eq_dec : forall a b : Node, {a = b} + {a <> b};
  EvaluationNodes : list Node;
  FinalCriterionNodes : list Node;
  GetNodeFromName : string -> result Node;
  GetNumElements : Node -> N;
  NodeName : Node -> string;
  OperationName : Node -> string
}.

(** One turn of the minibatch loop, seen from [Evaluate]:
    [GetMinibatchIntoNetwork] returned true, [GetNumSamplesWithLabel]
    answers [numSamplesWithLabel], and after [ForwardProp] the node [n]
    holds [Get00Element n]. *)
Record Minibatch {net : ComputationNetwork} := {
  numSamplesWithLabel : N;
  Get00Element : Node -> double
}.

Inductive Printed :=
| stderr_default_nodes
    (* "evalNodeNames are not specified, using all the default evalnodes
       and training criterion nodes.\n" *)
| stderr_minibatch (startMBNum endMBNum numSamplesLastMBs : N)
    (* "Minibatch[%lu-%lu]: SamplesSeen = %lu    " *)
| stderr_criterion (name operation : string) (eresult : double)
    (* "%ls: %ls/Sample = %.8g    " *)
| stderr_perplexity (value : double)        (* "Perplexity = %.8g    " *)
| stderr_newline                            (* "\n" *)
| stderr_final_results                      (* "Final Results: " *)
| stdout_progress.                          (* "PROGRESS: %.2f%%\n", 0.0f *)

Section SimpleEvaluator.
Context {net : ComputationNetwork}.

(** The exception [InvalidArgument] raises for a message; the helper is
    declared in the CNTK basics header and does not return. *)
Variable InvalidArgument_exception : string -> Error.

Definition InvalidArgument {A} (msg : string) : result A :=
  Err (InvalidArgument_exception msg).

(** The operation names [OperationNameOf] gives for the four node classes
    whose criterion is also shown as a perplexity. *)
Variable perplexity_operations : string * string * string * string.

(** [std::exp]. *)
Variable exp : double -> double.

(** [ProgressTracing::GetTracingFlag()]. *)
Variable GetTracingFlag : bool.

(** The members [m_numMBsToShowResult] and [m_traceLevel]. *)
Variable m_numMBsToShowResult : N.
Variable m_traceLevel : Z.

(** [criteriaLogged.insert(node)] on a [std::set]: the set after the call
    and whether the node was inserted. *)
Definition set_insert (criteriaLogged : list Node) (node : Node)
  : list Node * bool :=
  if in_dec Node_eq_dec node criteriaLogged
  then (criteriaLogged, false)
  else (node :: criteriaLogged, true).

(** [for (const auto& node : nodes)
       if (criteriaLogged.insert(node).second) evalNodes.push_back(node);] *)
Fixpoint log_nodes (nodes : list Node) (criteriaLogged evalNodes : list Node)
  : list Node * list Node :=
  match nodes with
  | [] => (criteriaLogged, evalNodes)
  | node :: nodes' =>
      let (criteriaLogged, inserted) := set_insert criteriaLogged node in
      log_nodes nodes' criteriaLogged
                (if inserted then Std.push_back evalNodes node else evalNodes)
  end.

(** The loop over [evalNodeNames] of the branch with names. *)
Fixpoint named_nodes (evalNodeNames : list string)
    (criteriaLogged evalNodes : list Node) : result (list Node) :=
  match evalNodeNames with
  | [] => Ok evalNodes
  | name :: names' =>
      node <- GetNodeFromName name ;;
      let (criteriaLogged, inserted) := set_insert criteriaLogged node in
      if negb inserted then named_nodes names' criteriaLogged evalNodes
      else if negb (GetNumElements node =? 1)
      then InvalidArgument "Criterion nodes to evaluate must have dimension 1x1."
      else named_nodes names' criteriaLogged (Std.push_back evalNodes node)
  end.

(** "determine nodes to evaluate": the vector [evalNodes] of [Evaluate]. *)
Definition determine_evalNodes (evalNodeNames : list string)
  : result (list Node) :=
  if Std.size evalNodeNames =? 0
  then
    _ <- (if match EvaluationNodes with [] => true | _ => false end
             && match FinalCriterionNodes with [] => true | _ => false end
          then InvalidArgument
                 "There is no default evaluation node or training criterion specified in the network."
          else Ok tt) ;;
    let (criteriaLogged, evalNodes) := log_nodes EvaluationNodes [] [] in
    let (criteriaLogged, evalNodes) :=
      log_nodes FinalCriterionNodes criteriaLogged evalNodes in
    Ok evalNodes
  else named_nodes evalNodeNames [] [].

(** [evalNodes[i]->OperationName() == OperationNameOf(...) || ...]. *)
Definition shows_perplexity (node : Node) : bool :=
  let '(a, b, c, d) := perplexity_operations in
  String.eqb (OperationName node) a || String.eqb (OperationName node) b
  || String.eqb (OperationName node) c || String.eqb (OperationName node) d.

(** The loop of [DisplayEvalStatistics] over [i < evalResults.size()], for
    the indices [is_]. *)
Fixpoint display_nodes (is_ : list nat) (numSamplesLastMBs : N)
    (evalNodes : list Node) (evalResults evalResultsLastMBs : list double)
    (displayConvertedValue : bool) : result (list Printed) :=
  match is_ with
  | [] => Ok []
  | i :: is' =>
      r <- Std.at_ evalResults (N.of_nat i) ;;
      l <- Std.at_ evalResultsLastMBs (N.of_nat i) ;;
      node <- Std.at_ evalNodes (N.of_nat i) ;;
      let eresult :=
        double_div (double_sub r l) (double_of_size_t numSamplesLastMBs) in
      rest <- display_nodes is' numSamplesLastMBs evalNodes evalResults
                            evalResultsLastMBs displayConvertedValue ;;
      Ok (stderr_criterion (NodeName node) (OperationName node) eresult
          :: (if displayConvertedValue && shows_perplexity node
              then [stderr_perplexity (exp eresult)] else [])
          ++ rest)
  end.

(** [DisplayEvalStatistics] on vectors: what it prints. *)
Definition DisplayEvalStatistics (startMBNum endMBNum numSamplesLastMBs : N)
    (evalNodes : list Node) (evalResults evalResultsLastMBs : list double)
    (displayConvertedValue : bool) : result (list Printed) :=
  lines <- display_nodes (seq 0 (List.length evalResults)) numSamplesLastMBs
                         evalNodes evalResults evalResultsLastMBs
                         displayConvertedValue ;;
  Ok (stderr_minibatch startMBNum endMBNum numSamplesLastMBs
      :: lines ++ [stderr_newline]).

(** [DisplayEvalStatistics] on two scalars. *)
Definition DisplayEvalStatistics_scalar
    (startMBNum endMBNum numSamplesLastMBs : N) (evalNodes : list Node)
    (evalResults evalResultsLastMBs : double) (displayConvertedValue : bool)
  : result (list Printed) :=
  let evaR := Std.push_back [] evalResults in
  let evaLast := Std.push_back [] evalResultsLastMBs in
  DisplayEvalStatistics startMBNum endMBNum numSamplesLastMBs evalNodes
                        evaR evaLast displayConvertedValue.

(** The local variables of [Evaluate] that the minibatch loop updates, and
    what has been printed. *)
Record EvaluateState := {
  evalResults : list double;
  totalEpochSamples : N;
  numMBsRun : N;
  numSamplesLastMBs : N;
  lastMBsRun : N;
  evalResultsLastMBs : list double;
  numItersSinceLastPrintOfProgress : N;
  printed : list Printed
}.

(** [for (i < evalNodes.size())
       { ForwardProp(evalNodes[i]); evalResults[i] += Get00Element(); }],
    for the indices [is_]. *)
Fixpoint accumulate (is_ : list nat) (mb : Minibatch) (evalNodes : list Node)
    (evalResults : list double) : result (list double) :=
  match is_ with
  | [] => Ok evalResults
  | i :: is' =>
      node <- Std.at_ evalNodes (N.of_nat i) ;;
      r <- Std.at_ evalResults (N.of_nat i) ;;
      accumulate is' mb evalNodes
                 (Std.assign evalResults i (double_add r (Get00Element mb node)))
  end.

(** [for (i < evalResults.size()) evalResultsLastMBs[i] = evalResults[i];],
    for the indices [is_]. *)
Fixpoint copy_results (is_ : list nat) (evalResults evalResultsLastMBs : list double)
  : result (list double) :=
  match is_ with
  | [] => Ok evalResultsLastMBs
  | i :: is' =>
      r <- Std.at_ evalResults (N.of_nat i) ;;
      _ <- Std.at_ evalResultsLastMBs (N.of_nat i) ;;
      copy_results is' evalResults (Std.assign evalResultsLastMBs i r)
  end.

Definition numIterationsBeforePrintingProgress : N := 100.

(** The state with the progress counter and the printed text replaced. *)
Definition with_progress (st : EvaluateState) (n : N) (out : list Printed)
  : EvaluateState :=
  {| evalResults := evalResults st;
     totalEpochSamples := totalEpochSamples st;
     numMBsRun := numMBsRun st;
     numSamplesLastMBs := numSamplesLastMBs st;
     lastMBsRun := lastMBsRun st;
     evalResultsLastMBs := evalResultsLastMBs st;
     numItersSinceLastPrintOfProgress := n;
     printed := out |}.

(** The body of the [while] loop, for one minibatch.  The remainder by
    [m_numMBsToShowResult] is undefined when that member is zero. *)
Definition minibatch_body (evalNodes : list Node) (st : EvaluateState)
    (mb : Minibatch) : result EvaluateState :=
  let samples := numSamplesWithLabel mb in
  results <- accumulate (seq 0 (List.length evalNodes)) mb evalNodes
                        (evalResults st) ;;
  let total := size_t_add (totalEpochSamples st) samples in
  let run := size_t_add (numMBsRun st) 1 in
  st1 <-
    (if (0 <? m_traceLevel)%Z
     then
       let samplesLastMBs := size_t_add (numSamplesLastMBs st) samples in
       if m_numMBsToShowResult =? 0 then Err undefined_behaviour
       else if run mod m_numMBsToShowResult =? 0
       then
         lines <- DisplayEvalStatistics (size_t_add (lastMBsRun st) 1) run
                    samplesLastMBs evalNodes results
                    (evalResultsLastMBs st) false ;;
         resultsLastMBs <-
           copy_results (seq 0 (List.length results)) results
                        (evalResultsLastMBs st) ;;
         Ok {| evalResults := results;
               totalEpochSamples := total;
               numMBsRun := run;
               numSamplesLastMBs := 0;
               lastMBsRun := run;
               evalResultsLastMBs := resultsLastMBs;
               numItersSinceLastPrintOfProgress :=
                 numItersSinceLastPrintOfProgress st;
               printed := printed st ++ lines |}
       else
         Ok {| evalResults := results;
               totalEpochSamples := total;
               numMBsRun := run;
               numSamplesLastMBs := samplesLastMBs;
               lastMBsRun := lastMBsRun st;
               evalResultsLastMBs := evalResultsLastMBs st;
               numItersSinceLastPrintOfProgress :=
                 numItersSinceLastPrintOfProgress st;
               printed := printed st |}
     else
       Ok {| evalResults := results;
             totalEpochSamples := total;
             numMBsRun := run;
             numSamplesLastMBs := numSamplesLastMBs st;
             lastMBsRun := lastMBsRun st;
             evalResultsLastMBs := evalResultsLastMBs st;
             numItersSinceLastPrintOfProgress :=
               numItersSinceLastPrintOfProgress st;
             printed := printed st |}) ;;
  if GetTracingFlag
  then
    let n := size_t_add (numItersSinceLastPrintOfProgress st1) 1 in
    if numIterationsBeforePrintingProgress <=? n
    then Ok (with_progress st1 0 (printed st1 ++ [stdout_progress]))
    else Ok (with_progress st1 n (printed st1))
  else Ok st1.

(** The [while] loop over the minibatches the reader delivers. *)
Fixpoint minibatch_loop (evalNodes : list Node) (st : EvaluateState)
    (minibatches : list Minibatch) : result EvaluateState :=
  match minibatches with
  | [] => Ok st
  | mb :: rest =>
      st <- minibatch_body evalNodes st mb ;;
      minibatch_loop evalNodes st rest
  end.

(** [for (i < evalResultsLastMBs.size()) evalResultsLastMBs[i] = 0;]. *)
Definition clear_results (evalResultsLastMBs : list double) : list double :=
  fold_left (fun v i => Std.assign v i (of_int 0%Z))
            (seq 0 (List.length evalResultsLastMBs)) evalResultsLastMBs.

(** [for (i < evalResults.size()) evalResults[i] /= totalEpochSamples;],
    for the indices [is_]. *)
Fixpoint divide_results (is_ : list nat) (totalEpochSamples : N)
    (evalResults : list double) : result (list double) :=
  match is_ with
  | [] => Ok evalResults
  | i :: is' =>
      r <- Std.at_ evalResults (N.of_nat i) ;;
      divide_results is' totalEpochSamples
        (Std.assign evalResults i
           (double_div r (double_of_size_t totalEpochSamples)))
  end.

(** [Evaluate(dataReader, evalNodeNames, mbSize, testSize)]: the values
    returned and what was printed. *)
Definition Evaluate (minibatches : list Minibatch) (evalNodeNames : list string)
  : result (list double * list Printed) :=
  let out :=
    if Std.size evalNodeNames =? 0 then [stderr_default_nodes] else [] in
  evalNodes <- determine_evalNodes evalNodeNames ;;
  (* initialize eval results *)
  let results0 := map (fun _ => of_int 0%Z) evalNodes in
  let resultsLastMBs0 := map (fun _ => of_int 0%Z) results0 in
  st <- minibatch_loop evalNodes
          {| evalResults := results0;
             totalEpochSamples := 0;
             numMBsRun := 0;
             numSamplesLastMBs := 0;
             lastMBsRun := 0;
             evalResultsLastMBs := resultsLastMBs0;
             numItersSinceLastPrintOfProgress := 0;
             printed := out |}
          minibatches ;;
  (* show last batch of results *)
  last <-
    (if (0 <? m_traceLevel)%Z && (0 <? numSamplesLastMBs st)
     then DisplayEvalStatistics (size_t_add (lastMBsRun st) 1) (numMBsRun st)
            (numSamplesLastMBs st) evalNodes (evalResults st)
            (evalResultsLastMBs st) false
     else Ok []) ;;
  (* final statistics *)
  let resultsLastMBs := clear_results (evalResultsLastMBs st) in
  final <- DisplayEvalStatistics 1 (numMBsRun st) (totalEpochSamples st)
             evalNodes (evalResults st) resultsLastMBs true ;;
  results <- divide_results (seq 0 (List.length (evalResults st)))
               (totalEpochSamples st) (evalResults st) ;;
  Ok (results,
      (printed st ++ last ++ [stderr_final_results] ++ final)%list).

End SimpleEvaluator.

(** The set of logged nodes and the vector of nodes hold the same nodes,
    and the vector holds each once. *)
Definition logged {net : ComputationNetwork} (criteriaLogged evalNodes : list Node) : Prop :=
  (forall n, In n criteriaLogged <-> In n evalNodes) /\ NoDup evalNodes.

(** The statistics lines of what was printed: first and last minibatch
    and number of samples of each "Minibatch[...]" line, in order. *)
Fixpoint minibatch_lines (out : list Printed) : list (N * N * N) :=
  match out with
  | [] => []
  | stderr_minibatch a b n :: out' => (a, b, n) :: minibatch_lines out'
  | _ :: out' => minibatch_lines out'
  end.

(** The statistics lines follow one another: each starts one minibatch
    after [previous], the end of the one before it. *)
Fixpoint chained (previous : N) (lines : list (N * N * N)) : Prop :=
  match lines with
  | [] => True
  | (a, b, _) :: rest => a = size_t_add previous 1 /\ chained b rest
  end.

(** The minibatch at which the last statistics line ends, [previous] when
    there is none. *)
Fixpoint last_end (previous : N) (lines : list (N * N * N)) : N :=
  match lines with
  | [] => previous
  | (_, b, _) :: rest => last_end b rest
  end.

(** The samples the statistics lines count, together. *)
Definition line_samples (lines : list (N * N * N)) : N :=
  fold_right (fun line total => snd line + total) 0 lines.

(** How many times "PROGRESS: ..." was printed on standard output. *)
Fixpoint progress_lines (out : list Printed) : N :=
  match out with
  | [] => 0
  | stdout_progress :: out' => 1 + progress_lines out'
  | _ :: out' => progress_lines out'
  end.

(** The number of labelled samples of a run of minibatches. *)
Definition sum_samples {net : ComputationNetwork} (minibatches : list Minibatch) : N :=
  fold_right (fun mb total => numSamplesWithLabel mb + total) 0 minibatches.

(** The value of [node] added up over a run of minibatches, in their order,
    from [start]. *)
Definition node_total {net : ComputationNetwork} (minibatches : list Minibatch)
    (node : Node) (start : double) : double :=
  fold_left (fun total mb => double_add total (Get00Element mb node))
            minibatches start.

(** The two vectors of results have one entry per node to evaluate. *)
Definition sized {net : ComputationNetwork} (evalNodes : list Node)
    (st : EvaluateState) : Prop :=
  List.length (evalResults st) = List.length evalNodes
  /\ List.length (evalResultsLastMBs st) = List.length evalNodes.

(** A small network: the nodes are numbers; node 7 has ten elements, the
    others one. *)
Module ToyNet.

#[export] Instance net : ComputationNetwork :=
  {| Node := N;
     Node_eq_dec := N.eq_dec;
     EvaluationNodes := [1; 2];
     FinalCriterionNodes := [2; 3];
     GetNodeFromName name :=
       if String.eqb name "err" then Ok 1
       else if String.eqb name "ce" then Ok 3
       else if String.eqb name "out" then Ok 7
       else Err (invalid_argument "GetNodeFromName");
     GetNumElements n := if n =? 7 then 10 else 1;
     NodeName n := if n =? 3 then "ce" else "node";
     OperationName n := if n =? 3 then "CrossEntropyWithSoftmax" else "ErrorPrediction" |}.

Definition perplexity_operations : string * string * string * string :=
  ("CrossEntropyWithSoftmax", "CrossEntropy",
   "ClassBasedCrossEntropyWithSoftmax", "NCEBasedCrossEntropyWithSoftmax").

(** A minibatch of [n] labelled samples in which every node holds 1. *)
Definition minibatch (n : N) : Minibatch :=
  {| numSamplesWithLabel := n; Get00Element := fun _ => of_int 1%Z |}.

End ToyNet.

(** * Properties *)

(** ** The label generator *)

Section LabelGeneratorFacts.
Context {T : Type} `{TElement T}.

Lemma fill_length (v : list T) (a : T) : List.length (Std.fill v a) = List.length v.
Proof. apply length_map. Qed.

Lemma assign_length (v : list T) (i : nat) (a : T) :
  List.length (Std.assign v i a) = List.length v.
Proof.
  revert i; induction v as [|x v IH]; intros [|i]; simpl; auto.
Qed.

Lemma fill_seq (v : list T) (a : T) (k : nat) :
  Std.fill v a = map (fun _ => a) (seq k (List.length v)).
Proof.
  revert k; induction v as [|x v IH]; intros k; simpl; [reflexivity|].
  f_equal. apply IH.
Qed.

(** Zero-filling and then writing a one at [i] gives the one-hot vector,
    whatever the buffer held. *)
Lemma assign_fill_from (v : list T) (i k : nat) :
  (i < List.length v)%nat ->
  Std.assign (Std.fill v (of_int 0%Z)) i (of_int 1%Z)
  = map (fun j => if Nat.eqb j (k + i) then of_int 1%Z else of_int 0%Z)
        (seq k (List.length v)).
Proof.
  revert i k; induction v as [|x v IH]; intros i k Hi; simpl in *; [lia|].
  destruct i as [|i]; simpl.
  - rewrite Nat.add_0_r, Nat.eqb_refl. f_equal.
    rewrite (fill_seq v _ (S k)). apply map_ext_in.
    intros j Hj. apply in_seq in Hj.
    destruct (Nat.eqb_spec j k); [lia | reflexivity].
  - destruct (Nat.eqb_spec k (k + S i)); [lia|]. f_equal.
    rewrite (IH i (S k)) by lia. apply map_ext.
    intros j. now replace (S k + i)%nat with (k + S i)%nat by lia.
Qed.

Lemma GetLabelDataFor_typed_one_hot (g : TypedLabelGenerator T) (classId : N) :
  classId < Std.size (m_labelData g) ->
  GetLabelDataFor_typed g classId
  = Ok {| m_labelData :=
            one_hot (List.length (m_labelData g)) (N.to_nat classId) |}.
Proof.
  intros Hc. unfold GetLabelDataFor_typed, Std.size in *.
  rewrite fill_length.
  apply N.ltb_lt in Hc as Hb. rewrite Hb.
  rewrite (assign_fill_from _ _ 0%nat) by lia. reflexivity.
Qed.

Lemma one_hot_length (n c : nat) : List.length (one_hot (T:=T) n c) = n.
Proof. unfold one_hot. now rewrite length_map, length_seq. Qed.

Lemma one_hot_nth (n c i : nat) :
  (i < n)%nat ->
  nth_error (one_hot (T:=T) n c) i
  = Some (if Nat.eqb i c then of_int 1%Z else of_int 0%Z).
Proof.
  intros Hi. unfold one_hot.
  rewrite nth_error_map, nth_error_seq.
  destruct (Nat.ltb_spec i n); [reflexivity | lia].
Qed.

Lemma new_TypedLabelGenerator_size (dimensions : N) :
  Std.size (m_labelData (new_TypedLabelGenerator (T:=T) dimensions)) = dimensions.
Proof.
  unfold new_TypedLabelGenerator, Std.resize_empty, Std.size; simpl.
  rewrite repeat_length. apply N2Nat.id.
Qed.

(** A run of calls with class ids below the dimension succeeds and keeps
    the size of the buffer. *)
Lemma generate_all_size (g : TypedLabelGenerator T) (classIds : list N) :
  Forall (fun c => c < Std.size (m_labelData g)) classIds ->
  exists g', generate_all g classIds = Ok g'
             /\ Std.size (m_labelData g') = Std.size (m_labelData g).
Proof.
  revert g; induction classIds as [|c cs IH]; intros g Hall; simpl.
  - eauto.
  - inversion Hall as [|? ? Hc Hcs]; subst.
    rewrite GetLabelDataFor_typed_one_hot by assumption. simpl.
    set (g1 := {| m_labelData := one_hot _ _ |}).
    assert (Hsz : Std.size (m_labelData g1) = Std.size (m_labelData g)).
    { unfold g1, Std.size; simpl. now rewrite one_hot_length. }
    destruct (IH g1) as (g' & Hrun & Hsize).
    + now rewrite Hsz.
    + exists g'. split; [exact Hrun | congruence].
Qed.

(** C1.  A generator built for [labelDimension] elements, after any run of
    earlier calls with class ids in range, answers a call for a class id
    in range with a buffer of exactly [labelDimension] elements that holds
    the one at position [classId] and the zero at every other position:
    nothing of the earlier calls is left. *)
Theorem GetLabelDataFor_one_hot_after_any_calls
    (labelDimension : N) (earlier : list N) (classId : N) :
  Forall (fun c => c < labelDimension) earlier ->
  classId < labelDimension ->
  exists g g',
    generate_all (new_TypedLabelGenerator labelDimension) earlier = Ok g
    /\ GetLabelDataFor_typed g classId = Ok g'
    /\ Std.size (m_labelData g') = labelDimension
    /\ forall i, i < labelDimension ->
         nth_error (m_labelData g') (N.to_nat i)
         = Some (if i =? classId then of_int 1%Z else of_int 0%Z).
Proof.
  intros Hearlier Hc.
  destruct (generate_all_size (new_TypedLabelGenerator labelDimension) earlier)
    as (g & Hrun & Hsize).
  { now rewrite new_TypedLabelGenerator_size. }
  rewrite new_TypedLabelGenerator_size in Hsize.
  exists g. eexists. split; [exact Hrun|].
  split; [apply GetLabelDataFor_typed_one_hot; now rewrite Hsize|].
  simpl. unfold Std.size in *. split.
  - now rewrite one_hot_length.
  - intros i Hi. rewrite one_hot_nth by lia. f_equal.
    destruct (N.eqb_spec i classId) as [->|Hne].
    + now rewrite Nat.eqb_refl.
    + destruct (Nat.eqb_spec (N.to_nat i) (N.to_nat classId)) as [He|]; [|reflexivity].
      apply N2Nat.inj in He. contradiction.
Qed.

End LabelGeneratorFacts.

(** The one and the zero differ in both representations. *)
Lemma float_one_neq_zero : of_int (T:=float) 1%Z <> of_int 0%Z.
Proof. discriminate. Qed.

Lemma double_one_neq_zero : of_int (T:=double) 1%Z <> of_int 0%Z.
Proof. discriminate. Qed.

Lemma GetLabelDataFor_one_hot_after_any_calls_witness :
  exists g g',
    generate_all (new_TypedLabelGenerator (T:=float) 3) [2; 0] = Ok g
    /\ GetLabelDataFor_typed g 1 = Ok g'
    /\ Std.size (m_labelData g') = 3
    /\ forall i, i < 3 ->
         nth_error (m_labelData g') (N.to_nat i)
         = Some (if i =? 1 then of_int 1%Z else of_int 0%Z).
Proof.
  apply (GetLabelDataFor_one_hot_after_any_calls (T:=float) 3 [2; 0] 1).
  - repeat constructor.
  - reflexivity.
Defined.

(** ** Streams and [std::getline] *)

Lemma read_until_delim (d : ascii) (l rest : string) :
  absent d l = true ->
  Std.read_until d (l ++ String d rest) = (l, Some rest).
Proof.
  induction l as [|a l IH]; simpl; intros Hl.
  - now rewrite Ascii.eqb_refl.
  - apply andb_prop in Hl as [Ha Hl]. apply negb_true_iff in Ha.
    now rewrite Ha, IH.
Qed.

Lemma read_until_end (d : ascii) (l : string) :
  absent d l = true -> Std.read_until d l = (l, None).
Proof.
  induction l as [|a l IH]; simpl; intros Hl; [reflexivity|].
  apply andb_prop in Hl as [Ha Hl]. apply negb_true_iff in Ha.
  now rewrite Ha, IH.
Qed.

Lemma read_until_shorter (d : ascii) (s l : string) (r : option string) :
  Std.read_until d s = (l, r) ->
  match r with
  | Some rest => (String.length rest < String.length s)%nat
  | None => l = s
  end.
Proof.
  revert l r; induction s as [|c s IH]; simpl; intros l r Hr.
  - now inversion Hr.
  - destruct (Ascii.eqb c d).
    + inversion Hr; subst; simpl; lia.
    + destruct (Std.read_until d s) as [l0 r0].
      inversion Hr; subst. specialize (IH l0 r eq_refl).
      destruct r; [simpl; lia | now subst].
Qed.

(** A successful [getline] has consumed at least one character. *)
Lemma getline_consumes (strm strm' : Std.istream) (str line : string) (d : ascii) :
  Std.getline strm str d = (strm', line) ->
  Std.to_bool strm' = true ->
  (String.length (Std.buf strm') < String.length (Std.buf strm))%nat.
Proof.
  unfold Std.getline, Std.to_bool.
  destruct (Std.good strm); [| intros [= <- <-]; discriminate].
  destruct (Std.read_until d (Std.buf strm)) as [l r] eqn:Hr.
  apply read_until_shorter in Hr.
  destruct r; intros [= <- <-]; simpl.
  - intros _. exact Hr.
  - subst l. destruct (Std.buf strm); [discriminate | simpl; lia].
Qed.

Lemma getline_line (l rest str : string) :
  absent newline l = true ->
  Std.getline (fresh (l ++ String newline rest)) str newline = (fresh rest, l).
Proof.
  intros Hl. unfold Std.getline, fresh; simpl.
  now rewrite read_until_delim.
Qed.

Lemma getline_at_end (str : string) :
  Std.to_bool (fst (Std.getline (fresh "") str newline)) = false.
Proof. reflexivity. Qed.

(** ** The two columns of a line *)

Lemma read_columns_two (p c : string) :
  absent tab p = true -> absent tab c = true -> c <> "" ->
  read_columns (p ++ String tab c) = Some (p, c).
Proof.
  intros Hp Hc Hne. unfold read_columns, Std.stringstream, Std.getline; simpl.
  rewrite read_until_delim by assumption. simpl.
  rewrite read_until_end by assumption.
  destruct c; [contradiction | reflexivity].
Qed.

(** Fields after the second one are not looked at. *)
Lemma read_columns_more (p c extra : string) :
  absent tab p = true -> absent tab c = true ->
  read_columns (p ++ String tab (c ++ String tab extra)) = Some (p, c).
Proof.
  intros Hp Hc. unfold read_columns, Std.stringstream, Std.getline; simpl.
  rewrite read_until_delim by assumption. simpl.
  now rewrite read_until_delim by assumption.
Qed.

Lemma field_count_absent (line : string) :
  field_count line = 1%nat <-> absent tab line = true.
Proof.
  assert (Hpos : forall s, (1 <= field_count s)%nat).
  { induction s as [|a s IH]; simpl; [lia|]. destruct (Ascii.eqb a tab); lia. }
  induction line as [|a s IH]; simpl; [tauto|].
  destruct (Ascii.eqb a tab); simpl.
  - split; [|discriminate]. specialize (Hpos s). lia.
  - exact IH.
Qed.

(** A line with fewer than two fields, the empty line included, makes the
    condition of the format check true. *)
Lemma read_columns_one_field (line : string) :
  (field_count line < 2)%nat -> read_columns line = None.
Proof.
  intros Hf.
  assert (Ha : absent tab line = true).
  { apply field_count_absent.
    assert (1 <= field_count line)%nat; [|lia].
    clear. induction line as [|a s IH]; simpl; [lia|].
    destruct (Ascii.eqb a tab); lia. }
  unfold read_columns, Std.stringstream, Std.getline; simpl.
  rewrite read_until_end by assumption.
  destruct line; reflexivity.
Qed.

(** A line that ends right after its first tab is refused too. *)
Lemma read_columns_empty_second (p : string) :
  absent tab p = true -> read_columns (p ++ String tab "") = None.
Proof.
  intros Hp. unfold read_columns, Std.stringstream, Std.getline; simpl.
  now rewrite read_until_delim by assumption.
Qed.

(** ** [std::stoi] on decimal text *)

Lemma isdigit_not_delim (a : ascii) :
  Std.isdigit a = true ->
  Ascii.eqb a tab = false /\ Ascii.eqb a newline = false.
Proof.
  destruct a as [[] [] [] [] [] [] [] []]; try discriminate; now split.
Qed.

Lemma all_digits_absent (s : string) :
  all_digits s = true -> absent tab s = true /\ absent newline s = true.
Proof.
  induction s as [|a s IH]; simpl; [now split|].
  intros Hd. apply andb_prop in Hd as [Ha Hs].
  destruct (isdigit_not_delim a Ha) as [-> ->].
  destruct (IH Hs) as [-> ->]. now split.
Qed.

Lemma digits_all_digits (s : string) (acc : Z) :
  all_digits s = true ->
  Std.digits s (Some acc) = Some (decimal_value_from acc s).
Proof.
  revert acc; induction s as [|a s IH];
    cbn [all_digits decimal_value_from Std.digits]; intros acc Hd; [reflexivity|].
  apply andb_prop in Hd as [Ha Hs]. rewrite Ha. now apply IH.
Qed.

(** On text that starts with a digit, neither the white space nor the sign
    stage of [stoi] removes anything. *)
Lemma stoi_leading_digit (a : ascii) (s : string) :
  Std.isdigit a = true ->
  Std.stoi (String a s)
  = match Std.digits (String a s) None with
    | None => Err (invalid_argument "stoi")
    | Some v =>
        if ((Std.INT_MIN <=? v) && (v <=? Std.INT_MAX))%Z then Ok v
        else Err (out_of_range "stoi")
    end.
Proof.
  destruct a as [[] [] [] [] [] [] [] []]; try discriminate; reflexivity.
Qed.

Lemma decimal_value_from_nonneg (s : string) (acc : Z) :
  all_digits s = true -> (0 <= acc)%Z -> (0 <= decimal_value_from acc s)%Z.
Proof.
  revert acc; induction s as [|a s IH]; cbn [all_digits decimal_value_from];
    intros acc Hd Hacc; [assumption|].
  apply andb_prop in Hd as [Ha Hs]. apply IH; [assumption|].
  assert (0 <= Std.digit_value a)%Z; [|lia].
  unfold Std.isdigit, Std.digit_value in *.
  apply andb_prop in Ha as [Hlo _]. apply N.leb_le in Hlo. lia.
Qed.

Lemma stoi_decimal (c : string) :
  decimal c = true -> (decimal_value c <= Std.INT_MAX)%Z ->
  Std.stoi c = Ok (decimal_value c).
Proof.
  destruct c as [|a s]; [discriminate|].
  unfold decimal. intros Hd Hmax.
  pose proof (decimal_value_from_nonneg _ 0 Hd (Z.le_refl 0)) as Hnn.
  change (decimal_value_from 0 (String a s))
    with (decimal_value (String a s)) in Hnn.
  cbn [all_digits] in Hd. apply andb_prop in Hd as [Ha Hs].
  rewrite stoi_leading_digit by assumption.
  cbn [Std.digits]. rewrite Ha. rewrite digits_all_digits by assumption.
  change (decimal_value_from (10 * 0 + Std.digit_value a) s)
    with (decimal_value (String a s)).
  generalize dependent (decimal_value (String a s)). intros v Hmax Hnn.
  destruct (Z.leb_spec Std.INT_MIN v) as [_|Hlt];
    [| unfold Std.INT_MIN in Hlt; simpl in Hlt; lia].
  destruct (Z.leb_spec v Std.INT_MAX) as [_|Hgt]; [reflexivity | lia].
Qed.

(** The loop body reads a well-formed row as its path and class id. *)
Lemma parse_row_well_formed (labelDimension : N) (r : string * string) :
  well_formed_row labelDimension r = true ->
  parse_row (row_text r) = Some (fst r, row_classId r)
  /\ absent newline (row_text r) = true
  /\ row_classId r < labelDimension.
Proof.
  unfold well_formed_row. intros Hwf.
  repeat (apply andb_prop in Hwf as [Hwf ?]).
  rename Hwf into Hptab, H2 into Hpnl, H1 into Hdec, H0 into Hmax, H into Hdim.
  apply Z.leb_le in Hmax. apply N.ltb_lt in Hdim.
  assert (Hdigits : all_digits (snd r) = true).
  { unfold decimal in Hdec. now destruct (snd r). }
  destruct (all_digits_absent _ Hdigits) as [Hctab Hcnl].
  split; [|split; [|assumption]].
  - unfold parse_row, row_text.
    rewrite read_columns_two; try assumption.
    + rewrite stoi_decimal by assumption.
      unfold row_classId, Std.size_t_of_int. do 3 f_equal.
      apply Z.mod_small.
      pose proof (decimal_value_from_nonneg _ 0 Hdigits (Z.le_refl 0)).
      unfold decimal_value, Std.INT_MAX, Std.SIZE_MAX_plus_1 in *. simpl in *. lia.
    + intros He. rewrite He in Hdec. discriminate.
  - unfold row_text. clear - Hpnl Hcnl.
    induction (fst r) as [|a s IH]; simpl in *.
    + now rewrite Hcnl.
    + apply andb_prop in Hpnl as [-> Hs]. simpl. now apply IH.
Qed.

Lemma string_app_assoc (a b c : string) : (a ++ b) ++ c = a ++ (b ++ c).
Proof. induction a as [|x a IH]; simpl; [reflexivity | now rewrite IH]. Qed.

(** ** The loop over the lines of the map file *)

Section CreateSequenceDescriptionsFacts.
Context {cv : OpenCV}.
Variables (ndebug : bool) (mapPath : string) (labelDimension : N).

(** One turn of the loop. *)
Lemma read_rows_step (mapFile : Std.istream) (line : string) (cline : N)
    (description : ImageSequenceDescription) (this : ImageDataDeserializer) :
  read_rows ndebug mapPath labelDimension mapFile line cline description this
  = let (mapFile', line') := Std.getline mapFile line newline in
    if Std.to_bool mapFile'
    then match read_row ndebug mapPath labelDimension line' cline description this with
         | Ok (description', this') =>
             read_rows ndebug mapPath labelDimension mapFile' line' (cline + 1)
                       description' this'
         | Err e => Err e
         end
    else Ok this.
Proof.
  destruct (Std.getline mapFile line newline) as [mapFile' line'] eqn:Hg0.
  destruct (Std.to_bool mapFile') eqn:Hb0.
  all: simp read_rows.
  all: destruct (inspect (Std.getline mapFile line newline)) as [[m l] Hg].
  all: assert (Hml : (m, l) = (mapFile', line')) by congruence.
  all: injection Hml as -> ->.
  all: simp read_rows.
  all: destruct (inspect (Std.to_bool mapFile')) as [[] Hb]; try congruence.
  all: simp read_rows.
  - destruct (read_row ndebug mapPath labelDimension line' cline description this)
      as [[description' this']|e]; simp read_rows; reflexivity.
  - reflexivity.
Qed.

Lemma read_rows_at_end (line : string) (cline : N)
    (description : ImageSequenceDescription) (this : ImageDataDeserializer) :
  read_rows ndebug mapPath labelDimension (fresh "") line cline description this
  = Ok this.
Proof. rewrite read_rows_step. reflexivity. Qed.

(** The loop body on a line it accepts. *)
Lemma read_row_accepted (line : string) (cline : N)
    (description : ImageSequenceDescription) (this : ImageDataDeserializer)
    (p : string) (c : N) :
  accepted_line ndebug labelDimension line = true ->
  parse_row line = Some (p, c) ->
  let description' :=
    {| id := cline; numberOfSamples := numberOfSamples description;
       chunkId := cline; isValid := isValid description;
       path := p; classId := c |} in
  read_row ndebug mapPath labelDimension line cline description this
  = Ok (description',
        set_imageSequences this (m_imageSequences this ++ [description'])).
Proof.
  unfold accepted_line, parse_row, read_row.
  destruct (read_columns line) as [[imgPath clsId]|]; [|now rewrite andb_false_r].
  destruct (Std.stoi clsId) as [n|e]; [|now rewrite andb_false_r].
  intros Hacc [= <- <-]. apply andb_prop in Hacc as [_ Hacc].
  simpl. unfold assert.
  destruct ndebug; [reflexivity|]. simpl in Hacc. now rewrite Hacc.
Qed.

Lemma set_imageSequences_same (this : ImageDataDeserializer) :
  set_imageSequences this (m_imageSequences this ++ []) = this.
Proof. destruct this; unfold set_imageSequences; simpl. now rewrite app_nil_r. Qed.

(** A run of accepted lines at the head of the file: the loop goes on
    after them with their descriptions appended and the line counter
    advanced by their number. *)
Lemma read_rows_accepted (pre : list string) (rest : string) :
  Forall (fun l => accepted_line ndebug labelDimension l = true) pre ->
  forall (line : string) (cline : N)
         (description : ImageSequenceDescription) (this : ImageDataDeserializer),
  exists line' description',
    numberOfSamples description' = numberOfSamples description
    /\ isValid description' = isValid description
    /\ read_rows ndebug mapPath labelDimension
                 (fresh (manifest_text pre ++ rest)) line cline description this
       = read_rows ndebug mapPath labelDimension (fresh rest) line'
                   (cline + N.of_nat (List.length pre)) description'
                   (set_imageSequences this
                      (m_imageSequences this
                       ++ descriptions_of (numberOfSamples description)
                                          (isValid description) cline pre)).
Proof.
  induction 1 as [|l ls Hl Hls IH]; intros line cline description this.
  - exists line, description. simpl.
    now rewrite N.add_0_r, set_imageSequences_same.
  - cbn [manifest_text descriptions_of].
    rewrite string_app_assoc. simpl append at 2.
    rewrite read_rows_step.
    assert (Hnl : absent newline l = true).
    { unfold accepted_line in Hl. now apply andb_prop in Hl as [? _]. }
    rewrite getline_line by assumption. cbn [Std.to_bool fresh Std.failbit negb].
    destruct (parse_row l) as [[p c]|] eqn:Hparse.
    2:{ unfold accepted_line in Hl. rewrite Hparse, andb_false_r in Hl. discriminate. }
    rewrite (read_row_accepted l cline description this p c Hl Hparse).
    cbv zeta.
    match goal with
    | |- context [read_rows _ _ _ _ l _ ?d ?t] =>
        destruct (IH l (cline + 1) d t) as (line' & description' & Hs & Hv & Hrun)
    end.
    exists line', description'. simpl in Hs, Hv.
    split; [assumption | split; [assumption|]].
    rewrite Hrun. simpl. f_equal.
    + lia.
    + unfold set_imageSequences; simpl. now rewrite <- app_assoc.
Qed.

End CreateSequenceDescriptionsFacts.

Lemma string_app_nil_r (a : string) : a ++ "" = a.
Proof. induction a as [|x a IH]; simpl; [reflexivity | now rewrite IH]. Qed.

Lemma manifest_text_app (pre post : list string) :
  manifest_text (pre ++ post) = manifest_text pre ++ manifest_text post.
Proof.
  induction pre as [|l ls IH]; simpl; [reflexivity|].
  now rewrite IH, string_app_assoc.
Qed.

(** ** [CreateSequenceDescriptions] *)

Section TimelineFacts.
Context {cv : OpenCV}.
Variables (ndebug : bool) (fs : string -> option string).
Variables (mapPath : string) (labelDimension : N).

Lemma push_back_sequences (l : list nat) (this : ImageDataDeserializer) :
  fold_left
    (fun this sequence =>
       set_sequences this (Std.push_back (m_sequences this) sequence))
    l this
  = set_sequences this (m_sequences this ++ l).
Proof.
  revert this; induction l as [|x l IH]; intros this; simpl.
  - destruct this; unfold set_sequences; simpl. now rewrite app_nil_r.
  - rewrite IH. unfold set_sequences, Std.push_back; simpl.
    now rewrite <- app_assoc.
Qed.

(** A map file of accepted lines only is read to its end. *)
Lemma CreateSequenceDescriptions_accepted
    (this : ImageDataDeserializer) (lines : list string) :
  fs mapPath = Some (manifest_text lines) ->
  Forall (fun l => accepted_line ndebug labelDimension l = true) lines ->
  CreateSequenceDescriptions ndebug fs this mapPath labelDimension
  = Ok (with_descriptions this (descriptions_of 1 true 0 lines)).
Proof.
  intros Hfs Hlines. unfold CreateSequenceDescriptions, Std.ifstream.
  rewrite Hfs. cbn [Std.to_bool Std.failbit negb].
  set (description := {| id := 0; numberOfSamples := 1 |}).
  destruct (read_rows_accepted ndebug mapPath labelDimension lines "" Hlines
              "" 0 description this)
    as (line' & description' & _ & _ & Hrun).
  rewrite string_app_nil_r in Hrun. unfold fresh in Hrun at 1.
  rewrite Hrun, read_rows_at_end. cbn [bind].
  now rewrite push_back_sequences.
Qed.

(** The first line that the loop body refuses ends the construction with
    the error of the loop body. *)
Lemma CreateSequenceDescriptions_refused
    (this : ImageDataDeserializer) (pre : list string) (bad : string)
    (post : list string) (e : Error) :
  fs mapPath = Some (manifest_text (pre ++ bad :: post)) ->
  Forall (fun l => accepted_line ndebug labelDimension l = true) pre ->
  absent newline bad = true ->
  (forall description this,
      read_row ndebug mapPath labelDimension bad
               (N.of_nat (List.length pre)) description this = Err e) ->
  CreateSequenceDescriptions ndebug fs this mapPath labelDimension = Err e.
Proof.
  intros Hfs Hpre Hnl Hbad. unfold CreateSequenceDescriptions, Std.ifstream.
  rewrite Hfs. cbn [Std.to_bool Std.failbit negb].
  set (description := {| id := 0; numberOfSamples := 1 |}).
  rewrite manifest_text_app.
  destruct (read_rows_accepted ndebug mapPath labelDimension pre
              (manifest_text (bad :: post)) Hpre "" 0 description this)
    as (line' & description' & _ & _ & Hrun).
  unfold fresh in Hrun at 1. rewrite Hrun.
  cbn [manifest_text]. rewrite read_rows_step, getline_line by assumption.
  cbn [Std.to_bool fresh Std.failbit negb].
  now rewrite N.add_0_l, Hbad.
Qed.

(** C5, as the code has it.  A line with fewer than two tab-delimited
    fields (an empty line or a line without tab), reached after lines
    that were all accepted, ends the construction with the format error
    that carries the path of the map file and the 0-based number of the
    line. *)
Theorem short_line_is_a_format_error
    (this : ImageDataDeserializer) (pre : list string) (bad : string)
    (post : list string) :
  fs mapPath = Some (manifest_text (pre ++ bad :: post)) ->
  Forall (fun l => accepted_line ndebug labelDimension l = true) pre ->
  absent newline bad = true ->
  (field_count bad < 2)%nat ->
  CreateSequenceDescriptions ndebug fs this mapPath labelDimension
  = Err (runtime_error invalid_map_file
           [arg_string mapPath; arg_size_t (N.of_nat (List.length pre))]).
Proof.
  intros Hfs Hpre Hnl Hcount.
  apply (CreateSequenceDescriptions_refused this pre bad post); try assumption.
  intros description this0. unfold read_row.
  now rewrite read_columns_one_field.
Qed.

End TimelineFacts.

(** C6, as the code has it: the bound on the class id is an [assert].  In a
    build with assertions, a line whose parsed class id is not below the
    label dimension, reached after lines that were all accepted, aborts the
    construction with an assertion failure. *)
Theorem classId_out_of_bounds_fails_the_assertion {cv : OpenCV}
    (fs : string -> option string) (mapPath : string) (labelDimension : N)
    (this : ImageDataDeserializer) (pre : list string) (bad : string)
    (post : list string) (p : string) (c : N) :
  fs mapPath = Some (manifest_text (pre ++ bad :: post)) ->
  Forall (fun l => accepted_line false labelDimension l = true) pre ->
  absent newline bad = true ->
  parse_row bad = Some (p, c) ->
  labelDimension <= c ->
  CreateSequenceDescriptions false fs this mapPath labelDimension
  = Err assertion_failure.
Proof.
  intros Hfs Hpre Hnl Hparse Hc.
  apply (CreateSequenceDescriptions_refused false fs mapPath labelDimension
           this pre bad post); try assumption.
  intros description this0. revert Hparse. unfold parse_row, read_row.
  destruct (read_columns bad) as [[imgPath clsId]|]; [|discriminate].
  destruct (Std.stoi clsId) as [n|]; [|discriminate].
  intros [= <- <-]. cbn [bind classId set_classId]. unfold assert.
  destruct (N.ltb_spec (Std.size_t_of_int n) labelDimension); [lia | reflexivity].
Qed.

(** ** What the loop keeps, whatever the file holds *)

Section LoopInvariant.
Context {cv : OpenCV}.
Variables (ndebug : bool) (mapPath : string) (labelDimension : N).

Lemma read_row_Ok (line : string) (cline : N)
    (description description' : ImageSequenceDescription)
    (this this' : ImageDataDeserializer) :
  read_row ndebug mapPath labelDimension line cline description this
  = Ok (description', this') ->
  m_imageSequences this' = (m_imageSequences this ++ [description'])%list
  /\ (ndebug = false -> classId description' < labelDimension)
  /\ same_but_descriptions this this'.
Proof.
  unfold read_row.
  destruct (read_columns line) as [[imgPath clsId]|]; [|discriminate].
  destruct (Std.stoi clsId) as [n|]; [|discriminate].
  cbn [bind classId set_classId]. unfold assert.
  destruct ndebug.
  - intros [= <- <-]. repeat split. discriminate.
  - destruct (N.ltb_spec (Std.size_t_of_int n) labelDimension) as [Hlt|];
      [|discriminate].
    intros [= <- <-]. repeat split. intros _. exact Hlt.
Qed.

(** By induction on the number of characters left in the file. *)
Lemma read_rows_Ok (n : nat) :
  forall (mapFile : Std.istream) (line : string) (cline : N)
         (description : ImageSequenceDescription)
         (this this' : ImageDataDeserializer),
    (String.length (Std.buf mapFile) < n)%nat ->
    read_rows ndebug mapPath labelDimension mapFile line cline description this
    = Ok this' ->
    same_but_descriptions this this'
    /\ exists added,
         m_imageSequences this' = (m_imageSequences this ++ added)%list
         /\ (ndebug = false ->
             Forall (fun s => classId s < labelDimension) added).
Proof.
  induction n as [|n IH]; intros mapFile line cline description this this' Hn;
    [lia|].
  rewrite read_rows_step.
  destruct (Std.getline mapFile line newline) as [mapFile' line'] eqn:Hg.
  destruct (Std.to_bool mapFile') eqn:Hb.
  - destruct (read_row ndebug mapPath labelDimension line' cline description this)
      as [[description1 this1]|] eqn:Hrow; [|discriminate].
    intros Hrun.
    apply read_row_Ok in Hrow as (Himg & Hcls & Hsame).
    apply IH in Hrun as (Hsame' & added & Himg' & Hadded).
    2: { pose proof (getline_consumes _ _ _ _ _ Hg Hb). lia. }
    split.
    + unfold same_but_descriptions in *.
      destruct Hsame as (? & ? & ? & ? & ?), Hsame' as (? & ? & ? & ? & ?).
      repeat split; congruence.
    + exists (description1 :: added). split.
      * rewrite Himg', Himg, <- app_assoc. reflexivity.
      * intros Hd. constructor; auto.
  - intros [= <-]. split; [repeat split|].
    exists []. split; [now rewrite app_nil_r | constructor].
Qed.

End LoopInvariant.

(** ** The constructor *)

Section ConstructorFacts.
Context {cv : OpenCV}.
Variables (ndebug : bool) (fs : string -> option string).
Variable configHelper : ImageConfigHelper.
Variables label feature : InputDescription.

Let inputs := GetInputs_of_config configHelper.
Let labelDimension := GetHeight (sampleLayout label).

Hypothesis label_input :
  nth_error inputs (N.to_nat (GetLabelInputIndex configHelper)) = Some label.
Hypothesis feature_input :
  nth_error inputs (N.to_nat (GetFeatureInputIndex configHelper)) = Some feature.

(** With two inputs and a supported label type the constructor comes down
    to [CreateSequenceDescriptions] on empty vectors and a zeroed
    generator of the label dimension. *)
Lemma new_ImageDataDeserializer_supported :
  List.length inputs = 2%nat ->
  supported_label_type (elementType label) = true ->
  exists g,
    dimension g = labelDimension
    /\ new_ImageDataDeserializer ndebug fs configHelper
       = CreateSequenceDescriptions ndebug fs
           {| m_imageSequences := [];
              m_sequences := [];
              m_labelGenerator := g;
              m_currentImages := [];
              m_labelSampleLayout := sampleLayout label;
              m_featureElementType := elementType feature |}
           (GetMapPath configHelper) labelDimension.
Proof.
  intros Hsize Hsupported. unfold new_ImageDataDeserializer, Std.at_, Std.size.
  fold inputs. rewrite Hsize, label_input, feature_input.
  unfold assert; simpl N.eqb. cbn [bind].
  replace (if ndebug then Ok tt else Ok tt) with (Ok tt) by now destruct ndebug.
  cbn [bind].
  destruct (elementType label); try discriminate; cbn [ElementType_eqb bind];
    eexists; (split; [|reflexivity]); cbn [dimension];
    apply new_TypedLabelGenerator_size.
Qed.

(** C8.  When the label stream's element type is neither float nor double,
    and when the map file cannot be opened, the constructor ends with an
    error and no deserializer: the [RuntimeError] for the label type, the
    one for the file, or, in a build with assertions and a number of
    inputs other than two, the failed assertion that comes first. *)
Theorem construction_fails_on_configuration_errors :
  supported_label_type (elementType label) = false
  \/ fs (GetMapPath configHelper) = None ->
  exists e,
    new_ImageDataDeserializer ndebug fs configHelper = Err e
    /\ (e = runtime_error unsupported_label_type
              [arg_ElementType (elementType label)]
        \/ e = runtime_error could_not_open
                 [arg_string (GetMapPath configHelper)]
        \/ (e = assertion_failure /\ ndebug = false
            /\ List.length inputs <> 2%nat))
    /\ (Std.size inputs = 2 ->
        supported_label_type (elementType label) = false ->
        e = runtime_error unsupported_label_type
              [arg_ElementType (elementType label)])
    /\ (Std.size inputs = 2 ->
        supported_label_type (elementType label) = true ->
        e = runtime_error could_not_open
              [arg_string (GetMapPath configHelper)]).
Proof.
  intros Hbad. unfold new_ImageDataDeserializer, Std.at_.
  fold inputs. rewrite label_input, feature_input.
  unfold assert.
  destruct (N.eqb_spec (Std.size inputs) 2) as [Hsize|Hsize].
  - replace (if ndebug then Ok tt else Ok tt) with (Ok tt : result unit)
      by now destruct ndebug.
    cbn [bind].
    destruct (elementType label) eqn:Htype; cbn [ElementType_eqb bind].
    3: { eexists. split; [reflexivity|].
         split; [now left|]. split; [reflexivity | discriminate]. }
    all: destruct Hbad as [Hbad|Hbad]; [discriminate|].
    all: unfold CreateSequenceDescriptions, Std.ifstream; rewrite Hbad.
    all: cbn [Std.to_bool Std.failbit negb].
    all: eexists; split; [reflexivity|].
    all: split; [right; now left|]; split; [discriminate | reflexivity].
  - destruct ndebug.
    + cbn [bind].
      destruct (elementType label) eqn:Htype; cbn [ElementType_eqb bind].
      3: { eexists. split; [reflexivity|].
           split; [now left|]. split; intros; [reflexivity | discriminate]. }
      all: destruct Hbad as [Hbad|Hbad]; [discriminate|].
      all: unfold CreateSequenceDescriptions, Std.ifstream; rewrite Hbad.
      all: cbn [Std.to_bool Std.failbit negb].
      all: eexists; split; [reflexivity|].
      all: split; [right; now left|]; split; intros; [discriminate | reflexivity].
    + cbn [bind]. eexists. split; [reflexivity|].
      split; [|split; intros; contradiction].
      right; right. repeat split.
      unfold Std.size in Hsize. intros Hlen. apply Hsize.
      now rewrite Hlen.
Qed.

End ConstructorFacts.

(** ** The timeline of a well-formed map file *)

Lemma well_formed_row_accepted (ndebug : bool) (labelDimension : N)
    (r : string * string) :
  well_formed_row labelDimension r = true ->
  accepted_line ndebug labelDimension (row_text r) = true.
Proof.
  intros Hwf. destruct (parse_row_well_formed _ _ Hwf) as (Hparse & Hnl & Hdim).
  unfold accepted_line. rewrite Hnl, Hparse. cbn [andb].
  apply N.ltb_lt in Hdim. rewrite Hdim. apply orb_true_r.
Qed.

Lemma descriptions_of_well_formed (labelDimension : N) (samples : N)
    (valid : bool) (rows : list (string * string)) :
  Forall (fun r => well_formed_row labelDimension r = true) rows ->
  forall cline,
    List.length (descriptions_of samples valid cline (map row_text rows))
    = List.length rows
    /\ forall k r,
        nth_error rows k = Some r ->
        nth_error (descriptions_of samples valid cline (map row_text rows)) k
        = Some {| id := cline + N.of_nat k;
                  numberOfSamples := samples;
                  chunkId := cline + N.of_nat k;
                  isValid := valid;
                  path := fst r;
                  classId := row_classId r |}.
Proof.
  induction 1 as [|r0 rows Hr0 Hrows IH]; intros cline.
  - split; [reflexivity|]. intros [|k] r; discriminate.
  - cbn [map descriptions_of].
    destruct (parse_row_well_formed _ _ Hr0) as (-> & _ & _).
    destruct (IH (cline + 1)) as (Hlen & Hnth).
    split; [simpl; now rewrite Hlen|].
    intros [|k] r Hk; simpl in Hk.
    + injection Hk as <-. simpl. now rewrite N.add_0_r.
    + cbn [nth_error]. rewrite (Hnth k r Hk).
      replace (cline + 1 + N.of_nat k) with (cline + N.of_nat (S k)) by lia.
      reflexivity.
Qed.

(** C3.  A deserializer built from a map file of N well-formed rows has a
    timeline of length N; looking up an id below N succeeds with the
    description whose [id] and [chunkId] are the 0-based line number, whose
    [numberOfSamples] is 1 and whose [isValid] is true (and whose path and
    class id are those of the row); looking up N fails. *)
Theorem timeline_of_a_well_formed_map_file {cv : OpenCV}
    (ndebug : bool) (fs : string -> option string)
    (configHelper : ImageConfigHelper) (label feature : InputDescription)
    (rows : list (string * string)) :
  List.length (GetInputs_of_config configHelper) = 2%nat ->
  nth_error (GetInputs_of_config configHelper)
            (N.to_nat (GetLabelInputIndex configHelper)) = Some label ->
  nth_error (GetInputs_of_config configHelper)
            (N.to_nat (GetFeatureInputIndex configHelper)) = Some feature ->
  supported_label_type (elementType label) = true ->
  fs (GetMapPath configHelper) = Some (manifest_text (map row_text rows)) ->
  Forall (fun r => well_formed_row (GetHeight (sampleLayout label)) r = true) rows ->
  exists this,
    new_ImageDataDeserializer ndebug fs configHelper = Ok this
    /\ List.length (GetSequenceDescriptions this) = List.length rows
    /\ (forall i, i < N.of_nat (List.length rows) ->
        exists r,
          nth_error rows (N.to_nat i) = Some r
          /\ lookup this i
             = Some {| id := i; numberOfSamples := 1; chunkId := i;
                       isValid := true; path := fst r;
                       classId := row_classId r |})
    /\ lookup this (N.of_nat (List.length rows)) = None.
Proof.
  intros Hsize Hlabel Hfeature Hsupported Hfs Hrows.
  destruct (new_ImageDataDeserializer_supported ndebug fs configHelper
              label feature Hlabel Hfeature Hsize Hsupported)
    as (g & Hg & ->).
  rewrite (CreateSequenceDescriptions_accepted ndebug fs _ _ _ (map row_text rows))
    by first [ assumption
             | apply Forall_map; eapply Forall_impl; [|exact Hrows];
               intros r Hr; now apply well_formed_row_accepted ].
  destruct (descriptions_of_well_formed _ 1 true rows Hrows 0) as (Hlen & Hnth).
  eexists. split; [reflexivity|].
  unfold lookup, GetSequenceDescriptions, with_descriptions.
  cbn [m_sequences m_imageSequences set_sequences set_imageSequences app].
  rewrite Hlen.
  split; [apply length_seq|]. split.
  - intros i Hi.
    destruct (nth_error rows (N.to_nat i)) as [r|] eqn:Hr.
    2: { apply nth_error_None in Hr. lia. }
    exists r. split; [reflexivity|].
    rewrite nth_error_seq.
    destruct (Nat.ltb_spec (N.to_nat i) (List.length rows)); [|lia].
    cbn [Nat.add]. rewrite (Hnth _ _ Hr).
    now rewrite N.add_0_l, N2Nat.id.
  - rewrite nth_error_seq, Nat2N.id, Nat.ltb_irrefl. reflexivity.
Qed.

Lemma timeline_of_a_well_formed_map_file_witness :
  exists this,
    new_ImageDataDeserializer (cv:=ToyCV.cv) false Scenario.fs
      (Scenario.config et_float) = Ok this
    /\ List.length (GetSequenceDescriptions this) = 2%nat
    /\ (forall i, i < 2 ->
        exists r,
          nth_error [("img0.png", "0"); ("img1.png", "2")] (N.to_nat i) = Some r
          /\ lookup this i
             = Some {| id := i; numberOfSamples := 1; chunkId := i;
                       isValid := true; path := fst r;
                       classId := row_classId r |})
    /\ lookup this 2 = None.
Proof.
  apply (timeline_of_a_well_formed_map_file (cv:=ToyCV.cv) false Scenario.fs
           (Scenario.config et_float)
           {| elementType := et_float; sampleLayout := ImageLayoutWHC 1 3 1 |}
           {| elementType := et_float; sampleLayout := ImageLayoutWHC 2 2 3 |}
           [("img0.png", "0"); ("img1.png", "2")]).
  - reflexivity.
  - reflexivity.
  - reflexivity.
  - reflexivity.
  - reflexivity.
  - repeat constructor.
Defined.

(** ** The virtual call of the label generator *)

Lemma same_shape_refl (g : LabelGenerator) : same_shape g g.
Proof. destruct g; reflexivity. Qed.

Lemma same_shape_trans (a b c : LabelGenerator) :
  same_shape a b -> same_shape b c -> same_shape a c.
Proof. destruct a, b, c; simpl; intros; try contradiction; congruence. Qed.

Lemma same_shape_dimension (g g' : LabelGenerator) :
  same_shape g g' -> dimension g' = dimension g.
Proof.
  destruct g, g'; simpl; intros Hs; try contradiction;
    unfold Std.size; now rewrite Hs.
Qed.

Lemma same_shape_one_hot (g g' : LabelGenerator) (classId : N) :
  same_shape g g' -> one_hot_buffer g' classId = one_hot_buffer g classId.
Proof.
  destruct g, g'; simpl; intros Hs; try contradiction; now rewrite Hs.
Qed.

(** A call for a class id below the dimension leaves the one-hot buffer of
    that class id in the generator. *)
Lemma GetLabelDataFor_in_range (g : LabelGenerator) (classId : N) :
  classId < dimension g ->
  exists g',
    GetLabelDataFor g classId = Ok g'
    /\ same_shape g g'
    /\ label_buffer g' = one_hot_buffer g classId.
Proof.
  destruct g as [g|g]; simpl; intros Hc;
    rewrite GetLabelDataFor_typed_one_hot by assumption; cbn [bind];
    eexists; (split; [reflexivity|]); simpl; rewrite one_hot_length; now split.
Qed.

Lemma GetLabelDataFor_Ok (g g' : LabelGenerator) (classId : N) :
  GetLabelDataFor g classId = Ok g' -> same_shape g g'.
Proof.
  destruct g as [g|g]; simpl; unfold GetLabelDataFor_typed;
    destruct (classId <? _); try discriminate; cbn [bind];
    intros [= <-]; simpl; now rewrite assign_length, fill_length.
Qed.

(** ** [GetSequencesById] *)

Section GetSequencesByIdFacts.
Context {cv : OpenCV}.
Variable ndebug : bool.

Lemma GetSequencesById_loop_app (this : ImageDataDeserializer)
    (result_ : list (list Sequence)) (ids ids' : list N) :
  GetSequencesById_loop ndebug this result_ (ids ++ ids')
  = bind (GetSequencesById_loop ndebug this result_ ids)
         (fun r => GetSequencesById_loop ndebug (fst r) (snd r) ids').
Proof.
  revert this result_; induction ids as [|i ids IH]; intros this result_;
    simpl; [reflexivity|].
  destruct (GetSequencesById_body ndebug this result_ i) as [[this1 result1]|];
    simpl; [apply IH | reflexivity].
Qed.

(** The loop body on an id in range, with a class id below the dimension
    of the generator and an image that decodes. *)
Lemma GetSequencesById_body_in_range (this : ImageDataDeserializer)
    (result_ : list (list Sequence)) (i : N)
    (imageSequence : ImageSequenceDescription) :
  nth_error (m_imageSequences this) (N.to_nat i) = Some imageSequence ->
  classId imageSequence < dimension (m_labelGenerator this) ->
  (ndebug = false -> isContinuous (imread (path imageSequence)) = true) ->
  exists g,
    GetLabelDataFor (m_labelGenerator this) (classId imageSequence) = Ok g
    /\ same_shape (m_labelGenerator this) g
    /\ label_buffer g
       = one_hot_buffer (m_labelGenerator this) (classId imageSequence)
    /\ GetSequencesById_body ndebug this result_ i
       = Ok (set_labelGenerator
               (set_currentImages this
                  (m_currentImages this
                   ++ [decoded_image (m_featureElementType this) imageSequence]))
               g,
             (result_ ++ [sequence_pair this imageSequence])%list).
Proof.
  intros Hi Hc Hcont.
  destruct (GetLabelDataFor_in_range _ _ Hc) as (g & Hg & Hshape & Hbuf).
  exists g. repeat (split; [assumption|]).
  unfold GetSequencesById_body, Std.at_, assert. rewrite Hi.
  assert (Hlt : (i <? Std.size (m_imageSequences this)) = true).
  { apply N.ltb_lt. unfold Std.size.
    assert (N.to_nat i < List.length (m_imageSequences this))%nat; [|lia].
    apply nth_error_Some. congruence. }
  rewrite Hlt.
  replace (if ndebug then Ok tt else Ok tt) with (Ok tt : result unit)
    by now destruct ndebug.
  cbn [bind].
  replace (if ndebug then Ok tt
           else if isContinuous (imread (path imageSequence))
                then Ok tt else Err assertion_failure)
    with (Ok tt : result unit)
    by (destruct ndebug; [reflexivity | now rewrite Hcont]).
  cbn [bind set_currentImages m_labelGenerator]. rewrite Hg.
  reflexivity.
Qed.

(** The loop on ids in range: one pair per id, in order; one decoded
    image per id appended to the retained ones; and the buffer of the
    generator holds the one-hot vector of the last id. *)
Lemma GetSequencesById_loop_in_range (ids : list N) :
  forall (this : ImageDataDeserializer) (result_ : list (list Sequence)),
    Forall (fun s => classId s < dimension (m_labelGenerator this))
           (m_imageSequences this) ->
    Forall (fun i => i < Std.size (m_imageSequences this)) ids ->
    decodable ndebug this ids ->
    exists descriptions g,
      Forall2 (fun i d => nth_error (m_imageSequences this) (N.to_nat i) = Some d)
              ids descriptions
      /\ same_shape (m_labelGenerator this) g
      /\ label_buffer g
         = match rev descriptions with
           | d :: _ => one_hot_buffer (m_labelGenerator this) (classId d)
           | [] => label_buffer (m_labelGenerator this)
           end
      /\ GetSequencesById_loop ndebug this result_ ids
         = Ok (set_labelGenerator
                 (set_currentImages this
                    (m_currentImages this
                     ++ map (decoded_image (m_featureElementType this))
                            descriptions))
                 g,
               (result_ ++ map (sequence_pair this) descriptions)%list).
Proof.
  induction ids as [|i ids IH]; intros this result_ Hcls Hids Hdec.
  - exists [], (m_labelGenerator this).
    split; [constructor|]. split; [apply same_shape_refl|].
    split; [reflexivity|]. simpl. rewrite !app_nil_r.
    now destruct this.
  - inversion Hids as [|? ? Hi Hids']; subst.
    destruct (nth_error (m_imageSequences this) (N.to_nat i)) as [d|] eqn:Hd.
    2: { apply nth_error_None in Hd. unfold Std.size in Hi. lia. }
    assert (Hc : classId d < dimension (m_labelGenerator this)).
    { rewrite Forall_forall in Hcls. apply Hcls. eapply nth_error_In; eassumption. }
    destruct (GetSequencesById_body_in_range this result_ i d Hd Hc)
      as (g1 & _ & Hshape1 & Hbuf1 & Hbody).
    { intros Hdebug. apply (Hdec Hdebug i d); [now left | assumption]. }
    cbn [GetSequencesById_loop]. rewrite Hbody. cbn [bind fst snd].
    set (this1 := set_labelGenerator _ g1).
    destruct (IH this1 (result_ ++ [sequence_pair this d])%list)
      as (ds & g & Hall & Hshape & Hbuf & Hloop).
    + simpl. rewrite (same_shape_dimension _ _ Hshape1). exact Hcls.
    + exact Hids'.
    + intros Hdebug j dj Hj Hdj. apply (Hdec Hdebug j dj); [now right | exact Hdj].
    + exists (d :: ds), g.
      split; [constructor; assumption|].
      split; [eapply same_shape_trans; eassumption|].
      split.
      * rewrite Hbuf. simpl m_labelGenerator. cbn [rev].
        destruct (rev ds) as [|d' ds']; cbn [app];
          [exact Hbuf1 | apply same_shape_one_hot; assumption].
      * rewrite Hloop. unfold this1; simpl.
        unfold set_labelGenerator, set_currentImages, sequence_pair; simpl.
        now rewrite <- !app_assoc.
Qed.

End GetSequencesByIdFacts.

Section MaterializeFacts.
Context {cv : OpenCV}.
Variable ndebug : bool.

Lemma GetSequencesById_body_frame (this this' : ImageDataDeserializer)
    (result_ result' : list (list Sequence)) (i : N) :
  GetSequencesById_body ndebug this result_ i = Ok (this', result') ->
  same_catalog this this'
  /\ same_shape (m_labelGenerator this) (m_labelGenerator this').
Proof.
  unfold GetSequencesById_body.
  destruct (assert ndebug _); [|discriminate]. cbn [bind].
  destruct (Std.at_ _ _) as [imageSequence|]; [|discriminate]. cbn [bind].
  destruct (assert ndebug _); [|discriminate].
  cbn [bind set_currentImages m_labelGenerator].
  destruct (GetLabelDataFor _ _) as [g|] eqn:Hg; [|discriminate]. cbn [bind].
  intros [= <- _]. split; [repeat split|].
  now apply GetLabelDataFor_Ok in Hg.
Qed.

Lemma GetSequencesById_loop_frame (ids : list N) :
  forall (this this' : ImageDataDeserializer)
         (result_ result' : list (list Sequence)),
    GetSequencesById_loop ndebug this result_ ids = Ok (this', result') ->
    same_catalog this this'
    /\ same_shape (m_labelGenerator this) (m_labelGenerator this').
Proof.
  induction ids as [|i ids IH]; intros this this' result_ result'; simpl.
  - intros [= <- _]. split; [repeat split | apply same_shape_refl].
  - destruct (GetSequencesById_body ndebug this result_ i)
      as [[this1 result1]|] eqn:Hbody; [|discriminate].
    cbn [bind fst snd]. intros Hloop.
    apply GetSequencesById_body_frame in Hbody as (Hcat1 & Hshape1).
    apply IH in Hloop as (Hcat & Hshape).
    split; [|eapply same_shape_trans; eassumption].
    unfold same_catalog in *.
    destruct Hcat1 as (? & ? & ? & ?), Hcat as (? & ? & ? & ?).
    repeat split; congruence.
Qed.

(** A call that returns leaves the catalog and the shape of the label
    generator as they were. *)
Lemma GetSequencesById_frame (this this' : ImageDataDeserializer)
    (ids : list N) (result_ : list (list Sequence)) :
  GetSequencesById ndebug this ids = Ok (this', result_) ->
  same_catalog this this'
  /\ same_shape (m_labelGenerator this) (m_labelGenerator this').
Proof.
  unfold GetSequencesById.
  destruct (assert ndebug _); [|discriminate]. cbn [bind].
  intros Hloop. now apply GetSequencesById_loop_frame in Hloop.
Qed.

Lemma well_formed_frame (this this' : ImageDataDeserializer) :
  same_catalog this this' ->
  same_shape (m_labelGenerator this) (m_labelGenerator this') ->
  well_formed this -> well_formed this'.
Proof.
  intros (Himg & Hseq & Hlay & _) Hshape (Hs & Hc & Hd).
  unfold well_formed, labelDimension_of. rewrite Himg, Hseq, Hlay.
  rewrite (same_shape_dimension _ _ Hshape). now repeat split.
Qed.

(** A call that returns keeps the invariant of the data model. *)
Lemma GetSequencesById_well_formed (this this' : ImageDataDeserializer)
    (ids : list N) (result_ : list (list Sequence)) :
  well_formed this ->
  GetSequencesById ndebug this ids = Ok (this', result_) ->
  well_formed this'.
Proof.
  intros Hwf Hcall. apply GetSequencesById_frame in Hcall as (Hcat & Hshape).
  exact (well_formed_frame _ _ Hcat Hshape Hwf).
Qed.

Lemma lookup_well_formed (this : ImageDataDeserializer) (i : N) :
  well_formed this ->
  lookup this i = nth_error (m_imageSequences this) (N.to_nat i).
Proof.
  intros (Hs & _ & _). unfold lookup, GetSequenceDescriptions.
  rewrite Hs, nth_error_seq.
  destruct (Nat.ltb_spec (N.to_nat i) (List.length (m_imageSequences this)));
    [reflexivity|].
  symmetry. now apply nth_error_None.
Qed.

Lemma nonempty_assert (ids : list N) :
  ids <> [] -> assert ndebug (0 <? Std.size ids) = Ok tt.
Proof.
  destruct ids; [contradiction|]. intros _. unfold assert, Std.size.
  destruct ndebug; [reflexivity|]. simpl List.length.
  destruct (N.ltb_spec 0 (N.of_nat (S (List.length ids)))); [reflexivity | lia].
Qed.

(** What a call on ids in range returns and leaves, from any
    well-formed state. *)
Lemma GetSequencesById_in_range (this : ImageDataDeserializer) (ids : list N) :
  well_formed this ->
  ids <> [] ->
  Forall (fun i => i < Std.size (GetSequenceDescriptions this)) ids ->
  decodable ndebug this ids ->
  exists descriptions g,
    Forall2 (fun i d => lookup this i = Some d) ids descriptions
    /\ same_shape (m_labelGenerator this) g
    /\ label_buffer g
       = match rev descriptions with
         | d :: _ => one_hot_buffer (m_labelGenerator this) (classId d)
         | [] => label_buffer (m_labelGenerator this)
         end
    /\ GetSequencesById ndebug this ids
       = Ok (set_labelGenerator
               (set_currentImages this
                  (map (decoded_image (m_featureElementType this)) descriptions))
               g,
             map (sequence_pair this) descriptions).
Proof.
  intros Hwf Hne Hids Hdec.
  pose proof Hwf as (Hs & Hc & Hd).
  destruct (GetSequencesById_loop_in_range ndebug ids
              (set_currentImages this []) [])
    as (ds & g & Hall & Hshape & Hbuf & Hloop).
  - simpl. now rewrite Hd.
  - simpl. unfold GetSequenceDescriptions, Std.size in *.
    now rewrite Hs, length_seq in Hids.
  - exact Hdec.
  - exists ds, g. simpl in *.
    split; [|split; [assumption | split; [assumption|]]].
    + eapply Forall2_impl; [|exact Hall].
      intros i d Hi. now rewrite lookup_well_formed.
    + unfold GetSequencesById. rewrite nonempty_assert by assumption.
      cbn [bind]. exact Hloop.
Qed.

End MaterializeFacts.

(** What the loop of [GetSequencesById] does for each id.  From a
    well-formed state, for a non-empty sequence of ids below the length of
    the timeline (whose images decode), the call returns one (feature,
    label) pair per id, in the order of the ids; both payloads of a pair
    carry the [numberOfSamples] of the description of the id; and
    [GetLabelDataFor] is called with the class id of that description: at
    the moment the loop has built the pair of an id, before it goes on to
    the next id, the buffer the label payload points to holds the one-hot
    vector of that class id.  What the payloads read once the call has
    returned is another matter, see below. *)
Theorem GetSequencesById_one_pair_per_id {cv : OpenCV}
    (ndebug : bool) (this : ImageDataDeserializer) (ids : list N) :
  well_formed this ->
  ids <> [] ->
  Forall (fun i => i < Std.size (GetSequenceDescriptions this)) ids ->
  decodable ndebug this ids ->
  exists this' result_ descriptions,
    GetSequencesById ndebug this ids = Ok (this', result_)
    /\ Forall2 (fun i d => lookup this i = Some d) ids descriptions
    /\ result_ = map (sequence_pair this) descriptions
    /\ Forall2 (fun d pair =>
                  exists image label,
                    pair = [image; label]
                    /\ Sequence_numberOfSamples image = numberOfSamples d
                    /\ Sequence_numberOfSamples label = numberOfSamples d)
               descriptions result_
    /\ forall pre i post,
        ids = (pre ++ i :: post)%list ->
        exists d this_i result_i,
          lookup this i = Some d
          /\ GetSequencesById ndebug this (pre ++ [i]) = Ok (this_i, result_i)
          /\ GetSequencesById_loop ndebug this_i result_i post = Ok (this', result_)
          /\ nth_error result_i (List.length pre) = Some (sequence_pair this d)
          /\ deref_label this_i (data (label_sequence (m_labelSampleLayout this) d))
             = Some (one_hot_buffer (m_labelGenerator this) (classId d)).
Proof.
  intros Hwf Hne Hids Hdec.
  destruct (GetSequencesById_in_range ndebug this ids Hwf Hne Hids Hdec)
    as (ds & g & Hall & Hshape & Hbuf & Hcall).
  eexists _, _, ds. split; [exact Hcall|].
  split; [exact Hall|]. split; [reflexivity|]. split.
  { clear. induction ds as [|d ds IH]; constructor; [|exact IH].
    eexists _, _. split; [reflexivity|]. now split. }
  intros pre i post ->.
  assert (Hprefix : Forall (fun i => i < Std.size (GetSequenceDescriptions this))
                           (pre ++ [i])).
  { apply Forall_app in Hids as (Hpre & Hi).
    apply Forall_app. split; [assumption|].
    inversion Hi; subst. now repeat constructor. }
  assert (Hdec' : decodable ndebug this (pre ++ [i])).
  { intros Hdebug j dj Hj. apply (Hdec Hdebug).
    apply in_app_or in Hj as [Hj|[<-|[]]]; apply in_or_app;
      [now left | right; now left]. }
  destruct (GetSequencesById_in_range ndebug this (pre ++ [i]) Hwf) as
    (ds' & g' & Hall' & Hshape' & Hbuf' & Hcall'); try assumption.
  { now destruct pre. }
  apply Forall2_app_inv_l in Hall' as (dpre & dlast & Hpre & Hlast & ->).
  inversion Hlast as [|? d ? dnil Hd Hnil]; subst. inversion Hnil; subst.
  exists d. eexists _, _. split; [exact Hd|]. split; [exact Hcall'|].
  split; [|split].
  - revert Hcall Hcall'. unfold GetSequencesById.
    rewrite !nonempty_assert by (assumption || now destruct pre).
    cbn [bind].
    replace (pre ++ i :: post)%list with ((pre ++ [i]) ++ post)%list
      by now rewrite <- app_assoc.
    rewrite GetSequencesById_loop_app. intros Hfull Hpart.
    rewrite Hpart in Hfull. exact Hfull.
  - rewrite map_app, nth_error_app2; rewrite length_map;
      rewrite (Forall2_length Hpre); [|lia].
    now rewrite Nat.sub_diag.
  - cbn [deref_label label_sequence data set_labelGenerator m_labelGenerator].
    rewrite Hbuf', rev_app_distr. reflexivity.
Qed.

Lemma scenario_well_formed : well_formed Scenario.deserializer.
Proof. repeat split; repeat constructor. Qed.

Lemma GetSequencesById_one_pair_per_id_witness :
  exists this' result_ descriptions,
    GetSequencesById false Scenario.deserializer [1; 0] = Ok (this', result_)
    /\ Forall2 (fun i d => lookup Scenario.deserializer i = Some d)
               [1; 0] descriptions
    /\ result_ = map (sequence_pair Scenario.deserializer) descriptions
    /\ Forall2 (fun d pair =>
                  exists image label,
                    pair = [image; label]
                    /\ Sequence_numberOfSamples image = numberOfSamples d
                    /\ Sequence_numberOfSamples label = numberOfSamples d)
               descriptions result_
    /\ forall pre i post,
        [1; 0] = (pre ++ i :: post)%list ->
        exists d this_i result_i,
          lookup Scenario.deserializer i = Some d
          /\ GetSequencesById false Scenario.deserializer (pre ++ [i])
             = Ok (this_i, result_i)
          /\ GetSequencesById_loop false this_i result_i post = Ok (this', result_)
          /\ nth_error result_i (List.length pre)
             = Some (sequence_pair Scenario.deserializer d)
          /\ deref_label this_i
               (data (label_sequence
                        (m_labelSampleLayout Scenario.deserializer) d))
             = Some (one_hot_buffer (m_labelGenerator Scenario.deserializer)
                                    (classId d)).
Proof.
  apply (GetSequencesById_one_pair_per_id (cv:=ToyCV.cv) false
           Scenario.deserializer [1; 0]).
  - repeat split; repeat constructor.
  - discriminate.
  - repeat constructor.
  - intros _ i d _ _. reflexivity.
Defined.

(** C7.  Of two successive calls on one deserializer, the second one first
    drops every image retained by the first: after it, the retained images
    are exactly the decoded images of the ids of the second batch, one per
    id and in their order, and they are the ones the feature payloads of
    the second batch point to. *)
Theorem second_batch_replaces_the_retained_images {cv : OpenCV}
    (ndebug : bool) (this thisA : ImageDataDeserializer)
    (batchA batchB : list N) (resultA : list (list Sequence)) :
  well_formed this ->
  GetSequencesById ndebug this batchA = Ok (thisA, resultA) ->
  batchB <> [] ->
  Forall (fun i => i < Std.size (GetSequenceDescriptions this)) batchB ->
  decodable ndebug this batchB ->
  exists thisB resultB descriptions,
    GetSequencesById ndebug thisA batchB = Ok (thisB, resultB)
    /\ Forall2 (fun i d => lookup this i = Some d) batchB descriptions
    /\ m_currentImages thisB
       = map (decoded_image (m_featureElementType this)) descriptions
    /\ List.length (m_currentImages thisB) = List.length batchB
    /\ map (fun pair => option_map data (hd_error pair)) resultB
       = map (fun m => Some (image_data_ptr (ptr m))) (m_currentImages thisB).
Proof.
  intros Hwf HcallA Hne Hids Hdec.
  destruct (GetSequencesById_frame ndebug _ _ _ _ HcallA) as (Hcat & Hshape).
  pose proof (well_formed_frame _ _ Hcat Hshape Hwf) as HwfA.
  destruct Hcat as (Himg & Hseq & Hlay & Hty).
  destruct (GetSequencesById_in_range ndebug thisA batchB HwfA Hne)
    as (ds & g & Hall & _ & _ & Hcall).
  - unfold GetSequenceDescriptions in *. now rewrite Hseq.
  - intros Hdebug i d Hi Hd. rewrite Himg in Hd. now apply (Hdec Hdebug i d).
  - eexists _, _, ds. split; [exact Hcall|].
    cbn [m_currentImages set_labelGenerator set_currentImages].
    split; [|split; [now rewrite Hty | split]].
    + eapply Forall2_impl; [|exact Hall].
      intros i d. unfold lookup, GetSequenceDescriptions.
      now rewrite Hseq, Himg.
    + rewrite length_map. symmetry. exact (Forall2_length Hall).
    + rewrite !map_map. reflexivity.
Qed.

Lemma second_batch_replaces_the_retained_images_witness :
  exists thisA resultA,
    GetSequencesById false Scenario.deserializer [0; 1] = Ok (thisA, resultA)
    /\ exists thisB resultB descriptions,
        GetSequencesById false thisA [1] = Ok (thisB, resultB)
        /\ Forall2 (fun i d => lookup Scenario.deserializer i = Some d)
                   [1] descriptions
        /\ m_currentImages thisB
           = map (decoded_image (m_featureElementType Scenario.deserializer))
                 descriptions
        /\ List.length (m_currentImages thisB) = 1%nat
        /\ map (fun pair => option_map data (hd_error pair)) resultB
           = map (fun m => Some (image_data_ptr (ptr m))) (m_currentImages thisB).
Proof.
  eexists _, _. split; [reflexivity|].
  eapply (second_batch_replaces_the_retained_images (cv:=ToyCV.cv) false
            Scenario.deserializer _ [0; 1] [1]).
  - repeat split; repeat constructor.
  - reflexivity.
  - discriminate.
  - repeat constructor.
  - intros _ i d _ _. reflexivity.
Defined.

(** ** What the constructor establishes *)

Lemma new_ImageDataDeserializer_Ok {cv : OpenCV} (ndebug : bool)
    (fs : string -> option string) (configHelper : ImageConfigHelper)
    (this : ImageDataDeserializer) :
  new_ImageDataDeserializer ndebug fs configHelper = Ok this ->
  m_sequences this = seq 0 (List.length (m_imageSequences this))
  /\ dimension (m_labelGenerator this) = labelDimension_of this
  /\ m_currentImages this = []
  /\ (ndebug = false ->
      Forall (fun s => classId s < labelDimension_of this) (m_imageSequences this)).
Proof.
  unfold new_ImageDataDeserializer.
  destruct (assert ndebug _); [|discriminate]. cbn [bind].
  destruct (Std.at_ _ (GetLabelInputIndex configHelper)) as [label|];
    [|discriminate]. cbn [bind].
  destruct (Std.at_ _ (GetFeatureInputIndex configHelper)) as [feature|];
    [|discriminate]. cbn [bind].
  set (labelDimension := GetHeight (sampleLayout label)).
  assert (Hgen : forall g, dimension g = labelDimension ->
            CreateSequenceDescriptions ndebug fs
              {| m_imageSequences := []; m_sequences := [];
                 m_labelGenerator := g; m_currentImages := [];
                 m_labelSampleLayout := sampleLayout label;
                 m_featureElementType := elementType feature |}
              (GetMapPath configHelper) labelDimension = Ok this ->
            m_sequences this = seq 0 (List.length (m_imageSequences this))
            /\ dimension (m_labelGenerator this) = labelDimension_of this
            /\ m_currentImages this = []
            /\ (ndebug = false ->
                Forall (fun s => classId s < labelDimension_of this)
                       (m_imageSequences this))).
  { intros g Hg. unfold CreateSequenceDescriptions.
    destruct (negb _); [discriminate|].
    destruct (read_rows _ _ _ _ _ _ _ _) as [this1|] eqn:Hrows; [|discriminate].
    cbn [bind]. rewrite push_back_sequences. intros [= <-].
    apply (read_rows_Ok ndebug _ _ (S (String.length
             (Std.buf (Std.ifstream fs (GetMapPath configHelper))))))
      in Hrows as ((Hseq & Hlg & Hcur & Hlay & _) & added & Himg & Hadded);
      [|lia].
    simpl in *. unfold labelDimension_of; simpl.
    rewrite Hseq, Hlg, Hcur, Hlay, Himg. simpl.
    repeat split; try assumption. }
  destruct (ElementType_eqb (elementType label) et_float).
  - cbn [bind]. apply Hgen. apply new_TypedLabelGenerator_size.
  - destruct (ElementType_eqb (elementType label) et_double); [|discriminate].
    cbn [bind]. apply Hgen. apply new_TypedLabelGenerator_size.
Qed.

(** In a build with assertions, every deserializer the constructor returns
    is well formed, whatever the map file holds. *)
Lemma constructed_well_formed {cv : OpenCV}
    (fs : string -> option string) (configHelper : ImageConfigHelper)
    (this : ImageDataDeserializer) :
  new_ImageDataDeserializer false fs configHelper = Ok this ->
  well_formed this.
Proof.
  intros Hnew. apply new_ImageDataDeserializer_Ok in Hnew as (Hs & Hd & _ & Hc).
  repeat split; auto.
Qed.

Lemma descriptions_of_classIds (labelDimension : N) (samples : N)
    (valid : bool) (rows : list (string * string)) :
  Forall (fun r => well_formed_row labelDimension r = true) rows ->
  forall cline,
    Forall (fun s => classId s < labelDimension)
           (descriptions_of samples valid cline (map row_text rows)).
Proof.
  induction 1 as [|r rows Hr Hrows IH]; intros cline; [constructor|].
  cbn [map descriptions_of].
  destruct (parse_row_well_formed _ _ Hr) as (-> & _ & Hc).
  constructor; [exact Hc | apply IH].
Qed.

(** In either build, the deserializer built from a map file of well-formed
    rows is well formed. *)
Lemma well_formed_rows_well_formed_state {cv : OpenCV}
    (ndebug : bool) (fs : string -> option string)
    (configHelper : ImageConfigHelper) (label feature : InputDescription)
    (rows : list (string * string)) (this : ImageDataDeserializer) :
  List.length (GetInputs_of_config configHelper) = 2%nat ->
  nth_error (GetInputs_of_config configHelper)
            (N.to_nat (GetLabelInputIndex configHelper)) = Some label ->
  nth_error (GetInputs_of_config configHelper)
            (N.to_nat (GetFeatureInputIndex configHelper)) = Some feature ->
  supported_label_type (elementType label) = true ->
  fs (GetMapPath configHelper) = Some (manifest_text (map row_text rows)) ->
  Forall (fun r => well_formed_row (GetHeight (sampleLayout label)) r = true) rows ->
  new_ImageDataDeserializer ndebug fs configHelper = Ok this ->
  well_formed this.
Proof.
  intros Hsize Hlabel Hfeature Hsupported Hfs Hrows Hnew.
  pose proof (new_ImageDataDeserializer_Ok _ _ _ _ Hnew) as (Hs & Hd & _ & _).
  split; [exact Hs | split; [|exact Hd]].
  destruct (new_ImageDataDeserializer_supported ndebug fs configHelper
              label feature Hlabel Hfeature Hsize Hsupported)
    as (g & Hg & Heq).
  rewrite Heq in Hnew.
  rewrite (CreateSequenceDescriptions_accepted ndebug fs _ _ _ (map row_text rows))
    in Hnew
    by first [ assumption
             | apply Forall_map; eapply Forall_impl; [|exact Hrows];
               intros r Hr; now apply well_formed_row_accepted ].
  injection Hnew as <-.
  unfold labelDimension_of, with_descriptions. simpl.
  now apply descriptions_of_classIds.
Qed.

(** An id outside the timeline is not recovered from: the assertion fails
    where it is compiled in, and the vector is read out of bounds where it
    is not. *)
Lemma GetSequencesById_out_of_range {cv : OpenCV}
    (ndebug : bool) (this : ImageDataDeserializer) (i : N) :
  Std.size (m_imageSequences this) <= i ->
  GetSequencesById ndebug this [i]
  = Err (if ndebug then undefined_behaviour else assertion_failure).
Proof.
  intros Hi. unfold GetSequencesById, GetSequencesById_loop, GetSequencesById_body.
  unfold assert, Std.at_. cbn [set_currentImages m_imageSequences].
  destruct (N.ltb_spec i (Std.size (m_imageSequences this))); [lia|].
  destruct (nth_error (m_imageSequences this) (N.to_nat i)) eqn:Hn.
  - assert (Hsome : nth_error (m_imageSequences this) (N.to_nat i) <> None)
      by congruence.
    apply nth_error_Some in Hsome. unfold Std.size in Hi. lia.
  - destruct ndebug; reflexivity.
Qed.

Lemma scenario_constructed (ndebug : bool) :
  new_ImageDataDeserializer (cv:=ToyCV.cv) ndebug Scenario.fs
    (Scenario.config et_float)
  = Ok Scenario.deserializer.
Proof. destruct ndebug; reflexivity. Qed.

(** ** The label buffer is shared by the pairs of a batch *)

(** C2, on the code.  For the map file of the scenario (class ids 0 and 2,
    label dimension 3) [GetSequencesById] on the ids 0 and 1 returns two
    pairs whose feature payloads carry one sample each, but the two label
    payloads point to the one buffer of the generator: when the batch is
    returned it holds the vector of the last id, [0; 0; 1], for the first
    pair as well. *)
Theorem scenario_label_payloads_share_the_buffer (ndebug : bool) :
  exists this this' image0 label0 image1 label1,
    new_ImageDataDeserializer (cv:=ToyCV.cv) ndebug Scenario.fs
      (Scenario.config et_float)
    = Ok this
    /\ GetSequencesById ndebug this [0; 1]
       = Ok (this', [[image0; label0]; [image1; label1]])
    /\ Sequence_numberOfSamples image0 = 1
    /\ Sequence_numberOfSamples image1 = 1
    /\ data label0 = data label1
    /\ deref_label this' (data label0)
       = Some (buf_float [Scenario.zero; Scenario.zero; Scenario.one])
    /\ deref_label this' (data label1)
       = Some (buf_float [Scenario.zero; Scenario.zero; Scenario.one])
    /\ deref_label this' (data label0)
       <> Some (buf_float [Scenario.one; Scenario.zero; Scenario.zero]).
Proof.
  destruct ndebug;
    (eexists _, _, _, _, _, _; split; [reflexivity|]; split; [reflexivity|];
     repeat split; discriminate).
Qed.

(** A one-hot vector tells its class id. *)
Lemma one_hot_inj {T} `{TElement T} (n c c' : nat) :
  of_int (T:=T) 1%Z <> of_int 0%Z ->
  (c < n)%nat ->
  one_hot (T:=T) n c = one_hot n c' ->
  c = c'.
Proof.
  intros Hone Hc Heq.
  assert (Hnth : nth_error (one_hot (T:=T) n c) c = nth_error (one_hot n c') c)
    by now rewrite Heq.
  rewrite !one_hot_nth, Nat.eqb_refl in Hnth by assumption.
  destruct (Nat.eqb_spec c c') as [Hsame|_]; [exact Hsame|].
  injection Hnth as Hnth. contradiction.
Qed.

Lemma one_hot_buffer_inj (g : LabelGenerator) (c c' : N) :
  c < dimension g ->
  one_hot_buffer g c = one_hot_buffer g c' ->
  c = c'.
Proof.
  destruct g as [g|g]; unfold dimension, Std.size; cbn [one_hot_buffer];
    intros Hc [= Heq]; apply one_hot_inj in Heq;
    try (apply N2Nat.inj; exact Heq); try lia; discriminate.
Qed.

Section ReturnedLabels.
Context {cv : OpenCV}.
Variable ndebug : bool.

Lemma looked_up_classIds (this : ImageDataDeserializer) (ids : list N)
    (descriptions : list ImageSequenceDescription) :
  well_formed this ->
  Forall2 (fun i d => lookup this i = Some d) ids descriptions ->
  Forall (fun d => classId d < dimension (m_labelGenerator this)) descriptions.
Proof.
  intros Hwf Hall.
  induction Hall as [|i d ids ds Hd _ IH]; constructor; [|exact IH].
  rewrite lookup_well_formed in Hd by assumption.
  destruct Hwf as (_ & Hc & ->). rewrite Forall_forall in Hc.
  apply Hc. eapply nth_error_In; exact Hd.
Qed.

(** What the pairs read when the batch is returned, from any well-formed
    state: there is one pair per id, in order, with the sample count of the
    description of the id on both payloads; but the label payload of a pair
    reads the one-hot vector of the class id of its description exactly
    when that class id is the class id of the last id of the batch. *)
Lemma returned_label_is_for_its_classId_iff
    (this : ImageDataDeserializer) (ids : list N) (last : N) :
  well_formed this ->
  Forall (fun i => i < Std.size (GetSequenceDescriptions this)) (ids ++ [last]) ->
  decodable ndebug this (ids ++ [last]) ->
  exists this' result_ descriptions dlast,
    GetSequencesById ndebug this (ids ++ [last]) = Ok (this', result_)
    /\ Forall2 (fun i d => lookup this i = Some d) (ids ++ [last]) descriptions
    /\ lookup this last = Some dlast
    /\ Forall2 (fun d pair =>
                  exists image label,
                    pair = [image; label]
                    /\ Sequence_numberOfSamples image = numberOfSamples d
                    /\ Sequence_numberOfSamples label = numberOfSamples d
                    /\ (deref_label this' (data label)
                        = Some (one_hot_buffer (m_labelGenerator this) (classId d))
                        <-> classId d = classId dlast))
               descriptions result_.
Proof.
  intros Hwf Hids Hdec.
  destruct (GetSequencesById_in_range ndebug this (ids ++ [last]) Hwf)
    as (ds & g & Hall & _ & Hbuf & Hcall); try assumption.
  { now destruct ids. }
  pose proof Hall as Hsplit.
  apply Forall2_app_inv_l in Hsplit as (dpre & dlast & _ & Hlast & Hds).
  inversion Hlast as [|? d ? dnil Hd Hnil]; subst. inversion Hnil; subst.
  rewrite rev_app_distr in Hbuf. cbn [rev app] in Hbuf.
  eexists _, _, (dpre ++ [d])%list, d.
  split; [exact Hcall|]. split; [exact Hall|]. split; [exact Hd|].
  pose proof (looked_up_classIds this _ _ Hwf Hall) as Hclasses.
  assert (Hlastclass : classId d < dimension (m_labelGenerator this)).
  { apply Forall_app in Hclasses as (_ & Hclass). now inversion Hclass. }
  clear Hall Hcall. induction (dpre ++ [d])%list as [|d' ds IH];
    cbn [map]; constructor.
  - eexists _, _. split; [reflexivity|]. split; [reflexivity|].
    split; [reflexivity|].
    cbn [deref_label label_sequence data set_labelGenerator m_labelGenerator].
    rewrite Hbuf. split.
    + intros [= Heq]. symmetry.
      now apply (one_hot_buffer_inj (m_labelGenerator this)).
    + now intros ->.
  - apply IH. now inversion Hclasses.
Qed.

End ReturnedLabels.

(** C4, on the code.  For the map file of the scenario (class ids 0 and 2,
    label dimension 3) [GetSequencesById] on the ids 1 and 0 returns one
    pair per id, in the order of the ids, and both payloads of a pair carry
    the [numberOfSamples] of the description of its id.  But the label
    payload of the first pair, the pair of id 1, is not the one generated
    for the class id of its description: when the batch is returned it
    reads the one-hot vector of class id 0, the class id of the last id,
    not that of class id 2. *)
Theorem scenario_returned_label_is_not_for_its_classId (ndebug : bool) :
  exists this this' image0 label0 image1 label1 d0 d1,
    new_ImageDataDeserializer (cv:=ToyCV.cv) ndebug Scenario.fs
      (Scenario.config et_float)
    = Ok this
    /\ lookup this 1 = Some d0
    /\ lookup this 0 = Some d1
    /\ GetSequencesById ndebug this [1; 0]
       = Ok (this', [[image0; label0]; [image1; label1]])
    /\ Sequence_numberOfSamples image0 = numberOfSamples d0
    /\ Sequence_numberOfSamples label0 = numberOfSamples d0
    /\ Sequence_numberOfSamples image1 = numberOfSamples d1
    /\ Sequence_numberOfSamples label1 = numberOfSamples d1
    /\ classId d0 = 2
    /\ classId d1 = 0
    /\ deref_label this' (data label1)
       = Some (one_hot_buffer (m_labelGenerator this) (classId d1))
    /\ deref_label this' (data label0)
       = Some (one_hot_buffer (m_labelGenerator this) (classId d1))
    /\ deref_label this' (data label0)
       = Some (buf_float [Scenario.one; Scenario.zero; Scenario.zero])
    /\ deref_label this' (data label0)
       <> Some (one_hot_buffer (m_labelGenerator this) (classId d0)).
Proof.
  destruct ndebug;
    (eexists _, _, _, _, _, _, _, _;
     split; [reflexivity|]; split; [reflexivity|]; split; [reflexivity|];
     split; [reflexivity|]; repeat split; discriminate).
Qed.

(** ** The format check looks for two fields, not for exactly two *)

(** A line of three tab-delimited fields is read as a row: the third field
    is ignored. *)
Lemma three_fields_are_accepted :
  field_count Scenario.three_fields = 3%nat
  /\ exists this,
      new_ImageDataDeserializer (cv:=ToyCV.cv) false
        (Scenario.fs_of [Scenario.three_fields]) (Scenario.config et_float)
      = Ok this
      /\ m_imageSequences this
         = [ {| id := 0; numberOfSamples := 1; chunkId := 0; isValid := true;
                path := "img0.png"; classId := 1 |} ].
Proof.
  split; [reflexivity|]. eexists. split; reflexivity.
Qed.

Lemma short_line_is_a_format_error_witness :
  CreateSequenceDescriptions (cv:=ToyCV.cv) false
    (Scenario.fs_of [row_text ("img0.png", "0"); "foo.png"])
    Scenario.initial "map.txt" 3
  = Err (runtime_error invalid_map_file [arg_string "map.txt"; arg_size_t 1]).
Proof.
  apply (short_line_is_a_format_error (cv:=ToyCV.cv) false
           (Scenario.fs_of [row_text ("img0.png", "0"); "foo.png"])
           "map.txt" 3 Scenario.initial
           [row_text ("img0.png", "0")] "foo.png" []).
  - reflexivity.
  - repeat constructor.
  - reflexivity.
  - simpl. lia.
Defined.

(** ** The bound on the class id is checked by an assertion only *)

(** With assertions compiled out, a row with class id 5 for a label
    dimension of 3 gives an entry of the timeline. *)
Lemma classId_out_of_bounds_without_assertions :
  exists this,
    new_ImageDataDeserializer (cv:=ToyCV.cv) true
      (Scenario.fs_of [row_text ("img0.png", "5")]) (Scenario.config et_float)
    = Ok this
    /\ labelDimension_of this = 3
    /\ lookup this 0
       = Some {| id := 0; numberOfSamples := 1; chunkId := 0; isValid := true;
                 path := "img0.png"; classId := 5 |}.
Proof.
  eexists. repeat split; reflexivity.
Qed.

Lemma classId_out_of_bounds_fails_the_assertion_witness :
  CreateSequenceDescriptions (cv:=ToyCV.cv) false
    (Scenario.fs_of [row_text ("img0.png", "0"); row_text ("img1.png", "5")])
    Scenario.initial "map.txt" 3
  = Err assertion_failure.
Proof.
  apply (classId_out_of_bounds_fails_the_assertion (cv:=ToyCV.cv)
           (Scenario.fs_of [row_text ("img0.png", "0"); row_text ("img1.png", "5")])
           "map.txt" 3 Scenario.initial
           [row_text ("img0.png", "0")] (row_text ("img1.png", "5")) []
           "img1.png" 5).
  - reflexivity.
  - repeat constructor.
  - reflexivity.
  - reflexivity.
  - discriminate.
Defined.

Lemma construction_fails_on_configuration_errors_witness :
  exists e,
    new_ImageDataDeserializer (cv:=ToyCV.cv) false Scenario.fs
      (Scenario.config et_atom) = Err e
    /\ (e = runtime_error unsupported_label_type [arg_ElementType et_atom]
        \/ e = runtime_error could_not_open [arg_string "map.txt"]
        \/ (e = assertion_failure /\ false = false
            /\ List.length (GetInputs_of_config (Scenario.config et_atom))
               <> 2%nat))
    /\ (Std.size (GetInputs_of_config (Scenario.config et_atom)) = 2 ->
        supported_label_type et_atom = false ->
        e = runtime_error unsupported_label_type [arg_ElementType et_atom])
    /\ (Std.size (GetInputs_of_config (Scenario.config et_atom)) = 2 ->
        supported_label_type et_atom = true ->
        e = runtime_error could_not_open [arg_string "map.txt"]).
Proof.
  apply (construction_fails_on_configuration_errors (cv:=ToyCV.cv) false
           Scenario.fs (Scenario.config et_atom)
           {| elementType := et_atom; sampleLayout := ImageLayoutWHC 1 3 1 |}
           {| elementType := et_float; sampleLayout := ImageLayoutWHC 2 2 3 |}).
  - reflexivity.
  - reflexivity.
  - left. reflexivity.
Defined.

(** ** The chunk hooks and [GetInputs] *)

(** C9.  [RequireChunk] answers [true] and [ReleaseChunk] returns; neither
    changes the state, so that a later lookup or call of [GetSequencesById]
    gives what it would have given without them. *)
Theorem chunk_hooks_leave_the_state {cv : OpenCV}
    (ndebug : bool) (this : ImageDataDeserializer) (chunkIndex : N)
    (i : N) (ids : list N) :
  RequireChunk this chunkIndex = (this, true)
  /\ ReleaseChunk this chunkIndex = this
  /\ lookup (fst (RequireChunk this chunkIndex)) i = lookup this i
  /\ lookup (ReleaseChunk this chunkIndex) i = lookup this i
  /\ GetSequencesById ndebug (fst (RequireChunk this chunkIndex)) ids
     = GetSequencesById ndebug this ids
  /\ GetSequencesById ndebug (ReleaseChunk this chunkIndex) ids
     = GetSequencesById ndebug this ids.
Proof. repeat split. Qed.

(** C10, as the code has it.  [GetInputs] never returns a list of input
    descriptions, in any state: with assertions compiled out it throws the
    runtime error "Not supported"; with assertions, the [assert(false)]
    that precedes the throw aborts. *)
Theorem GetInputs_never_returns {cv : OpenCV}
    (ndebug : bool) (this : ImageDataDeserializer) :
  GetInputs ndebug this
  = (if ndebug then Err (runtime_error "Not supported" [])
     else Err assertion_failure)
  /\ is_Ok (GetInputs ndebug this) = false.
Proof. destruct ndebug; split; reflexivity. Qed.

(** With assertions, the call on the deserializer of the scenario ends in
    the failed assertion and not in the throw. *)
Lemma GetInputs_aborts_with_assertions :
  GetInputs false Scenario.deserializer = Err assertion_failure
  /\ GetInputs false Scenario.deserializer
     <> Err (runtime_error "Not supported" []).
Proof. split; [reflexivity | discriminate]. Qed.

(** * Further properties of the deserializer *)

(** ** Batches that [GetSequencesById] does not serve *)

Section BatchEdges.
Context {cv : OpenCV}.
Variable ndebug : bool.

Lemma GetSequencesById_body_out_of_range (this : ImageDataDeserializer)
    (result_ : list (list Sequence)) (i : N) :
  Std.size (m_imageSequences this) <= i ->
  GetSequencesById_body ndebug this result_ i
  = Err (if ndebug then undefined_behaviour else assertion_failure).
Proof.
  intros Hi. unfold GetSequencesById_body, assert, Std.at_.
  destruct (N.ltb_spec i (Std.size (m_imageSequences this))); [lia|].
  destruct (nth_error (m_imageSequences this) (N.to_nat i)) eqn:Hn.
  - assert (Hsome : nth_error (m_imageSequences this) (N.to_nat i) <> None)
      by congruence.
    apply nth_error_Some in Hsome. unfold Std.size in Hi. lia.
  - destruct ndebug; reflexivity.
Qed.

Lemma GetSequencesById_loop_out_of_range (ids : list N) :
  forall (this : ImageDataDeserializer) (result_ : list (list Sequence)),
    Exists (fun i => Std.size (m_imageSequences this) <= i) ids ->
    exists e, GetSequencesById_loop ndebug this result_ ids = Err e.
Proof.
  induction ids as [|i ids IH]; intros this result_ Hbad;
    [inversion Hbad|].
  cbn [GetSequencesById_loop].
  destruct (GetSequencesById_body ndebug this result_ i)
    as [[this1 result1]|e] eqn:Hbody; [|now exists e].
  cbn [bind fst snd]. apply IH.
  inversion Hbad as [? ? Hi|? ? Htail]; subst.
  - rewrite GetSequencesById_body_out_of_range in Hbody by assumption.
    discriminate.
  - apply GetSequencesById_body_frame in Hbody as ((Himg & _) & _).
    now rewrite Himg.
Qed.

(** X1.  A batch that holds an id outside the timeline is refused as a
    whole, wherever the id stands in the batch and whatever the other ids
    are: the call ends in an error and returns no pair. *)
Theorem GetSequencesById_no_partial_batch
    (this : ImageDataDeserializer) (ids : list N) :
  Exists (fun i => Std.size (m_imageSequences this) <= i) ids ->
  exists e, GetSequencesById ndebug this ids = Err e.
Proof.
  intros Hbad. unfold GetSequencesById.
  destruct (assert ndebug (0 <? Std.size ids)) as [[]|e]; [|now exists e].
  cbn [bind]. now apply GetSequencesById_loop_out_of_range.
Qed.

(** X2.  The empty batch: with assertions the call aborts on
    [assert(0 < ids.size())]; without them it returns no pair, and it has
    dropped every image retained from the batch before while leaving the
    rest of the state alone. *)
Theorem GetSequencesById_empty_batch (this : ImageDataDeserializer) :
  GetSequencesById ndebug this []
  = (if ndebug then Ok (set_currentImages this [], [])
     else Err assertion_failure).
Proof. unfold GetSequencesById, assert. destruct ndebug; reflexivity. Qed.

End BatchEdges.

Lemma GetSequencesById_no_partial_batch_witness :
  exists e, GetSequencesById false Scenario.deserializer [0; 2; 1] = Err e.
Proof.
  apply (GetSequencesById_no_partial_batch (cv:=ToyCV.cv) false
           Scenario.deserializer [0; 2; 1]).
  right. left. discriminate.
Defined.

(** ** With assertions, no call writes outside the label buffer *)

Section AssertionBuild.
Context {cv : OpenCV}.

Lemma GetSequencesById_loop_asserts (ids : list N) :
  forall (this : ImageDataDeserializer) (result_ : list (list Sequence)) (e : Error),
    Forall (fun s => classId s < dimension (m_labelGenerator this))
           (m_imageSequences this) ->
    GetSequencesById_loop false this result_ ids = Err e ->
    e = assertion_failure.
Proof.
  induction ids as [|i ids IH]; intros this result_ e Hcls; [discriminate|].
  cbn [GetSequencesById_loop].
  destruct (GetSequencesById_body false this result_ i)
    as [[this1 result1]|e1] eqn:Hbody; cbn [bind fst snd].
  - apply IH.
    apply GetSequencesById_body_frame in Hbody as ((Himg & _) & Hshape).
    rewrite Himg, (same_shape_dimension _ _ Hshape). exact Hcls.
  - intros [= <-]. revert Hbody.
    unfold GetSequencesById_body, assert, Std.at_.
    destruct (N.ltb_spec i (Std.size (m_imageSequences this))) as [Hi|];
      [|now intros [= <-]].
    cbn [bind].
    destruct (nth_error (m_imageSequences this) (N.to_nat i)) as [d|] eqn:Hd.
    2: { apply nth_error_None in Hd. unfold Std.size in Hi. lia. }
    cbn [bind].
    destruct (isContinuous (imread (path d))); [|now intros [= <-]].
    cbn [bind set_currentImages m_labelGenerator].
    destruct (GetLabelDataFor_in_range (m_labelGenerator this) (classId d))
      as (g & -> & _).
    { rewrite Forall_forall in Hcls. apply Hcls.
      eapply nth_error_In; eassumption. }
    discriminate.
Qed.

(** X3.  In a build with assertions, a call of [GetSequencesById] on a
    well-formed deserializer never reads or writes out of bounds, whatever
    the ids: it returns, or it stops at a failed assertion (empty batch, id
    outside the timeline, image that is not continuous). *)
Theorem GetSequencesById_stops_at_assertions
    (this : ImageDataDeserializer) (ids : list N) :
  well_formed this ->
  returns_or_asserts (GetSequencesById false this ids).
Proof.
  intros (_ & Hcls & Hdim).
  destruct (GetSequencesById false this ids) as [r|e] eqn:Hcall; [exact I|].
  revert Hcall. unfold GetSequencesById, assert. simpl.
  destruct (0 <? Std.size ids); cbn [bind]; [|now intros [= <-]].
  apply GetSequencesById_loop_asserts. simpl. now rewrite Hdim.
Qed.

End AssertionBuild.

Lemma GetSequencesById_stops_at_assertions_witness :
  returns_or_asserts (GetSequencesById false Scenario.deserializer [1; 7]).
Proof.
  apply (GetSequencesById_stops_at_assertions (cv:=ToyCV.cv)
           Scenario.deserializer [1; 7]).
  repeat split; repeat constructor.
Defined.

(** ** What a call that returns has and has not changed *)

Section ReturnedBatch.
Context {cv : OpenCV}.
Variable ndebug : bool.

Lemma GetSequencesById_body_sizes (this this' : ImageDataDeserializer)
    (result_ result' : list (list Sequence)) (i : N) :
  GetSequencesById_body ndebug this result_ i = Ok (this', result') ->
  List.length result' = S (List.length result_)
  /\ List.length (m_currentImages this') = S (List.length (m_currentImages this)).
Proof.
  unfold GetSequencesById_body.
  destruct (assert ndebug _); [|discriminate]. cbn [bind].
  destruct (Std.at_ _ _) as [imageSequence|]; [|discriminate]. cbn [bind].
  destruct (assert ndebug _); [|discriminate].
  cbn [bind set_currentImages m_labelGenerator].
  destruct (GetLabelDataFor _ _) as [g|]; [|discriminate]. cbn [bind].
  intros [= <- <-]. unfold Std.push_back; simpl.
  rewrite !length_app; simpl. lia.
Qed.

Lemma GetSequencesById_loop_sizes (ids : list N) :
  forall (this this' : ImageDataDeserializer)
         (result_ result' : list (list Sequence)),
    GetSequencesById_loop ndebug this result_ ids = Ok (this', result') ->
    List.length result' = (List.length result_ + List.length ids)%nat
    /\ List.length (m_currentImages this')
       = (List.length (m_currentImages this) + List.length ids)%nat.
Proof.
  induction ids as [|i ids IH]; intros this this' result_ result'; simpl.
  - intros [= <- <-]. lia.
  - destruct (GetSequencesById_body ndebug this result_ i)
      as [[this1 result1]|] eqn:Hbody; [|discriminate].
    cbn [bind fst snd]. intros Hloop.
    apply GetSequencesById_body_sizes in Hbody as (Hr1 & Hc1).
    apply IH in Hloop as (Hr & Hc). lia.
Qed.

(** X4.  Whatever the state and the ids, a call of [GetSequencesById] that
    returns has produced as many pairs as ids and retains as many images,
    and it has changed neither the timeline (every lookup answers as
    before) nor the label layout, the feature element type or the size of
    the label buffer. *)
Theorem GetSequencesById_returned
    (this this' : ImageDataDeserializer) (ids : list N)
    (result_ : list (list Sequence)) :
  GetSequencesById ndebug this ids = Ok (this', result_) ->
  List.length result_ = List.length ids
  /\ List.length (m_currentImages this') = List.length ids
  /\ GetSequenceDescriptions this' = GetSequenceDescriptions this
  /\ (forall i, lookup this' i = lookup this i)
  /\ m_labelSampleLayout this' = m_labelSampleLayout this
  /\ m_featureElementType this' = m_featureElementType this
  /\ dimension (m_labelGenerator this') = dimension (m_labelGenerator this).
Proof.
  intros Hcall.
  destruct (GetSequencesById_frame ndebug _ _ _ _ Hcall)
    as ((Himg & Hseq & Hlay & Hty) & Hshape).
  revert Hcall. unfold GetSequencesById.
  destruct (assert ndebug _); [|discriminate]. cbn [bind].
  intros Hloop. apply GetSequencesById_loop_sizes in Hloop as (Hr & Hc).
  simpl in Hr, Hc.
  repeat split; try assumption.
  - intros i. unfold lookup, GetSequenceDescriptions. now rewrite Hseq, Himg.
  - now apply same_shape_dimension.
Qed.

(** X5.  The label payloads of one batch share the buffer of the
    generator: when a call on a well-formed deserializer returns, every
    label payload of the batch reads the one-hot vector of the class id of
    the last id of the batch. *)
Theorem label_payloads_read_the_last_class
    (this : ImageDataDeserializer) (ids : list N) (last : N) :
  well_formed this ->
  Forall (fun i => i < Std.size (GetSequenceDescriptions this)) (ids ++ [last]) ->
  decodable ndebug this (ids ++ [last]) ->
  exists this' result_ d,
    GetSequencesById ndebug this (ids ++ [last]) = Ok (this', result_)
    /\ lookup this last = Some d
    /\ Forall (fun pair =>
                 exists image label,
                   pair = [image; label]
                   /\ deref_label this' (data label)
                      = Some (one_hot_buffer (m_labelGenerator this) (classId d)))
              result_.
Proof.
  intros Hwf Hids Hdec.
  destruct (GetSequencesById_in_range ndebug this (ids ++ [last]) Hwf)
    as (ds & g & Hall & _ & Hbuf & Hcall); try assumption.
  { now destruct ids. }
  apply Forall2_app_inv_l in Hall as (dpre & dlast & _ & Hlast & ->).
  inversion Hlast as [|? d ? dnil Hd Hnil]; subst. inversion Hnil; subst.
  rewrite rev_app_distr in Hbuf. cbn [rev app] in Hbuf.
  eexists _, _, d. split; [exact Hcall|]. split; [exact Hd|].
  apply Forall_map, Forall_forall. intros d' _.
  eexists _, _. split; [reflexivity|].
  cbn [deref_label label_sequence data set_labelGenerator m_labelGenerator].
  now rewrite Hbuf.
Qed.

End ReturnedBatch.

Lemma GetSequencesById_returned_witness :
  exists this' result_,
    GetSequencesById false Scenario.deserializer [1; 0; 1] = Ok (this', result_)
    /\ List.length result_ = 3%nat
    /\ List.length (m_currentImages this') = 3%nat
    /\ GetSequenceDescriptions this'
       = GetSequenceDescriptions Scenario.deserializer
    /\ (forall i, lookup this' i = lookup Scenario.deserializer i)
    /\ m_labelSampleLayout this' = m_labelSampleLayout Scenario.deserializer
    /\ m_featureElementType this' = m_featureElementType Scenario.deserializer
    /\ dimension (m_labelGenerator this')
       = dimension (m_labelGenerator Scenario.deserializer).
Proof.
  eexists _, _. split; [reflexivity|].
  eapply (GetSequencesById_returned (cv:=ToyCV.cv) false
            Scenario.deserializer _ [1; 0; 1]).
  reflexivity.
Defined.

Lemma label_payloads_read_the_last_class_witness :
  exists this' result_ d,
    GetSequencesById false Scenario.deserializer ([1; 1] ++ [0])
    = Ok (this', result_)
    /\ lookup Scenario.deserializer 0 = Some d
    /\ Forall (fun pair =>
                 exists image label,
                   pair = [image; label]
                   /\ deref_label this' (data label)
                      = Some (one_hot_buffer
                                (m_labelGenerator Scenario.deserializer)
                                (classId d)))
              result_.
Proof.
  apply (label_payloads_read_the_last_class (cv:=ToyCV.cv) false
           Scenario.deserializer [1; 1] 0).
  - repeat split; repeat constructor.
  - repeat constructor.
  - intros _ i d _ _. reflexivity.
Defined.

(** ** The type of the retained images *)

Section ImageTypes.
Context {cv : OpenCV}.
Variable ndebug : bool.
Hypothesis convertTo_law : convertTo_to_depth.

Lemma decoded_image_type (featureElementType : ElementType)
    (imageSequence : ImageSequenceDescription) :
  let m := decoded_image featureElementType imageSequence in
  type m = feature_type featureElementType m.
Proof.
  unfold decoded_image, feature_type.
  set (depth := if ElementType_eqb featureElementType et_float
                then CV_32F else CV_64F).
  assert (Hdepth : depth = CV_32F \/ depth = CV_64F).
  { unfold depth. destruct (ElementType_eqb _ _); [now left | now right]. }
  destruct (Z.eqb_spec (type (imread (path imageSequence)))
              (CV_MAKETYPE depth (channels (imread (path imageSequence)))))
    as [Heq|Hne]; cbn [negb]; cbv zeta.
  - exact Heq.
  - destruct (convertTo_law (imread (path imageSequence)) depth Hdepth)
      as (Hty & Hch).
    now rewrite Hty, Hch.
Qed.

Lemma GetSequencesById_body_images (this this' : ImageDataDeserializer)
    (result_ result' : list (list Sequence)) (i : N) :
  GetSequencesById_body ndebug this result_ i = Ok (this', result') ->
  exists imageSequence,
    m_currentImages this'
    = (m_currentImages this
       ++ [decoded_image (m_featureElementType this) imageSequence])%list.
Proof.
  unfold GetSequencesById_body.
  destruct (assert ndebug _); [|discriminate]. cbn [bind].
  destruct (Std.at_ _ _) as [imageSequence|]; [|discriminate]. cbn [bind].
  destruct (assert ndebug _); [|discriminate].
  cbn [bind set_currentImages m_labelGenerator].
  destruct (GetLabelDataFor _ _) as [g|]; [|discriminate]. cbn [bind].
  intros [= <- _]. now exists imageSequence.
Qed.

Lemma GetSequencesById_loop_image_types (ids : list N) :
  forall (this this' : ImageDataDeserializer)
         (result_ result' : list (list Sequence)),
    Forall (fun m => type m = feature_type (m_featureElementType this) m)
           (m_currentImages this) ->
    GetSequencesById_loop ndebug this result_ ids = Ok (this', result') ->
    Forall (fun m => type m = feature_type (m_featureElementType this) m)
           (m_currentImages this').
Proof.
  induction ids as [|i ids IH]; intros this this' result_ result' Hall; simpl.
  - now intros [= <- _].
  - destruct (GetSequencesById_body ndebug this result_ i)
      as [[this1 result1]|] eqn:Hbody; [|discriminate].
    cbn [bind fst snd]. intros Hloop.
    pose proof (GetSequencesById_body_frame ndebug _ _ _ _ _ Hbody)
      as ((_ & _ & _ & Hty) & _).
    apply GetSequencesById_body_images in Hbody as (d & Himgs).
    rewrite <- Hty. apply (IH this1 this' result1 result'); [|exact Hloop].
    rewrite Hty, Himgs. apply Forall_app. split; [exact Hall|].
    constructor; [apply decoded_image_type | constructor].
Qed.

(** X6.  With [convertTo] doing what OpenCV documents, every image retained
    by a call that returned has the type of the feature stream: 32-bit
    floats when the feature element type is [et_float], 64-bit floats for
    any other element type, with the channels it was decoded with. *)
Theorem retained_images_have_the_feature_type
    (this this' : ImageDataDeserializer) (ids : list N)
    (result_ : list (list Sequence)) :
  GetSequencesById ndebug this ids = Ok (this', result_) ->
  Forall (fun m => type m = feature_type (m_featureElementType this') m)
         (m_currentImages this').
Proof.
  intros Hcall.
  destruct (GetSequencesById_frame ndebug _ _ _ _ Hcall) as ((_ & _ & _ & ->) & _).
  revert Hcall. unfold GetSequencesById.
  destruct (assert ndebug _); [|discriminate]. cbn [bind].
  intros Hloop.
  apply (GetSequencesById_loop_image_types ids (set_currentImages this []) this'
           [] result_); [constructor | exact Hloop].
Qed.

End ImageTypes.

Lemma retained_images_have_the_feature_type_witness :
  exists this' result_,
    GetSequencesById false Scenario.deserializer [0; 1] = Ok (this', result_)
    /\ Forall (fun m => type m = feature_type (m_featureElementType this') m)
              (m_currentImages this').
Proof.
  eexists _, _. split; [reflexivity|].
  refine (retained_images_have_the_feature_type (cv:=ToyCV.cv) false _
            Scenario.deserializer _ [0; 1] _ _).
  - intros m depth [-> | ->]; split; reflexivity.
  - reflexivity.
Defined.

(** ** Class ids that [std::stoi] refuses *)

Lemma stoi_not_a_number (c : string) :
  not_a_number c = true -> Std.stoi c = Err (invalid_argument "stoi").
Proof.
  destruct c as [|a s]; [discriminate|].
  destruct a as [[] [] [] [] [] [] [] []]; try discriminate; reflexivity.
Qed.

Lemma stoi_above_INT_MAX (c : string) :
  decimal c = true -> (Std.INT_MAX < decimal_value c)%Z ->
  Std.stoi c = Err (out_of_range "stoi").
Proof.
  destruct c as [|a s]; [discriminate|].
  unfold decimal. intros Hd Hmax.
  cbn [all_digits] in Hd. apply andb_prop in Hd as [Ha Hs].
  rewrite stoi_leading_digit by assumption.
  cbn [Std.digits]. rewrite Ha. rewrite digits_all_digits by assumption.
  change (decimal_value_from (10 * 0 + Std.digit_value a) s)
    with (decimal_value (String a s)).
  destruct (Z.leb_spec (decimal_value (String a s)) Std.INT_MAX) as [Hle|_];
    [lia|].
  now rewrite andb_false_r.
Qed.

Lemma absent_app (d : ascii) (a b : string) :
  absent d (a ++ b) = absent d a && absent d b.
Proof.
  induction a as [|x a IH]; simpl; [reflexivity|].
  now rewrite IH, andb_assoc.
Qed.

Section RefusedClassIds.
Context {cv : OpenCV}.
Variables (ndebug : bool) (fs : string -> option string).
Variables (mapPath : string) (labelDimension : N).

(** The error of [std::stoi] on the second field is the error of the
    construction. *)
Lemma CreateSequenceDescriptions_stoi_error
    (this : ImageDataDeserializer) (pre : list string) (p c : string)
    (post : list string) (e : Error) :
  fs mapPath = Some (manifest_text (pre ++ row_text (p, c) :: post)) ->
  Forall (fun l => accepted_line ndebug labelDimension l = true) pre ->
  absent tab p = true -> absent newline p = true ->
  absent tab c = true -> absent newline c = true -> c <> "" ->
  Std.stoi c = Err e ->
  CreateSequenceDescriptions ndebug fs this mapPath labelDimension = Err e.
Proof.
  intros Hfs Hpre Hpt Hpn Hct Hcn Hne Hstoi.
  apply (CreateSequenceDescriptions_refused ndebug fs mapPath labelDimension
           this pre (row_text (p, c)) post); try assumption.
  - unfold row_text. cbn [fst snd].
    change (String tab c) with (String tab "" ++ c).
    rewrite !absent_app, Hpn, Hcn. reflexivity.
  - intros description this0. unfold read_row, row_text. cbn [fst snd].
    rewrite read_columns_two; try assumption.
    now rewrite Hstoi.
Qed.

(** X7.  A row whose class id is a decimal number above [INT_MAX], reached
    after accepted lines, ends the construction with the [std::out_of_range]
    of [std::stoi], in either build; unlike the format error, the error
    names neither the map file nor the line. *)
Theorem classId_above_INT_MAX_is_out_of_range
    (this : ImageDataDeserializer) (pre : list string) (p c : string)
    (post : list string) :
  fs mapPath = Some (manifest_text (pre ++ row_text (p, c) :: post)) ->
  Forall (fun l => accepted_line ndebug labelDimension l = true) pre ->
  absent tab p = true -> absent newline p = true ->
  decimal c = true ->
  (Std.INT_MAX < decimal_value c)%Z ->
  CreateSequenceDescriptions ndebug fs this mapPath labelDimension
  = Err (out_of_range "stoi").
Proof.
  intros Hfs Hpre Hpt Hpn Hdec Hmax.
  assert (Hdigits : all_digits c = true).
  { unfold decimal in Hdec. now destruct c. }
  destruct (all_digits_absent _ Hdigits) as [Hct Hcn].
  apply (CreateSequenceDescriptions_stoi_error this pre p c post);
    try assumption.
  - intros ->. discriminate.
  - now apply stoi_above_INT_MAX.
Qed.

(** X8.  A row whose second field is not a number (it starts with a
    character that is neither a digit, a sign nor white space), reached
    after accepted lines, ends the construction with the
    [std::invalid_argument] of [std::stoi], in either build. *)
Theorem classId_not_a_number_is_invalid_argument
    (this : ImageDataDeserializer) (pre : list string) (p c : string)
    (post : list string) :
  fs mapPath = Some (manifest_text (pre ++ row_text (p, c) :: post)) ->
  Forall (fun l => accepted_line ndebug labelDimension l = true) pre ->
  absent tab p = true -> absent newline p = true ->
  absent tab c = true -> absent newline c = true ->
  not_a_number c = true ->
  CreateSequenceDescriptions ndebug fs this mapPath labelDimension
  = Err (invalid_argument "stoi").
Proof.
  intros Hfs Hpre Hpt Hpn Hct Hcn Hnan.
  apply (CreateSequenceDescriptions_stoi_error this pre p c post);
    try assumption.
  - intros ->. discriminate.
  - now apply stoi_not_a_number.
Qed.

End RefusedClassIds.

Lemma classId_above_INT_MAX_is_out_of_range_witness :
  CreateSequenceDescriptions (cv:=ToyCV.cv) true
    (Scenario.fs_of [row_text ("img0.png", "0");
                     row_text ("img1.png", "2147483648")])
    Scenario.initial "map.txt" 3
  = Err (out_of_range "stoi").
Proof.
  apply (classId_above_INT_MAX_is_out_of_range (cv:=ToyCV.cv) true
           (Scenario.fs_of [row_text ("img0.png", "0");
                            row_text ("img1.png", "2147483648")])
           "map.txt" 3 Scenario.initial
           [row_text ("img0.png", "0")] "img1.png" "2147483648" []).
  - reflexivity.
  - repeat constructor.
  - reflexivity.
  - reflexivity.
  - reflexivity.
  - reflexivity.
Defined.

Lemma classId_not_a_number_is_invalid_argument_witness :
  CreateSequenceDescriptions (cv:=ToyCV.cv) false
    (Scenario.fs_of [row_text ("img0.png", "cat")])
    Scenario.initial "map.txt" 3
  = Err (invalid_argument "stoi").
Proof.
  apply (classId_not_a_number_is_invalid_argument (cv:=ToyCV.cv) false
           (Scenario.fs_of [row_text ("img0.png", "cat")])
           "map.txt" 3 Scenario.initial [] "img0.png" "cat" []).
  - reflexivity.
  - constructor.
  - reflexivity.
  - reflexivity.
  - reflexivity.
  - reflexivity.
  - reflexivity.
Defined.

(** ** Class ids that [std::stoi] accepts *)

Lemma stoi_negative (c : string) :
  decimal c = true -> (decimal_value c <= - Std.INT_MIN)%Z ->
  Std.stoi (String "-" c) = Ok (- decimal_value c)%Z.
Proof.
  destruct c as [|a s]; [discriminate|].
  unfold decimal. intros Hd Hmax.
  pose proof (decimal_value_from_nonneg _ 0 Hd (Z.le_refl 0)) as Hnn.
  change (decimal_value_from 0 (String a s))
    with (decimal_value (String a s)) in Hnn.
  cbn [all_digits] in Hd. apply andb_prop in Hd as [Ha Hs].
  unfold Std.stoi.
  change (Std.skip_space (String "-" (String a s))) with (String "-" (String a s)).
  cbv iota beta.
  cbn [Std.digits]. rewrite Ha. rewrite digits_all_digits by assumption.
  change (decimal_value_from (10 * 0 + Std.digit_value a) s)
    with (decimal_value (String a s)).
  generalize dependent (decimal_value (String a s)). intros v Hmax Hnn.
  destruct (Z.leb_spec Std.INT_MIN (- v)) as [_|Hlt]; [|lia].
  destruct (Z.leb_spec (- v) Std.INT_MAX) as [_|Hgt]; [reflexivity|].
  unfold Std.INT_MAX in Hgt. simpl in Hgt. lia.
Qed.

Lemma read_until_app (d : ascii) (c t : string) :
  absent d c = true ->
  Std.read_until d (c ++ t)
  = (c ++ fst (Std.read_until d t), snd (Std.read_until d t)).
Proof.
  induction c as [|a c IH]; simpl; intros Hc.
  - now destruct (Std.read_until d t).
  - apply andb_prop in Hc as [Ha Hc]. apply negb_true_iff in Ha.
    now rewrite Ha, IH.
Qed.

(** What [read_until] extracts starts as the text starts. *)
Lemma read_until_head (d : ascii) (t : string) :
  match fst (Std.read_until d t), t with
  | String a _, String b _ => a = b
  | String _ _, EmptyString => False
  | EmptyString, _ => True
  end.
Proof.
  destruct t as [|b t]; simpl; [exact I|].
  destruct (Ascii.eqb b d); simpl; [exact I|].
  now destruct (Std.read_until d t).
Qed.

Lemma digits_then_other (c l : string) (acc : Z) :
  all_digits c = true ->
  match l with EmptyString => true | String a _ => negb (Std.isdigit a) end = true ->
  Std.digits (c ++ l) (Some acc) = Some (decimal_value_from acc c).
Proof.
  revert acc; induction c as [|a c IH];
    cbn [all_digits decimal_value_from Std.digits String.append]; intros acc Hd Hl.
  - destruct l as [|b l]; [reflexivity|]. cbn [Std.digits].
    apply negb_true_iff in Hl. now rewrite Hl.
  - apply andb_prop in Hd as [Ha Hc]. rewrite Ha. now apply IH.
Qed.

Lemma stoi_decimal_then_other (c l : string) :
  decimal c = true -> (decimal_value c <= Std.INT_MAX)%Z ->
  match l with EmptyString => true | String a _ => negb (Std.isdigit a) end = true ->
  Std.stoi (c ++ l) = Ok (decimal_value c).
Proof.
  destruct c as [|a s]; [discriminate|].
  unfold decimal. intros Hd Hmax Hl.
  pose proof (decimal_value_from_nonneg _ 0 Hd (Z.le_refl 0)) as Hnn.
  change (decimal_value_from 0 (String a s))
    with (decimal_value (String a s)) in Hnn.
  cbn [all_digits] in Hd. apply andb_prop in Hd as [Ha Hs].
  cbn [String.append]. rewrite stoi_leading_digit by assumption.
  cbn [Std.digits]. rewrite Ha. rewrite digits_then_other by assumption.
  change (decimal_value_from (10 * 0 + Std.digit_value a) s)
    with (decimal_value (String a s)).
  generalize dependent (decimal_value (String a s)). intros v Hmax Hnn.
  destruct (Z.leb_spec Std.INT_MIN v) as [_|Hlt];
    [| unfold Std.INT_MIN in Hlt; simpl in Hlt; lia].
  destruct (Z.leb_spec v Std.INT_MAX) as [_|Hgt]; [reflexivity | lia].
Qed.

(** A well-formed row followed by an ignored tail is read as the row. *)
Lemma parse_row_tailed (labelDimension : N) (r : string * string) (tail : string) :
  well_formed_row labelDimension r = true ->
  ignored_tail tail = true ->
  parse_row (row_text r ++ tail) = Some (fst r, row_classId r)
  /\ absent newline (row_text r ++ tail) = true.
Proof.
  intros Hwf Htail.
  destruct (parse_row_well_formed _ _ Hwf) as (_ & Hnl & _).
  unfold well_formed_row in Hwf.
  repeat (apply andb_prop in Hwf as [Hwf ?]).
  rename Hwf into Hptab, H2 into Hpnl, H1 into Hdec, H0 into Hmax, H into Hdim.
  apply Z.leb_le in Hmax.
  unfold ignored_tail in Htail. apply andb_prop in Htail as [Htnl Hthead].
  assert (Hdigits : all_digits (snd r) = true).
  { unfold decimal in Hdec. now destruct (snd r). }
  destruct (all_digits_absent _ Hdigits) as [Hctab _].
  split; [|now rewrite absent_app, Hnl, Htnl].
  unfold parse_row, row_text, read_columns, Std.stringstream, Std.getline.
  cbn [Std.good Std.eofbit Std.failbit Std.buf negb andb].
  rewrite string_app_assoc. cbn [String.append].
  rewrite read_until_delim by assumption.
  cbn [Std.to_bool Std.failbit negb Std.good Std.eofbit Std.buf andb].
  rewrite read_until_app by assumption.
  pose proof (read_until_head tab tail) as Hhead.
  destruct (Std.read_until tab tail) as [l rest]. cbn [fst snd] in *.
  assert (Hl : match l with EmptyString => true
                       | String a _ => negb (Std.isdigit a) end = true).
  { destruct l as [|a l]; [reflexivity|].
    destruct tail as [|b tail]; [contradiction|]. now subst. }
  assert (Hne : snd r ++ l <> "").
  { destruct (snd r); [discriminate Hdec | discriminate]. }
  assert (Hstoi : Std.stoi (snd r ++ l) = Ok (decimal_value (snd r)))
    by now apply stoi_decimal_then_other.
  assert (Hsize : Std.size_t_of_int (decimal_value (snd r)) = row_classId r).
  { unfold row_classId, Std.size_t_of_int. f_equal. apply Z.mod_small.
    pose proof (decimal_value_from_nonneg _ 0 Hdigits (Z.le_refl 0)).
    unfold decimal_value, Std.INT_MAX, Std.SIZE_MAX_plus_1 in *. simpl in *. lia. }
  destruct rest as [rest|]; cbn [Std.to_bool Std.failbit negb].
  - now rewrite Hstoi, Hsize.
  - destruct (snd r ++ l) eqn:Hcl; [contradiction|].
    cbn [Std.to_bool Std.failbit negb]. now rewrite Hstoi, Hsize.
Qed.

(** ** Lines the loop reads in the same way *)

Lemma accepted_line_parsed (ndebug : bool) (labelDimension : N) (l : string) :
  accepted_line ndebug labelDimension l = true ->
  absent newline l = true
  /\ l <> ""
  /\ exists p c, parse_row l = Some (p, c)
                 /\ (ndebug = true \/ c < labelDimension).
Proof.
  unfold accepted_line. intros Hacc. apply andb_prop in Hacc as [Hnl Hacc].
  split; [assumption|]. split.
  - intros ->. discriminate.
  - destruct (parse_row l) as [[p c]|]; [|discriminate].
    exists p, c. split; [reflexivity|].
    apply orb_prop in Hacc as [->|Hc]; [now left | right; now apply N.ltb_lt].
Qed.

Lemma descriptions_of_app (ndebug : bool) (labelDimension : N)
    (samples : N) (valid : bool) (pre rest : list string) :
  Forall (fun l => accepted_line ndebug labelDimension l = true) pre ->
  forall cline,
    descriptions_of samples valid cline (pre ++ rest)
    = (descriptions_of samples valid cline pre
       ++ descriptions_of samples valid (cline + N.of_nat (List.length pre)) rest)%list.
Proof.
  induction 1 as [|l ls Hl Hls IH]; intros cline.
  - simpl. now rewrite N.add_0_r.
  - cbn [app descriptions_of].
    destruct (accepted_line_parsed _ _ _ Hl) as (_ & _ & p & c & -> & _).
    rewrite IH. cbn [app]. do 3 f_equal. simpl List.length. lia.
Qed.

Lemma descriptions_of_ext (samples : N) (valid : bool)
    (ls ls' : list string) :
  Forall2 (fun l l' => parse_row l = parse_row l') ls ls' ->
  forall cline,
    descriptions_of samples valid cline ls
    = descriptions_of samples valid cline ls'.
Proof.
  induction 1 as [|l l' ls ls' Hl Hls IH]; intros cline; [reflexivity|].
  cbn [descriptions_of]. rewrite Hl.
  destruct (parse_row l') as [[p c]|]; [|reflexivity].
  now rewrite IH.
Qed.

Section SameReading.
Context {cv : OpenCV}.
Variables (ndebug : bool) (mapPath : string) (labelDimension : N).

(** The loop looks neither at the old value of [line] nor at the fields of
    the loop variable that its body assigns. *)
Lemma read_rows_irrelevant (mapFile : Std.istream) (line line' : string)
    (cline : N) (description description' : ImageSequenceDescription)
    (this : ImageDataDeserializer) :
  numberOfSamples description' = numberOfSamples description ->
  isValid description' = isValid description ->
  read_rows ndebug mapPath labelDimension mapFile line cline description this
  = read_rows ndebug mapPath labelDimension mapFile line' cline description' this.
Proof.
  intros Hs Hv. rewrite !read_rows_step. unfold Std.getline.
  destruct (Std.good mapFile); [|reflexivity].
  destruct (Std.read_until newline (Std.buf mapFile)) as [l [rest|]].
  all: match goal with
       | |- context [Std.to_bool ?m] => destruct (Std.to_bool m)
       end; [|reflexivity].
  all: unfold read_row; rewrite Hs, Hv;
    destruct (read_columns l) as [[imgPath clsId]|]; [|reflexivity];
    destruct (Std.stoi clsId); reflexivity.
Qed.

(** The loop after a run of accepted lines. *)
Lemma read_rows_after_accepted (pre : list string) (rest : string)
    (line : string) (cline : N) (description : ImageSequenceDescription)
    (this : ImageDataDeserializer) :
  Forall (fun l => accepted_line ndebug labelDimension l = true) pre ->
  read_rows ndebug mapPath labelDimension
            (fresh (manifest_text pre ++ rest)) line cline description this
  = read_rows ndebug mapPath labelDimension (fresh rest) line
              (cline + N.of_nat (List.length pre)) description
              (set_imageSequences this
                 (m_imageSequences this
                  ++ descriptions_of (numberOfSamples description)
                                     (isValid description) cline pre)).
Proof.
  intros Hpre.
  destruct (read_rows_accepted ndebug mapPath labelDimension pre rest Hpre
              line cline description this)
    as (line' & description' & Hs & Hv & ->).
  now apply read_rows_irrelevant.
Qed.

(** A last line without newline is read as if it had one. *)
Lemma read_rows_unterminated (last : string) (line : string) (cline : N)
    (description : ImageSequenceDescription) (this : ImageDataDeserializer) :
  absent newline last = true -> last <> "" ->
  read_rows ndebug mapPath labelDimension (fresh last) line cline description this
  = read_rows ndebug mapPath labelDimension
              (fresh (last ++ String newline "")) line cline description this.
Proof.
  intros Hnl Hne.
  rewrite (read_rows_step _ _ _ (fresh (last ++ String newline ""))).
  rewrite getline_line by assumption.
  rewrite read_rows_step. unfold Std.getline, fresh at 1 2.
  cbn [Std.good Std.eofbit Std.failbit Std.buf negb andb].
  rewrite read_until_end by assumption.
  destruct last as [|a s]; [contradiction|].
  cbn [Std.to_bool Std.failbit negb fresh].
  destruct (read_row ndebug mapPath labelDimension (String a s) cline
              description this) as [[description1 this1]|]; [|reflexivity].
  rewrite read_rows_at_end, read_rows_step. reflexivity.
Qed.

End SameReading.

Section LenientRows.
Context {cv : OpenCV}.
Variables (ndebug : bool) (mapPath : string) (labelDimension : N).

(** X9.  A map file whose last row is not ended by a newline is read like
    the same file with the newline: the last row gives the last entry of
    the timeline. *)
Theorem last_row_needs_no_newline
    (fs fs' : string -> option string) (this : ImageDataDeserializer)
    (pre : list string) (last : string) :
  fs mapPath = Some (manifest_text pre ++ last) ->
  fs' mapPath = Some (manifest_text (pre ++ [last])) ->
  Forall (fun l => accepted_line ndebug labelDimension l = true) (pre ++ [last]) ->
  CreateSequenceDescriptions ndebug fs this mapPath labelDimension
  = CreateSequenceDescriptions ndebug fs' this mapPath labelDimension
  /\ CreateSequenceDescriptions ndebug fs this mapPath labelDimension
     = Ok (with_descriptions this (descriptions_of 1 true 0 (pre ++ [last]))).
Proof.
  intros Hfs Hfs' Hall.
  pose proof (CreateSequenceDescriptions_accepted ndebug fs' mapPath
                labelDimension this (pre ++ [last]) Hfs' Hall) as Hclean.
  enough (Heq : CreateSequenceDescriptions ndebug fs this mapPath labelDimension
                = CreateSequenceDescriptions ndebug fs' this mapPath labelDimension)
    by (split; [exact Heq | now rewrite Heq]).
  clear Hclean.
  apply Forall_app in Hall as (Hpre & Hlast).
  inversion Hlast as [|? ? Hl _]; subst.
  destruct (accepted_line_parsed _ _ _ Hl) as (Hnl & Hne & _).
  unfold CreateSequenceDescriptions, Std.ifstream. rewrite Hfs, Hfs'.
  cbn [Std.to_bool Std.failbit negb].
  rewrite manifest_text_app. cbn [manifest_text].
  change {| Std.buf := manifest_text pre ++ last; Std.eofbit := false;
            Std.failbit := false |}
    with (fresh (manifest_text pre ++ last)).
  change {| Std.buf := manifest_text pre ++ last ++ String newline "";
            Std.eofbit := false; Std.failbit := false |}
    with (fresh (manifest_text pre ++ last ++ String newline "")).
  rewrite !read_rows_after_accepted by assumption.
  now rewrite read_rows_unterminated.
Qed.

(** X10.  What follows the digits of the class id on a line is not looked
    at: a map file whose rows carry such a tail (a carriage return, a
    comment, further tab-delimited fields) is read like the file without
    the tails. *)
Theorem text_after_the_classId_is_ignored
    (fs fs' : string -> option string) (this : ImageDataDeserializer)
    (rows : list ((string * string) * string)) :
  fs mapPath = Some (manifest_text (map tailed_row_text rows)) ->
  fs' mapPath = Some (manifest_text (map (fun r => row_text (fst r)) rows)) ->
  Forall (fun r => well_formed_row labelDimension (fst r)
                   && ignored_tail (snd r) = true) rows ->
  CreateSequenceDescriptions ndebug fs this mapPath labelDimension
  = CreateSequenceDescriptions ndebug fs' this mapPath labelDimension
  /\ is_Ok (CreateSequenceDescriptions ndebug fs this mapPath labelDimension)
     = true.
Proof.
  intros Hfs Hfs' Hrows.
  rewrite (CreateSequenceDescriptions_accepted ndebug fs mapPath labelDimension
             this (map tailed_row_text rows) Hfs).
  2: { apply Forall_map. eapply Forall_impl; [|exact Hrows].
       intros [r tail] Hr. apply andb_prop in Hr as [Hwf Htail].
       destruct (parse_row_tailed _ _ _ Hwf Htail) as (Hparse & Hnl).
       destruct (parse_row_well_formed _ _ Hwf) as (_ & _ & Hdim).
       unfold accepted_line, tailed_row_text. cbn [fst snd] in *.
       rewrite Hnl, Hparse. apply N.ltb_lt in Hdim. rewrite Hdim.
       now rewrite orb_true_r. }
  rewrite (CreateSequenceDescriptions_accepted ndebug fs' mapPath labelDimension
             this (map (fun r => row_text (fst r)) rows) Hfs').
  2: { apply Forall_map. eapply Forall_impl; [|exact Hrows].
       intros [r tail] Hr. apply andb_prop in Hr as [Hwf _].
       now apply well_formed_row_accepted. }
  split; [|reflexivity]. do 2 f_equal.
  apply descriptions_of_ext.
  clear Hfs Hfs'. induction Hrows as [|[r tail] rows Hr Hrows IH];
    cbn [map]; constructor; [|exact IH].
  apply andb_prop in Hr as [Hwf Htail].
  destruct (parse_row_tailed _ _ _ Hwf Htail) as (Htailed & _).
  destruct (parse_row_well_formed _ _ Hwf) as (Hclean & _).
  unfold tailed_row_text. cbn [fst snd] in *. now rewrite Htailed, Hclean.
Qed.

End LenientRows.

(** X11.  Without assertions a negative class id is stored as the [size_t]
    it converts to: a row with class id [-k], among accepted lines, gives
    the timeline entry with class id 2^64 - k. *)
Theorem negative_classId_wraps_without_assertions {cv : OpenCV}
    (fs : string -> option string) (mapPath : string) (labelDimension : N)
    (this : ImageDataDeserializer) (pre : list string) (p c : string)
    (post : list string) :
  fs mapPath = Some (manifest_text (pre ++ row_text (p, String "-" c) :: post)) ->
  Forall (fun l => accepted_line true labelDimension l = true) pre ->
  Forall (fun l => accepted_line true labelDimension l = true) post ->
  absent tab p = true -> absent newline p = true ->
  decimal c = true ->
  (0 < decimal_value c <= - Std.INT_MIN)%Z ->
  CreateSequenceDescriptions true fs this mapPath labelDimension
  = Ok (with_descriptions this
          (descriptions_of 1 true 0 pre
           ++ description_of_row
                (N.of_nat (List.length pre)) p
                (Z.to_N (Std.SIZE_MAX_plus_1 - decimal_value c))
           :: descriptions_of 1 true (N.of_nat (List.length pre) + 1) post)).
Proof.
  intros Hfs Hpre Hpost Hpt Hpn Hdec Hrange.
  assert (Hdigits : all_digits c = true).
  { unfold decimal in Hdec. now destruct c. }
  destruct (all_digits_absent _ Hdigits) as [Hct Hcn].
  assert (Hparse : parse_row (row_text (p, String "-" c))
                   = Some (p, Z.to_N (Std.SIZE_MAX_plus_1 - decimal_value c))).
  { unfold parse_row, row_text. cbn [fst snd].
    rewrite read_columns_two; try assumption; try discriminate.
    rewrite stoi_negative by (assumption || lia).
    unfold Std.size_t_of_int. do 3 f_equal.
    unfold Std.SIZE_MAX_plus_1, Std.INT_MIN in *. simpl in Hrange.
    rewrite <- (Z_mod_plus_full _ 1). rewrite Z.mod_small; lia. }
  assert (Hbad : accepted_line true labelDimension
                   (row_text (p, String "-" c)) = true).
  { unfold accepted_line. rewrite Hparse. cbn [orb]. rewrite andb_true_r.
    unfold row_text. cbn [fst snd]. rewrite absent_app, Hpn.
    cbn [absent]. now rewrite Hcn. }
  rewrite (CreateSequenceDescriptions_accepted true fs mapPath labelDimension
             this _ Hfs)
    by (apply Forall_app; split; [assumption | now constructor]).
  do 2 f_equal.
  rewrite (descriptions_of_app true labelDimension) by assumption.
  cbn [descriptions_of]. rewrite Hparse. rewrite N.add_0_l. reflexivity.
Qed.

Lemma last_row_needs_no_newline_witness :
  CreateSequenceDescriptions (cv:=ToyCV.cv) false
    (Examples.fs_text (manifest_text [row_text ("img0.png", "0")]
                       ++ row_text ("img1.png", "2")))
    Scenario.initial "map.txt" 3
  = CreateSequenceDescriptions (cv:=ToyCV.cv) false
      (Scenario.fs_of ([row_text ("img0.png", "0")] ++ [row_text ("img1.png", "2")]))
      Scenario.initial "map.txt" 3
  /\ CreateSequenceDescriptions (cv:=ToyCV.cv) false
       (Examples.fs_text (manifest_text [row_text ("img0.png", "0")]
                          ++ row_text ("img1.png", "2")))
       Scenario.initial "map.txt" 3
     = Ok (with_descriptions Scenario.initial
             (descriptions_of 1 true 0
                ([row_text ("img0.png", "0")] ++ [row_text ("img1.png", "2")]))).
Proof.
  apply (last_row_needs_no_newline (cv:=ToyCV.cv) false "map.txt" 3
           (Examples.fs_text (manifest_text [row_text ("img0.png", "0")]
                              ++ row_text ("img1.png", "2")))
           (Scenario.fs_of
              ([row_text ("img0.png", "0")] ++ [row_text ("img1.png", "2")]))
           Scenario.initial
           [row_text ("img0.png", "0")] (row_text ("img1.png", "2"))).
  - reflexivity.
  - reflexivity.
  - repeat constructor.
Defined.

Lemma text_after_the_classId_is_ignored_witness :
  CreateSequenceDescriptions (cv:=ToyCV.cv) false
    (Scenario.fs_of (map tailed_row_text Examples.tailed_rows))
    Scenario.initial "map.txt" 3
  = CreateSequenceDescriptions (cv:=ToyCV.cv) false
      (Scenario.fs_of (map (fun r => row_text (fst r)) Examples.tailed_rows))
      Scenario.initial "map.txt" 3
  /\ is_Ok (CreateSequenceDescriptions (cv:=ToyCV.cv) false
              (Scenario.fs_of (map tailed_row_text Examples.tailed_rows))
              Scenario.initial "map.txt" 3)
     = true.
Proof.
  apply (text_after_the_classId_is_ignored (cv:=ToyCV.cv) false "map.txt" 3
           (Scenario.fs_of (map tailed_row_text Examples.tailed_rows))
           (Scenario.fs_of (map (fun r => row_text (fst r)) Examples.tailed_rows))
           Scenario.initial Examples.tailed_rows).
  - reflexivity.
  - reflexivity.
  - repeat constructor.
Defined.

Lemma negative_classId_wraps_without_assertions_witness :
  CreateSequenceDescriptions (cv:=ToyCV.cv) true
    (Scenario.fs_of ([row_text ("img0.png", "0")]
                     ++ row_text ("img1.png", "-1") :: []))
    Scenario.initial "map.txt" 3
  = Ok (with_descriptions Scenario.initial
          (descriptions_of 1 true 0 [row_text ("img0.png", "0")]
           ++ description_of_row 1 "img1.png" 18446744073709551615
           :: descriptions_of 1 true 2 [])).
Proof.
  apply (negative_classId_wraps_without_assertions (cv:=ToyCV.cv)
           (Scenario.fs_of ([row_text ("img0.png", "0")]
                            ++ row_text ("img1.png", "-1") :: []))
           "map.txt" 3 Scenario.initial
           [row_text ("img0.png", "0")] "img1.png" "1" []).
  - reflexivity.
  - repeat constructor.
  - constructor.
  - reflexivity.
  - reflexivity.
  - reflexivity.
  - split; [reflexivity | now vm_compute].
Defined.

(** ** The timeline of any map file the constructor accepts *)

Section AnyMapFile.
Context {cv : OpenCV}.
Variables (ndebug : bool) (mapPath : string) (labelDimension : N).

Lemma read_row_fields (line : string) (cline : N)
    (description description' : ImageSequenceDescription)
    (this this' : ImageDataDeserializer) :
  read_row ndebug mapPath labelDimension line cline description this
  = Ok (description', this') ->
  id description' = cline
  /\ chunkId description' = cline
  /\ numberOfSamples description' = numberOfSamples description
  /\ isValid description' = isValid description.
Proof.
  unfold read_row.
  destruct (read_columns line) as [[imgPath clsId]|]; [|discriminate].
  destruct (Std.stoi clsId) as [n|]; [|discriminate].
  cbn [bind]. destruct (assert ndebug _); [|discriminate]. cbn [bind].
  intros [= <- _]. now repeat split.
Qed.

(** The entries the loop appends are numbered from the line counter on. *)
Lemma read_rows_ids (n : nat) :
  forall (mapFile : Std.istream) (line : string) (cline : N)
         (description : ImageSequenceDescription)
         (this this' : ImageDataDeserializer),
    (String.length (Std.buf mapFile) < n)%nat ->
    read_rows ndebug mapPath labelDimension mapFile line cline description this
    = Ok this' ->
    exists added,
      m_imageSequences this' = (m_imageSequences this ++ added)%list
      /\ forall k d,
          nth_error added k = Some d ->
          id d = cline + N.of_nat k
          /\ chunkId d = cline + N.of_nat k
          /\ numberOfSamples d = numberOfSamples description
          /\ isValid d = isValid description.
Proof.
  induction n as [|n IH]; intros mapFile line cline description this this' Hn;
    [lia|].
  rewrite read_rows_step.
  destruct (Std.getline mapFile line newline) as [mapFile' line'] eqn:Hg.
  destruct (Std.to_bool mapFile') eqn:Hb.
  - destruct (read_row ndebug mapPath labelDimension line' cline description this)
      as [[description1 this1]|] eqn:Hrow; [|discriminate].
    intros Hrun.
    pose proof (read_row_fields _ _ _ _ _ _ Hrow) as (Hid & Hchunk & Hs & Hv).
    apply read_row_Ok in Hrow as (Himg & _ & _).
    apply IH in Hrun as (added & Himg' & Hadded).
    2: { pose proof (getline_consumes _ _ _ _ _ Hg Hb). lia. }
    exists (description1 :: added). split.
    + rewrite Himg', Himg, <- app_assoc. reflexivity.
    + intros [|k] d Hk; simpl in Hk.
      * injection Hk as <-. rewrite N.add_0_r. now repeat split.
      * destruct (Hadded k d Hk) as (Hi & Hc & Hs' & Hv').
        repeat split; try congruence; lia.
  - intros [= <-]. exists []. split; [now rewrite app_nil_r|].
    intros [|k] d; discriminate.
Qed.

End AnyMapFile.

(** X12.  Whatever the map file holds, when the constructor returns, the
    timeline is dense: lookup succeeds exactly for the ids below its
    length, and entry [i] has [id = chunkId = i], one sample and
    [isValid = true]. *)
Theorem constructed_timeline_is_dense {cv : OpenCV}
    (ndebug : bool) (fs : string -> option string)
    (configHelper : ImageConfigHelper) (this : ImageDataDeserializer) :
  new_ImageDataDeserializer ndebug fs configHelper = Ok this ->
  forall i,
    (i < Std.size (GetSequenceDescriptions this) ->
     exists d, lookup this i = Some d
               /\ id d = i /\ chunkId d = i
               /\ numberOfSamples d = 1 /\ isValid d = true)
    /\ (Std.size (GetSequenceDescriptions this) <= i -> lookup this i = None).
Proof.
  intros Hnew.
  pose proof (new_ImageDataDeserializer_Ok _ _ _ _ Hnew) as (Hseq & _).
  assert (Hids : forall k d,
             nth_error (m_imageSequences this) k = Some d ->
             id d = N.of_nat k /\ chunkId d = N.of_nat k
             /\ numberOfSamples d = 1 /\ isValid d = true).
  { revert Hnew. unfold new_ImageDataDeserializer.
    destruct (assert ndebug _); [|discriminate]. cbn [bind].
    destruct (Std.at_ _ (GetLabelInputIndex configHelper)) as [label|];
      [|discriminate]. cbn [bind].
    destruct (Std.at_ _ (GetFeatureInputIndex configHelper)) as [feature|];
      [|discriminate]. cbn [bind].
    match goal with
    | |- bind ?G _ = _ -> _ => destruct G as [g|]; [|discriminate]
    end. cbn [bind].
    unfold CreateSequenceDescriptions.
    destruct (negb _); [discriminate|].
    destruct (read_rows _ _ _ _ _ _ _ _) as [this1|] eqn:Hrows; [|discriminate].
    cbn [bind]. rewrite push_back_sequences. intros [= <-].
    apply (read_rows_ids ndebug _ _ (S (String.length
             (Std.buf (Std.ifstream fs (GetMapPath configHelper))))))
      in Hrows as (added & Himg & Hadded); [|lia].
    simpl in Himg. cbn [m_imageSequences set_sequences]. rewrite Himg.
    intros k d Hk. destruct (Hadded k d Hk) as (? & ? & ? & ?).
    now repeat split. }
  intros i. unfold lookup, GetSequenceDescriptions, Std.size.
  rewrite Hseq, length_seq, nth_error_seq. split.
  - intros Hi.
    destruct (Nat.ltb_spec (N.to_nat i) (List.length (m_imageSequences this)));
      [|lia].
    cbn [Nat.add].
    destruct (nth_error (m_imageSequences this) (N.to_nat i)) as [d|] eqn:Hd.
    2: { apply nth_error_None in Hd. lia. }
    exists d. destruct (Hids _ _ Hd) as (Hid & Hc & Hs & Hv).
    rewrite N2Nat.id in Hid, Hc. now repeat split.
  - intros Hi.
    destruct (Nat.ltb_spec (N.to_nat i) (List.length (m_imageSequences this)));
      [lia | reflexivity].
Qed.

Lemma constructed_timeline_is_dense_witness :
  (1 < Std.size (GetSequenceDescriptions Scenario.deserializer) ->
   exists d, lookup Scenario.deserializer 1 = Some d
             /\ id d = 1 /\ chunkId d = 1
             /\ numberOfSamples d = 1 /\ isValid d = true)
  /\ (Std.size (GetSequenceDescriptions Scenario.deserializer) <= 1 ->
      lookup Scenario.deserializer 1 = None).
Proof.
  apply (constructed_timeline_is_dense (cv:=ToyCV.cv) false Scenario.fs
           (Scenario.config et_float) Scenario.deserializer).
  reflexivity.
Defined.

(** X13.  In a build with assertions, whatever the map file holds, a
    deserializer the constructor returns has every class id of its timeline
    below the label dimension, a label buffer of exactly the label
    dimension, and no retained image. *)
Theorem construction_with_assertions_bounds_classIds {cv : OpenCV}
    (fs : string -> option string) (configHelper : ImageConfigHelper)
    (this : ImageDataDeserializer) :
  new_ImageDataDeserializer false fs configHelper = Ok this ->
  (forall i d, lookup this i = Some d -> classId d < labelDimension_of this)
  /\ dimension (m_labelGenerator this) = labelDimension_of this
  /\ m_currentImages this = [].
Proof.
  intros Hnew.
  apply new_ImageDataDeserializer_Ok in Hnew as (Hs & Hd & Hc & Hcls).
  split; [|now split].
  intros i d. unfold lookup, GetSequenceDescriptions.
  destruct (nth_error (m_sequences this) (N.to_nat i)) as [p|]; [|discriminate].
  intros Hp. specialize (Hcls eq_refl). rewrite Forall_forall in Hcls.
  apply Hcls. eapply nth_error_In; eassumption.
Qed.

Lemma construction_with_assertions_bounds_classIds_witness :
  (forall i d, lookup Scenario.deserializer i = Some d ->
               classId d < labelDimension_of Scenario.deserializer)
  /\ dimension (m_labelGenerator Scenario.deserializer)
     = labelDimension_of Scenario.deserializer
  /\ m_currentImages Scenario.deserializer = [].
Proof.
  apply (construction_with_assertions_bounds_classIds (cv:=ToyCV.cv)
           Scenario.fs (Scenario.config et_float) Scenario.deserializer).
  reflexivity.
Defined.

(** * SimpleEvaluator *)

(** ** The nodes to evaluate *)

Section EvalNodes.
Context {net : ComputationNetwork}.
Variable InvalidArgument_exception : string -> Error.

Lemma logged_insert (criteriaLogged evalNodes : list Node) (node : Node) :
  logged criteriaLogged evalNodes ->
  match set_insert criteriaLogged node with
  | (criteriaLogged', true) =>
      ~ In node evalNodes
      /\ logged criteriaLogged' (Std.push_back evalNodes node)
  | (criteriaLogged', false) =>
      In node evalNodes /\ criteriaLogged' = criteriaLogged
  end.
Proof.
  intros (Hsame & Hnodup). unfold set_insert.
  destruct (in_dec Node_eq_dec node criteriaLogged) as [Hin|Hnot].
  - split; [now apply Hsame | reflexivity].
  - assert (Hnew : ~ In node evalNodes) by (intros Hin; now apply Hnot, Hsame).
    split; [exact Hnew|]. unfold Std.push_back. split.
    + intros n. rewrite in_app_iff. simpl. rewrite <- Hsame. tauto.
    + apply NoDup_app; [assumption | repeat constructor; intros [] |].
      intros n Hn [<-|[]]. contradiction.
Qed.

Lemma log_nodes_logged (nodes : list Node) :
  forall criteriaLogged evalNodes,
    logged criteriaLogged evalNodes ->
    let (criteriaLogged', evalNodes') :=
      log_nodes nodes criteriaLogged evalNodes in
    logged criteriaLogged' evalNodes'
    /\ (forall n, In n evalNodes' <-> In n evalNodes \/ In n nodes)
    /\ exists added, evalNodes' = (evalNodes ++ added)%list.
Proof.
  induction nodes as [|node nodes IH]; intros criteriaLogged evalNodes Hlog;
    cbn [log_nodes].
  - split; [assumption|]. split; [simpl; tauto|].
    exists []. now rewrite app_nil_r.
  - pose proof (logged_insert _ _ node Hlog) as Hins.
    destruct (set_insert criteriaLogged node) as [criteriaLogged1 [|]].
    + destruct Hins as (Hnew & Hlog1).
      specialize (IH criteriaLogged1 (Std.push_back evalNodes node) Hlog1).
      destruct (log_nodes nodes criteriaLogged1 (Std.push_back evalNodes node))
        as [criteriaLogged' evalNodes'].
      destruct IH as (Hlog' & Hin & added & ->).
      split; [assumption|]. split.
      * intros n. rewrite Hin. unfold Std.push_back.
        rewrite in_app_iff. simpl. tauto.
      * exists (node :: added). unfold Std.push_back.
        now rewrite <- app_assoc.
    + destruct Hins as (Hold & ->).
      specialize (IH criteriaLogged evalNodes Hlog).
      destruct (log_nodes nodes criteriaLogged evalNodes)
        as [criteriaLogged' evalNodes'].
      destruct IH as (Hlog' & Hin & Hadded).
      split; [assumption|]. split; [|assumption].
      intros n. rewrite Hin. simpl. split; [tauto|].
      intros [H|[<-|H]]; tauto.
Qed.

Lemma log_default_nodes (E F : list Node) :
  exists nodes evalNodes criteria,
    (let (criteriaLogged, evalNodes) := log_nodes E [] [] in
     let (criteriaLogged, evalNodes) := log_nodes F criteriaLogged evalNodes in
     Ok evalNodes) = Ok nodes
    /\ NoDup nodes
    /\ (forall n, In n nodes <-> In n E \/ In n F)
    /\ nodes = (evalNodes ++ criteria)%list
    /\ forall n, In n evalNodes <-> In n E.
Proof.
  assert (Hempty : logged [] []) by (split; [tauto | constructor]).
  pose proof (log_nodes_logged E [] [] Hempty) as H1.
  destruct (log_nodes E [] []) as [logged1 nodes1].
  destruct H1 as (Hlog1 & Hin1 & _).
  pose proof (log_nodes_logged F logged1 nodes1 Hlog1) as H2.
  destruct (log_nodes F logged1 nodes1) as [logged2 nodes2].
  destruct H2 as ((_ & Hnodup) & Hin2 & added & ->).
  exists (nodes1 ++ added)%list, nodes1, added.
  split; [reflexivity|]. split; [assumption|].
  split; [intros n; rewrite Hin2, Hin1; simpl; tauto|].
  split; [reflexivity|].
  intros n. rewrite Hin1. simpl. tauto.
Qed.

(** X14.  Without names, [Evaluate] takes the default nodes of the network:
    it throws exactly when the network has neither an evaluation node nor a
    criterion node; otherwise it evaluates each default node once, the
    evaluation nodes first, whatever their dimensions. *)
Theorem default_evalNodes :
  match determine_evalNodes InvalidArgument_exception [] with
  | Err e =>
      EvaluationNodes = [] /\ FinalCriterionNodes = []
      /\ e = InvalidArgument_exception
               "There is no default evaluation node or training criterion specified in the network."
  | Ok nodes =>
      (EvaluationNodes <> [] \/ FinalCriterionNodes <> [])
      /\ NoDup nodes
      /\ (forall n, In n nodes
                    <-> In n EvaluationNodes \/ In n FinalCriterionNodes)
      /\ exists evalNodes criteria,
          nodes = (evalNodes ++ criteria)%list
          /\ forall n, In n evalNodes <-> In n EvaluationNodes
  end.
Proof.
  unfold determine_evalNodes. cbn [Std.size List.length N.of_nat N.eqb].
  destruct (log_default_nodes EvaluationNodes FinalCriterionNodes)
    as (nodes & evalNodes & criteria & Hrun & Hnodup & Hin & Happ & Hev).
  destruct EvaluationNodes as [|e0 E] eqn:HE, FinalCriterionNodes as [|f0 F] eqn:HF;
    cbn [andb bind]; [now repeat split| | |].
  all: rewrite Hrun.
  all: split; [(right; discriminate) || (left; discriminate)|].
  all: split; [assumption|]; split; [assumption|].
  all: now exists evalNodes, criteria.
Qed.

(** The loop over the names: what it keeps. *)
Lemma named_nodes_Ok (names : list string) :
  forall criteriaLogged evalNodes result_,
    logged criteriaLogged evalNodes ->
    Forall (fun n => GetNumElements n = 1) evalNodes ->
    named_nodes InvalidArgument_exception names criteriaLogged evalNodes
    = Ok result_ ->
    NoDup result_
    /\ Forall (fun n => GetNumElements n = 1) result_
    /\ (forall n, In n result_ <->
                  In n evalNodes
                  \/ exists name, In name names /\ GetNodeFromName name = Ok n).
Proof.
  induction names as [|name names IH];
    intros criteriaLogged evalNodes result_ Hlog Hdim; cbn [named_nodes].
  - intros [= <-]. split; [apply Hlog|]. split; [assumption|].
    intros n. split; [tauto|]. intros [H|(name & [] & _)]. exact H.
  - destruct (GetNodeFromName name) as [node|] eqn:Hname; [|discriminate].
    cbn [bind].
    pose proof (logged_insert _ _ node Hlog) as Hins.
    destruct (set_insert criteriaLogged node) as [criteriaLogged1 [|]];
      cbn [negb].
    + destruct Hins as (Hnew & Hlog1).
      destruct (N.eqb_spec (GetNumElements node) 1) as [Hone|]; [|discriminate].
      cbn [negb]. intros Hrun.
      apply IH in Hrun as (Hnodup & Hall & Hin); [|assumption|].
      2: { unfold Std.push_back. apply Forall_app. split; [assumption|].
           now repeat constructor. }
      split; [assumption|]. split; [assumption|].
      intros n. rewrite Hin. unfold Std.push_back. rewrite in_app_iff. simpl.
      split.
      * intros [[H|[<-|[]]]|(name' & Hn' & Hres)]; eauto 6.
      * intros [H|(name' & [<-|Hn'] & Hres)]; eauto 6.
        left. right. left. congruence.
    + destruct Hins as (Hold & ->). intros Hrun.
      apply IH in Hrun as (Hnodup & Hall & Hin); [|assumption|assumption].
      split; [assumption|]. split; [assumption|].
      intros n. rewrite Hin. split.
      * intros [H|(name' & Hn' & Hres)]; simpl; eauto 6.
      * intros [H|(name' & [<-|Hn'] & Hres)]; eauto 6.
        left. congruence.
Qed.

(** X15.  With names, when [Evaluate] gets past the choice of the nodes, it
    evaluates exactly the nodes the names stand for, each once however
    often it is named, and every one of them has a single element. *)
Theorem named_evalNodes (evalNodeNames : list string) (evalNodes : list Node) :
  evalNodeNames <> [] ->
  determine_evalNodes InvalidArgument_exception evalNodeNames = Ok evalNodes ->
  NoDup evalNodes
  /\ Forall (fun n => GetNumElements n = 1) evalNodes
  /\ (forall n, In n evalNodes <->
                exists name, In name evalNodeNames
                             /\ GetNodeFromName name = Ok n).
Proof.
  intros Hne. unfold determine_evalNodes.
  destruct evalNodeNames as [|name names]; [contradiction|].
  replace (Std.size (name :: names) =? 0) with false
    by (symmetry; apply N.eqb_neq; unfold Std.size; simpl List.length; lia).
  intros Hrun.
  apply named_nodes_Ok in Hrun as (Hnodup & Hall & Hin);
    [| split; [tauto | constructor] | constructor].
  split; [assumption|]. split; [assumption|].
  intros n. rewrite Hin. simpl. tauto.
Qed.

Lemma named_nodes_dimension (names : list string) :
  forall criteriaLogged evalNodes,
    logged criteriaLogged evalNodes ->
    Forall (fun n => GetNumElements n = 1) evalNodes ->
    Forall (fun name => exists n, GetNodeFromName name = Ok n) names ->
    Exists (fun name => exists n, GetNodeFromName name = Ok n
                                  /\ GetNumElements n <> 1) names ->
    named_nodes InvalidArgument_exception names criteriaLogged evalNodes
    = Err (InvalidArgument_exception
             "Criterion nodes to evaluate must have dimension 1x1.").
Proof.
  induction names as [|name names IH];
    intros criteriaLogged evalNodes Hlog Hdim Hknown Hbad;
    [inversion Hbad|].
  cbn [named_nodes].
  inversion Hknown as [|? ? (node & Hname) Hknown']; subst.
  rewrite Hname. cbn [bind].
  pose proof (logged_insert _ _ node Hlog) as Hins.
  destruct (set_insert criteriaLogged node) as [criteriaLogged1 [|]];
    cbn [negb].
  - destruct Hins as (Hnew & Hlog1).
    destruct (N.eqb_spec (GetNumElements node) 1) as [Hone|]; [|reflexivity].
    cbn [negb]. apply IH; try assumption.
    + unfold Std.push_back. apply Forall_app. split; [assumption|].
      now repeat constructor.
    + inversion Hbad as [? ? (n & Hn & Hnot)|]; subst; [|assumption].
      congruence.
  - destruct Hins as (Hold & ->). apply IH; try assumption.
    inversion Hbad as [? ? (n & Hn & Hnot)|]; subst; [|assumption].
    rewrite Forall_forall in Hdim.
    assert (n = node) by congruence. subst n.
    specialize (Hdim node Hold). contradiction.
Qed.

(** X16.  With names that all stand for nodes, one node that does not have
    a single element is enough for [Evaluate] to throw, wherever its name
    stands in the list. *)
Theorem named_evalNodes_need_one_element (evalNodeNames : list string) :
  Forall (fun name => exists n, GetNodeFromName name = Ok n) evalNodeNames ->
  Exists (fun name => exists n, GetNodeFromName name = Ok n
                                /\ GetNumElements n <> 1) evalNodeNames ->
  determine_evalNodes InvalidArgument_exception evalNodeNames
  = Err (InvalidArgument_exception
           "Criterion nodes to evaluate must have dimension 1x1.").
Proof.
  intros Hknown Hbad. unfold determine_evalNodes.
  destruct evalNodeNames as [|name names]; [inversion Hbad|].
  replace (Std.size (name :: names) =? 0) with false
    by (symmetry; apply N.eqb_neq; unfold Std.size; simpl List.length; lia).
  apply named_nodes_dimension; try assumption.
  - split; [tauto | constructor].
  - constructor.
Qed.

End EvalNodes.

Lemma named_evalNodes_witness :
  NoDup [1; 3]
  /\ Forall (fun n => GetNumElements (ComputationNetwork:=ToyNet.net) n = 1) [1; 3]
  /\ (forall n, In n [1; 3] <->
                exists name, In name ["err"; "ce"; "err"]
                             /\ GetNodeFromName (ComputationNetwork:=ToyNet.net) name
                                = Ok n).
Proof.
  apply (named_evalNodes (net:=ToyNet.net) invalid_argument
           ["err"; "ce"; "err"] [1; 3]).
  - discriminate.
  - reflexivity.
Defined.

Lemma named_evalNodes_need_one_element_witness :
  determine_evalNodes (net:=ToyNet.net) invalid_argument ["err"; "out"; "ce"]
  = Err (invalid_argument "Criterion nodes to evaluate must have dimension 1x1.").
Proof.
  apply (named_evalNodes_need_one_element (net:=ToyNet.net) invalid_argument
           ["err"; "out"; "ce"]).
  - repeat constructor; eexists; reflexivity.
  - right. left. exists 7. split; [reflexivity | discriminate].
Defined.

(** ** The minibatch loop *)

Lemma at_in_bounds {A} (v : list A) (i : nat) :
  (i < List.length v)%nat -> exists a, Std.at_ v (N.of_nat i) = Ok a.
Proof.
  intros Hi. unfold Std.at_. rewrite Nat2N.id.
  destruct (nth_error v i) as [a|] eqn:Ha; [now exists a|].
  apply nth_error_None in Ha. lia.
Qed.

Lemma std_assign_length {A} (v : list A) (i : nat) (a : A) :
  List.length (Std.assign v i a) = List.length v.
Proof.
  revert i; induction v as [|x v IH]; intros [|i]; simpl; auto.
Qed.

Lemma seq_in_bounds (n : nat) : Forall (fun i => (i < n)%nat) (seq 0 n).
Proof. apply Forall_forall. intros i Hi. apply in_seq in Hi. lia. Qed.

Lemma minibatch_lines_app (a b : list Printed) :
  minibatch_lines (a ++ b) = (minibatch_lines a ++ minibatch_lines b)%list.
Proof.
  induction a as [|x a IH]; [reflexivity|].
  destruct x; cbn [app minibatch_lines]; now rewrite IH.
Qed.

Section EvaluateFacts.
Context {net : ComputationNetwork}.
Variable InvalidArgument_exception : string -> Error.
Variable perplexity_operations : string * string * string * string.
Variable exp : double -> double.
Variable GetTracingFlag : bool.
Variable m_numMBsToShowResult : N.
Variable m_traceLevel : Z.

Lemma accumulate_sized (mb : Minibatch) (evalNodes : list Node) (is_ : list nat) :
  forall results,
    Forall (fun i => (i < List.length evalNodes)%nat) is_ ->
    List.length results = List.length evalNodes ->
    exists results',
      accumulate is_ mb evalNodes results = Ok results'
      /\ List.length results' = List.length evalNodes.
Proof.
  induction is_ as [|i is_ IH]; intros results Hall Hlen; cbn [accumulate].
  - now exists results.
  - inversion Hall as [|? ? Hi Hall']; subst.
    destruct (at_in_bounds evalNodes i Hi) as (node & ->).
    destruct (at_in_bounds results i) as (r & ->); [lia|].
    cbn [bind]. apply IH; [assumption|].
    now rewrite std_assign_length.
Qed.

Lemma copy_results_sized (results : list double) (is_ : list nat) :
  forall resultsLastMBs,
    Forall (fun i => (i < List.length results)%nat) is_ ->
    List.length resultsLastMBs = List.length results ->
    exists resultsLastMBs',
      copy_results is_ results resultsLastMBs = Ok resultsLastMBs'
      /\ List.length resultsLastMBs' = List.length results.
Proof.
  induction is_ as [|i is_ IH]; intros last Hall Hlen; cbn [copy_results].
  - now exists last.
  - inversion Hall as [|? ? Hi Hall']; subst.
    destruct (at_in_bounds results i Hi) as (r & ->).
    destruct (at_in_bounds last i) as (l & ->); [lia|].
    cbn [bind]. apply IH; [assumption|].
    now rewrite std_assign_length.
Qed.

Lemma divide_results_sized (total : N) (is_ : list nat) :
  forall results,
    Forall (fun i => (i < List.length results)%nat) is_ ->
    exists results',
      divide_results is_ total results = Ok results'
      /\ List.length results' = List.length results.
Proof.
  induction is_ as [|i is_ IH]; intros results Hall; cbn [divide_results].
  - now exists results.
  - inversion Hall as [|? ? Hi Hall']; subst.
    destruct (at_in_bounds results i Hi) as (r & ->). cbn [bind].
    destruct (IH (Std.assign results i
                    (double_div r (double_of_size_t total))))
      as (results' & Hrun & Hlen).
    + now rewrite std_assign_length.
    + exists results'. split; [assumption|].
      now rewrite Hlen, std_assign_length.
Qed.

Lemma clear_results_length (resultsLastMBs : list double) :
  List.length (clear_results resultsLastMBs) = List.length resultsLastMBs.
Proof.
  unfold clear_results.
  generalize (seq 0 (List.length resultsLastMBs)) as is_.
  intros is_. revert resultsLastMBs.
  induction is_ as [|i is_ IH]; intros v; [reflexivity|].
  cbn [fold_left]. now rewrite IH, std_assign_length.
Qed.

Lemma display_nodes_Ok (samples : N) (evalNodes : list Node)
    (results resultsLastMBs : list double) (converted : bool) (is_ : list nat) :
  Forall (fun i => (i < List.length evalNodes)%nat) is_ ->
  List.length results = List.length evalNodes ->
  List.length resultsLastMBs = List.length evalNodes ->
  exists lines,
    display_nodes perplexity_operations exp is_ samples evalNodes results
                  resultsLastMBs converted = Ok lines
    /\ minibatch_lines lines = [].
Proof.
  intros Hall Hr Hl. induction Hall as [|i is_ Hi Hall IH]; cbn [display_nodes].
  - now exists [].
  - destruct (at_in_bounds results i) as (r & ->); [lia|].
    destruct (at_in_bounds resultsLastMBs i) as (l & ->); [lia|].
    destruct (at_in_bounds evalNodes i Hi) as (node & ->).
    cbn [bind]. destruct IH as (lines & -> & Hlines). cbn [bind].
    eexists. split; [reflexivity|].
    cbn [minibatch_lines]. rewrite minibatch_lines_app, Hlines.
    now destruct (converted && _).
Qed.

Lemma DisplayEvalStatistics_Ok (startMBNum endMBNum samples : N)
    (evalNodes : list Node) (results resultsLastMBs : list double)
    (converted : bool) :
  List.length results = List.length evalNodes ->
  List.length resultsLastMBs = List.length evalNodes ->
  exists lines,
    DisplayEvalStatistics perplexity_operations exp startMBNum endMBNum samples
      evalNodes results resultsLastMBs converted = Ok lines
    /\ minibatch_lines lines = [(startMBNum, endMBNum, samples)].
Proof.
  intros Hr Hl. unfold DisplayEvalStatistics.
  destruct (display_nodes_Ok samples evalNodes results resultsLastMBs converted
              (seq 0 (List.length results)))
    as (lines & -> & Hlines); try assumption.
  { rewrite Hr. apply seq_in_bounds. }
  cbn [bind]. eexists. split; [reflexivity|].
  cbn [minibatch_lines]. now rewrite minibatch_lines_app, Hlines.
Qed.

(** One turn of the loop, when the display interval can be used. *)
Lemma minibatch_body_spec (evalNodes : list Node) (st : EvaluateState)
    (mb : Minibatch) :
  sized evalNodes st ->
  (m_traceLevel <= 0)%Z \/ m_numMBsToShowResult <> 0 ->
  exists st',
    minibatch_body perplexity_operations exp GetTracingFlag
                   m_numMBsToShowResult m_traceLevel evalNodes st mb = Ok st'
    /\ sized evalNodes st'
    /\ totalEpochSamples st'
       = size_t_add (totalEpochSamples st) (numSamplesWithLabel mb)
    /\ numMBsRun st' = size_t_add (numMBsRun st) 1
    /\ if (0 <? m_traceLevel)%Z
       then
         if numMBsRun st' mod m_numMBsToShowResult =? 0
         then numSamplesLastMBs st' = 0
              /\ lastMBsRun st' = numMBsRun st'
              /\ minibatch_lines (printed st')
                 = (minibatch_lines (printed st)
                    ++ [(size_t_add (lastMBsRun st) 1, numMBsRun st',
                         size_t_add (numSamplesLastMBs st)
                                    (numSamplesWithLabel mb))])%list
         else numSamplesLastMBs st'
              = size_t_add (numSamplesLastMBs st) (numSamplesWithLabel mb)
              /\ lastMBsRun st' = lastMBsRun st
              /\ minibatch_lines (printed st') = minibatch_lines (printed st)
       else numSamplesLastMBs st' = numSamplesLastMBs st
            /\ lastMBsRun st' = lastMBsRun st
            /\ minibatch_lines (printed st') = minibatch_lines (printed st).
Proof.
  intros (Hr & Hl) Hshow. unfold minibatch_body.
  destruct (accumulate_sized mb evalNodes (seq 0 (List.length evalNodes))
              (evalResults st) (seq_in_bounds _) Hr)
    as (results & -> & Hresults).
  cbn [bind].
  assert (Hprogress : forall st1,
             exists st',
               (if GetTracingFlag
                then
                  if numIterationsBeforePrintingProgress
                     <=? size_t_add (numItersSinceLastPrintOfProgress st1) 1
                  then Ok (with_progress st1 0 (printed st1 ++ [stdout_progress]))
                  else Ok (with_progress st1
                             (size_t_add (numItersSinceLastPrintOfProgress st1) 1)
                             (printed st1))
                else Ok st1) = Ok st'
               /\ evalResults st' = evalResults st1
               /\ evalResultsLastMBs st' = evalResultsLastMBs st1
               /\ totalEpochSamples st' = totalEpochSamples st1
               /\ numMBsRun st' = numMBsRun st1
               /\ numSamplesLastMBs st' = numSamplesLastMBs st1
               /\ lastMBsRun st' = lastMBsRun st1
               /\ minibatch_lines (printed st') = minibatch_lines (printed st1)).
  { intros st1. destruct GetTracingFlag; [|exists st1; now repeat split].
    destruct (_ <=? _); eexists; (split; [reflexivity|]);
      cbn [with_progress evalResults evalResultsLastMBs totalEpochSamples
           numMBsRun numSamplesLastMBs lastMBsRun printed];
      repeat split.
    rewrite minibatch_lines_app. cbn [minibatch_lines]. apply app_nil_r. }
  destruct (0 <? m_traceLevel)%Z eqn:Htrace.
  - assert (Hk : m_numMBsToShowResult <> 0).
    { destruct Hshow as [Hle|]; [|assumption]. apply Z.ltb_lt in Htrace. lia. }
    apply N.eqb_neq in Hk. rewrite Hk.
    destruct (size_t_add (numMBsRun st) 1 mod m_numMBsToShowResult =? 0) eqn:Hmod.
    + destruct (DisplayEvalStatistics_Ok (size_t_add (lastMBsRun st) 1)
                  (size_t_add (numMBsRun st) 1)
                  (size_t_add (numSamplesLastMBs st) (numSamplesWithLabel mb))
                  evalNodes results (evalResultsLastMBs st) false Hresults Hl)
        as (lines & -> & Hlines).
      cbn [bind].
      destruct (copy_results_sized results (seq 0 (List.length results))
                  (evalResultsLastMBs st) (seq_in_bounds _))
        as (last & -> & Hlast); [lia|].
      cbn [bind].
      cbn [bind].
      match goal with
      | |- exists _, (if GetTracingFlag then _ else Ok ?s) = _ /\ _ =>
          destruct (Hprogress s)
            as (st' & Hst' & He & Hel & Ht & Hn & Hs & Hlm & Hp)
      end.
      exists st'. split; [exact Hst'|].
      cbn [evalResults evalResultsLastMBs totalEpochSamples numMBsRun
           numSamplesLastMBs lastMBsRun printed] in *.
      split; [unfold sized; rewrite He, Hel; split; congruence|]. split; [assumption|]. split; [assumption|].
      rewrite Hn, Hmod, Hs, Hlm, Hp, minibatch_lines_app, Hlines.
      now repeat split.
    + cbn [bind].
      match goal with
      | |- exists _, (if GetTracingFlag then _ else Ok ?s) = _ /\ _ =>
          destruct (Hprogress s)
            as (st' & Hst' & He & Hel & Ht & Hn & Hs & Hlm & Hp)
      end.
      exists st'. split; [exact Hst'|].
      cbn [evalResults evalResultsLastMBs totalEpochSamples numMBsRun
           numSamplesLastMBs lastMBsRun printed] in *.
      split; [unfold sized; rewrite He, Hel; split; congruence|]. split; [assumption|]. split; [assumption|].
      rewrite Hn, Hmod. now repeat split.
  - cbn [bind].
    match goal with
    | |- exists _, (if GetTracingFlag then _ else Ok ?s) = _ /\ _ =>
        destruct (Hprogress s)
          as (st' & Hst' & He & Hel & Ht & Hn & Hs & Hlm & Hp)
    end.
    exists st'. split; [exact Hst'|].
    cbn [evalResults evalResultsLastMBs totalEpochSamples numMBsRun
         numSamplesLastMBs lastMBsRun printed] in *.
    split; [unfold sized; rewrite He, Hel; split; congruence|]. now repeat split.
Qed.

End EvaluateFacts.

Lemma divide_results_map (total : N) (done todo : list double) :
  divide_results (seq (List.length done) (List.length todo)) total (done ++ todo)
  = Ok (done ++ map (fun r => double_div r (double_of_size_t total)) todo)%list.
Proof.
  revert done; induction todo as [|r todo IH]; intros done;
    cbn [List.length seq divide_results map]; [reflexivity|].
  unfold Std.at_. rewrite Nat2N.id, nth_error_app2, Nat.sub_diag by lia.
  cbn [nth_error bind].
  replace (Std.assign (done ++ r :: todo) (List.length done)
             (double_div r (double_of_size_t total)))
    with ((done ++ [double_div r (double_of_size_t total)]) ++ todo)%list.
  - replace (S (List.length done))
      with (List.length (done ++ [double_div r (double_of_size_t total)]))
      by (rewrite length_app; simpl; lia).
    rewrite IH, <- app_assoc. reflexivity.
  - rewrite <- app_assoc. cbn [app].
    clear. induction done as [|d done IH]; [reflexivity|].
    cbn [app List.length Std.assign]. now rewrite IH.
Qed.

Section EvaluateProperties.
Context {net : ComputationNetwork}.
Variable InvalidArgument_exception : string -> Error.
Variable perplexity_operations : string * string * string * string.
Variable exp : double -> double.
Variable GetTracingFlag : bool.
Variable m_numMBsToShowResult : N.
Variable m_traceLevel : Z.

(** The loop, when the display interval can be used: the counters count. *)
Lemma minibatch_loop_spec (evalNodes : list Node) (minibatches : list Minibatch) :
  forall st total run,
    sized evalNodes st ->
    (m_traceLevel <= 0)%Z \/ m_numMBsToShowResult <> 0 ->
    totalEpochSamples st = total mod 18446744073709551616 ->
    numMBsRun st = run mod 18446744073709551616 ->
    exists st',
      minibatch_loop perplexity_operations exp GetTracingFlag
                     m_numMBsToShowResult m_traceLevel evalNodes st minibatches
      = Ok st'
      /\ sized evalNodes st'
      /\ totalEpochSamples st'
         = (total + sum_samples minibatches) mod 18446744073709551616
      /\ numMBsRun st'
         = (run + N.of_nat (List.length minibatches)) mod 18446744073709551616
      /\ (exists lines,
             minibatch_lines (printed st')
             = (minibatch_lines (printed st) ++ lines)%list)
      /\ ((m_traceLevel <= 0)%Z ->
          numSamplesLastMBs st' = numSamplesLastMBs st
          /\ minibatch_lines (printed st') = minibatch_lines (printed st)).
Proof.
  induction minibatches as [|mb mbs IH]; intros st total run Hsized Hshow Ht Hn;
    cbn [minibatch_loop].
  - exists st. split; [reflexivity|]. split; [assumption|].
    cbn [sum_samples fold_right List.length N.of_nat].
    rewrite !N.add_0_r. split; [assumption|]. split; [assumption|].
    split; [exists []; now rewrite app_nil_r | now split].
  - destruct (minibatch_body_spec perplexity_operations exp GetTracingFlag
                m_numMBsToShowResult m_traceLevel evalNodes st mb Hsized Hshow)
      as (st1 & -> & Hsized1 & Ht1 & Hn1 & Hcase).
    cbn [bind].
    destruct (IH st1 (total + numSamplesWithLabel mb) (run + 1) Hsized1 Hshow)
      as (st' & Hloop & Hsized' & Ht' & Hn' & (lines & Hlines) & Hoff).
    { rewrite Ht1, Ht. unfold size_t_add.
      now rewrite N.Div0.add_mod_idemp_l. }
    { rewrite Hn1, Hn. unfold size_t_add.
      now rewrite N.Div0.add_mod_idemp_l. }
    exists st'. split; [assumption|]. split; [assumption|].
    split; [|split; [|split]].
    + rewrite Ht'. cbn [sum_samples fold_right]. f_equal.
      fold (sum_samples mbs). lia.
    + rewrite Hn'. f_equal. simpl List.length. lia.
    + destruct (0 <? m_traceLevel)%Z;
        [destruct (numMBsRun st1 mod m_numMBsToShowResult =? 0)|];
        destruct Hcase as (_ & _ & Hp); rewrite Hlines, Hp.
      * eexists. now rewrite <- app_assoc.
      * now exists lines.
      * now exists lines.
    + intros Hle. destruct (Hoff Hle) as (Hs' & Hp').
      destruct (Z.ltb_spec 0 m_traceLevel); [lia|].
      destruct Hcase as (Hs1 & _ & Hp1). split; congruence.
Qed.

End EvaluateProperties.

(** ** [Evaluate] *)

Section EvaluateTheorems.
Context {net : ComputationNetwork}.
Variable InvalidArgument_exception : string -> Error.
Variable perplexity_operations : string * string * string * string.
Variable exp : double -> double.
Variable GetTracingFlag : bool.
Variable m_numMBsToShowResult : N.
Variable m_traceLevel : Z.

(** X17.  Once the nodes are chosen, and unless statistics are to be shown
    every zero minibatches, [Evaluate] returns for any run of minibatches,
    with one value per node.  The last statistics line it prints is the
    final one: it covers the minibatches from 1 to their number and counts
    all their labelled samples (both modulo 2^64); with a trace level of
    zero or less it is the only statistics line. *)
Theorem Evaluate_returns (minibatches : list Minibatch)
    (evalNodeNames : list string) (evalNodes : list Node) :
  determine_evalNodes InvalidArgument_exception evalNodeNames = Ok evalNodes ->
  (m_traceLevel <= 0)%Z \/ m_numMBsToShowResult <> 0 ->
  exists results out earlier,
    Evaluate InvalidArgument_exception perplexity_operations exp GetTracingFlag
             m_numMBsToShowResult m_traceLevel minibatches evalNodeNames
    = Ok (results, out)
    /\ List.length results = List.length evalNodes
    /\ minibatch_lines out
       = (earlier
          ++ [(1,
               N.of_nat (List.length minibatches) mod 18446744073709551616,
               sum_samples minibatches mod 18446744073709551616)])%list
    /\ ((m_traceLevel <= 0)%Z -> earlier = []).
Proof.
  intros Hnodes Hshow. unfold Evaluate. rewrite Hnodes. cbn [bind].
  set (out0 := if Std.size evalNodeNames =? 0 then [stderr_default_nodes] else []).
  assert (Hout0 : minibatch_lines out0 = []).
  { unfold out0. now destruct (_ =? _). }
  match goal with
  | |- context [minibatch_loop _ _ _ _ _ _ ?st0 _] =>
      destruct (minibatch_loop_spec perplexity_operations exp GetTracingFlag
                  m_numMBsToShowResult m_traceLevel evalNodes minibatches
                  st0 0 0)
        as (st & -> & (Hr & Hl) & Ht & Hn & (lines & Hlines) & Hoff)
  end; try reflexivity; try assumption.
  { split; cbn [evalResults evalResultsLastMBs]; now rewrite ?length_map. }
  cbn [bind printed] in *. rewrite Hout0 in Hlines. cbn [app] in Hlines.
  rewrite !N.add_0_l in *.
  assert (Hlast : exists last lastlines,
             (if (0 <? m_traceLevel)%Z && (0 <? numSamplesLastMBs st)
              then DisplayEvalStatistics perplexity_operations exp
                     (size_t_add (lastMBsRun st) 1) (numMBsRun st)
                     (numSamplesLastMBs st) evalNodes (evalResults st)
                     (evalResultsLastMBs st) false
              else Ok []) = Ok last
             /\ minibatch_lines last = lastlines
             /\ ((m_traceLevel <= 0)%Z -> lastlines = [])).
  { destruct (Z.ltb_spec 0 m_traceLevel) as [Hon|Hoff'];
      cbn [andb]; [destruct (0 <? numSamplesLastMBs st)|].
    - destruct (DisplayEvalStatistics_Ok perplexity_operations exp
                  (size_t_add (lastMBsRun st) 1) (numMBsRun st)
                  (numSamplesLastMBs st) evalNodes (evalResults st)
                  (evalResultsLastMBs st) false Hr Hl) as (last & -> & Hlast).
      exists last. eexists. split; [reflexivity|]. split; [exact Hlast|]. lia.
    - exists [], []. now repeat split.
    - exists [], []. now repeat split. }
  destruct Hlast as (last & lastlines & -> & Hlastlines & Hlastoff).
  cbn [bind].
  destruct (DisplayEvalStatistics_Ok perplexity_operations exp 1 (numMBsRun st)
              (totalEpochSamples st) evalNodes (evalResults st)
              (clear_results (evalResultsLastMBs st)) true Hr)
    as (final & -> & Hfinal).
  { now rewrite clear_results_length. }
  cbn [bind].
  destruct (divide_results_sized (totalEpochSamples st)
              (seq 0 (List.length (evalResults st))) (evalResults st)
              (seq_in_bounds _))
    as (results & -> & Hresults).
  cbn [bind].
  exists results. eexists. exists (lines ++ lastlines)%list.
  split; [reflexivity|]. split; [congruence|]. split.
  - rewrite !minibatch_lines_app, Hlines, Hlastlines, Hfinal, Hn, Ht.
    cbn [minibatch_lines app]. now rewrite <- app_assoc.
  - intros Hle. rewrite (Hlastoff Hle).
    destruct (Hoff Hle) as (_ & Hsame). rewrite Hout0 in Hsame.
    rewrite Hsame in Hlines. now subst lines.
Qed.

(** X18.  A display interval of zero minibatches with a positive trace
    level: the first minibatch makes [Evaluate] take a remainder by zero,
    which is undefined. *)
Theorem Evaluate_with_zero_interval (mb : Minibatch) (minibatches : list Minibatch)
    (evalNodeNames : list string) (evalNodes : list Node) :
  determine_evalNodes InvalidArgument_exception evalNodeNames = Ok evalNodes ->
  (0 < m_traceLevel)%Z ->
  m_numMBsToShowResult = 0 ->
  Evaluate InvalidArgument_exception perplexity_operations exp GetTracingFlag
           m_numMBsToShowResult m_traceLevel (mb :: minibatches) evalNodeNames
  = Err undefined_behaviour.
Proof.
  intros Hnodes Htrace Hzero. unfold Evaluate. rewrite Hnodes.
  cbn [bind minibatch_loop]. unfold minibatch_body.
  cbn [evalResults].
  destruct (accumulate_sized mb evalNodes (seq 0 (List.length evalNodes))
              (map (fun _ => of_int 0%Z) evalNodes) (seq_in_bounds _))
    as (results & -> & _); [apply length_map|].
  cbn [bind]. apply Z.ltb_lt in Htrace. rewrite Htrace, Hzero. reflexivity.
Qed.

(** X19.  When the reader delivers no minibatch, [Evaluate] still returns:
    every value is 0.0 / 0.0, a NaN, whatever the trace level and the
    display interval. *)
Theorem Evaluate_without_minibatches
    (evalNodeNames : list string) (evalNodes : list Node) :
  determine_evalNodes InvalidArgument_exception evalNodeNames = Ok evalNodes ->
  exists out,
    Evaluate InvalidArgument_exception perplexity_operations exp GetTracingFlag
             m_numMBsToShowResult m_traceLevel [] evalNodeNames
    = Ok (map (fun _ => NaN) evalNodes, out).
Proof.
  intros Hnodes. unfold Evaluate. rewrite Hnodes.
  cbn [bind minibatch_loop numSamplesLastMBs evalResults evalResultsLastMBs
       numMBsRun totalEpochSamples lastMBsRun printed].
  rewrite andb_false_r. cbn [bind].
  destruct (DisplayEvalStatistics_Ok perplexity_operations exp 1 0 0 evalNodes
              (map (fun _ => of_int 0%Z) evalNodes)
              (clear_results
                 (map (fun _ => of_int 0%Z)
                      (map (fun _ : Node => of_int (T:=double) 0%Z) evalNodes)))
              true)
    as (final & -> & _).
  { apply length_map. }
  { now rewrite clear_results_length, !length_map. }
  cbn [bind].
  pose proof (divide_results_map 0 [] (map (fun _ => of_int 0%Z) evalNodes))
    as Hdivide.
  cbn [List.length app] in Hdivide. rewrite Hdivide.
  cbn [bind]. rewrite map_map. eexists. reflexivity.
Qed.

End EvaluateTheorems.

Lemma Evaluate_returns_witness :
  exists results out earlier,
    Evaluate (net:=ToyNet.net) invalid_argument ToyNet.perplexity_operations
             (fun x => x) false 2 1
             [ToyNet.minibatch 3; ToyNet.minibatch 4; ToyNet.minibatch 5]
             ["err"; "ce"]
    = Ok (results, out)
    /\ List.length results = List.length [1; 3]
    /\ minibatch_lines out
       = (earlier
          ++ [(1,
               N.of_nat (List.length [ToyNet.minibatch 3; ToyNet.minibatch 4;
                                      ToyNet.minibatch 5])
               mod 18446744073709551616,
               sum_samples [ToyNet.minibatch 3; ToyNet.minibatch 4;
                            ToyNet.minibatch 5]
               mod 18446744073709551616)])%list
    /\ ((1 <= 0)%Z -> earlier = []).
Proof.
  apply (Evaluate_returns (net:=ToyNet.net) invalid_argument
           ToyNet.perplexity_operations (fun x => x) false 2 1
           [ToyNet.minibatch 3; ToyNet.minibatch 4; ToyNet.minibatch 5]
           ["err"; "ce"] [1; 3]).
  - reflexivity.
  - right. lia.
Defined.

Lemma Evaluate_with_zero_interval_witness :
  Evaluate (net:=ToyNet.net) invalid_argument ToyNet.perplexity_operations
           (fun x => x) false 0 1
           [ToyNet.minibatch 3; ToyNet.minibatch 4] ["err"; "ce"]
  = Err undefined_behaviour.
Proof.
  apply (Evaluate_with_zero_interval (net:=ToyNet.net) invalid_argument
           ToyNet.perplexity_operations (fun x => x) false 0 1
           (ToyNet.minibatch 3) [ToyNet.minibatch 4] ["err"; "ce"] [1; 3]).
  - reflexivity.
  - lia.
  - reflexivity.
Defined.

Lemma Evaluate_without_minibatches_witness :
  exists out,
    Evaluate (net:=ToyNet.net) invalid_argument ToyNet.perplexity_operations
             (fun x => x) false 2 1 [] ["err"; "ce"]
    = Ok (map (fun _ => NaN) [1; 3], out).
Proof.
  apply (Evaluate_without_minibatches (net:=ToyNet.net) invalid_argument
           ToyNet.perplexity_operations (fun x => x) false 2 1
           ["err"; "ce"] [1; 3]).
  reflexivity.
Defined.

(** ** The values [Evaluate] returns *)

Lemma assign_middle {A} (done todo : list A) (a b : A) :
  Std.assign (done ++ a :: todo) (List.length done) b = (done ++ b :: todo)%list.
Proof.
  induction done as [|d done IH]; [reflexivity|].
  cbn [app List.length Std.assign]. now rewrite IH.
Qed.

Lemma accumulate_map {net : ComputationNetwork} (mb : Minibatch)
    (g : Node -> double) (todoN : list Node) :
  forall (doneN : list Node) (done : list double),
    List.length done = List.length doneN ->
    accumulate (seq (List.length doneN) (List.length todoN)) mb
               (doneN ++ todoN) (done ++ map g todoN)
    = Ok (done
          ++ map (fun n => double_add (g n) (Get00Element mb n)) todoN)%list.
Proof.
  induction todoN as [|n todoN IH]; intros doneN done Hlen;
    cbn [List.length seq accumulate map]; [reflexivity|].
  unfold Std.at_. rewrite Nat2N.id.
  rewrite nth_error_app2, Nat.sub_diag by lia.
  rewrite nth_error_app2 by lia.
  replace (List.length doneN - List.length done)%nat with 0%nat by lia.
  cbn [nth_error bind].
  replace (Std.assign (done ++ g n :: map g todoN) (List.length doneN)
             (double_add (g n) (Get00Element mb n)))
    with (done ++ double_add (g n) (Get00Element mb n) :: map g todoN)%list
    by (rewrite <- Hlen; now rewrite assign_middle).
  replace (S (List.length doneN)) with (List.length (doneN ++ [n]))
    by (rewrite length_app; simpl; lia).
  replace (doneN ++ n :: todoN)%list with ((doneN ++ [n]) ++ todoN)%list
    by now rewrite <- app_assoc.
  replace (done ++ double_add (g n) (Get00Element mb n) :: map g todoN)%list
    with ((done ++ [double_add (g n) (Get00Element mb n)]) ++ map g todoN)%list
    by now rewrite <- app_assoc.
  rewrite IH by (rewrite !length_app; simpl; lia).
  now rewrite <- app_assoc.
Qed.

Section EvaluateValues.
Context {net : ComputationNetwork}.
Variable InvalidArgument_exception : string -> Error.
Variable perplexity_operations : string * string * string * string.
Variable exp : double -> double.
Variable GetTracingFlag : bool.
Variable m_numMBsToShowResult : N.
Variable m_traceLevel : Z.

(** Whatever is displayed, a minibatch adds the value of each node to its
    result. *)
Lemma minibatch_body_results (evalNodes : list Node) (g : Node -> double)
    (st st' : EvaluateState) (mb : Minibatch) :
  evalResults st = map g evalNodes ->
  minibatch_body perplexity_operations exp GetTracingFlag m_numMBsToShowResult
                 m_traceLevel evalNodes st mb = Ok st' ->
  evalResults st'
  = map (fun n => double_add (g n) (Get00Element mb n)) evalNodes.
Proof.
  intros Hres. unfold minibatch_body. rewrite Hres.
  pose proof (accumulate_map mb g evalNodes [] [] eq_refl) as Hacc.
  cbn [List.length app] in Hacc. rewrite Hacc. cbn [bind].
  destruct (0 <? m_traceLevel)%Z;
    [destruct (m_numMBsToShowResult =? 0); [discriminate|];
     destruct (_ mod _ =? 0);
     [destruct (DisplayEvalStatistics _ _ _ _ _ _ _ _ _); [|discriminate];
      cbn [bind];
      destruct (copy_results _ _ _); [|discriminate]|]|];
    cbn [bind];
    (destruct GetTracingFlag; [destruct (_ <=? _)|]);
    intros [= <-]; reflexivity.
Qed.

Lemma minibatch_loop_results (evalNodes : list Node)
    (minibatches : list Minibatch) :
  forall (g : Node -> double) (st st' : EvaluateState),
    evalResults st = map g evalNodes ->
    minibatch_loop perplexity_operations exp GetTracingFlag
                   m_numMBsToShowResult m_traceLevel evalNodes st minibatches
    = Ok st' ->
    evalResults st'
    = map (fun n => node_total minibatches n (g n)) evalNodes.
Proof.
  induction minibatches as [|mb rest IH]; intros g st st' Hres;
    cbn [minibatch_loop].
  - now intros [= <-].
  - destruct (minibatch_body _ _ _ _ _ _ _ _) as [st1|] eqn:Hbody;
      [|discriminate].
    cbn [bind]. intros Hloop.
    apply (minibatch_body_results evalNodes g st st1 mb Hres) in Hbody.
    now rewrite (IH _ st1 st' Hbody Hloop).
Qed.

(** X20.  The value [Evaluate] returns for a node is the sum of the node's
    values over the minibatches, added in order from zero, divided by the
    number of labelled samples (modulo 2^64): neither the trace level nor
    the display interval, when it can be used, changes the values. *)
Theorem Evaluate_values (minibatches : list Minibatch)
    (evalNodeNames : list string) (evalNodes : list Node) :
  determine_evalNodes InvalidArgument_exception evalNodeNames = Ok evalNodes ->
  (m_traceLevel <= 0)%Z \/ m_numMBsToShowResult <> 0 ->
  exists out,
    Evaluate InvalidArgument_exception perplexity_operations exp GetTracingFlag
             m_numMBsToShowResult m_traceLevel minibatches evalNodeNames
    = Ok (map (fun n =>
                 double_div
                   (node_total minibatches n (of_int 0%Z))
                   (double_of_size_t
                      (sum_samples minibatches mod 18446744073709551616)))
              evalNodes,
          out).
Proof.
  intros Hnodes Hshow. unfold Evaluate. rewrite Hnodes. cbn [bind].
  match goal with
  | |- context [minibatch_loop _ _ _ _ _ _ ?st0 _] =>
      destruct (minibatch_loop_spec perplexity_operations exp GetTracingFlag
                  m_numMBsToShowResult m_traceLevel evalNodes minibatches
                  st0 0 0)
        as (st & Hloop & (Hr & Hl) & Ht & _); try reflexivity; try assumption;
      [split; cbn [evalResults evalResultsLastMBs]; now rewrite ?length_map|];
      pose proof (minibatch_loop_results evalNodes minibatches
                    (fun _ => of_int 0%Z) st0 st eq_refl Hloop) as Hvalues;
      rewrite Hloop
  end.
  cbn [bind]. rewrite N.add_0_l in Ht.
  assert (Hlast : exists last,
             (if (0 <? m_traceLevel)%Z && (0 <? numSamplesLastMBs st)
              then DisplayEvalStatistics perplexity_operations exp
                     (size_t_add (lastMBsRun st) 1) (numMBsRun st)
                     (numSamplesLastMBs st) evalNodes (evalResults st)
                     (evalResultsLastMBs st) false
              else Ok []) = Ok last).
  { destruct ((0 <? m_traceLevel)%Z && (0 <? numSamplesLastMBs st));
      [|now exists []].
    destruct (DisplayEvalStatistics_Ok perplexity_operations exp
                (size_t_add (lastMBsRun st) 1) (numMBsRun st)
                (numSamplesLastMBs st) evalNodes (evalResults st)
                (evalResultsLastMBs st) false Hr Hl) as (last & -> & _).
    now exists last. }
  destruct Hlast as (last & ->). cbn [bind].
  destruct (DisplayEvalStatistics_Ok perplexity_operations exp 1 (numMBsRun st)
              (totalEpochSamples st) evalNodes (evalResults st)
              (clear_results (evalResultsLastMBs st)) true Hr)
    as (final & -> & _).
  { now rewrite clear_results_length. }
  cbn [bind].
  pose proof (divide_results_map (totalEpochSamples st) [] (evalResults st))
    as Hdivide.
  cbn [List.length app] in Hdivide. rewrite Hdivide. cbn [bind].
  rewrite Hvalues, map_map, Ht. eexists. reflexivity.
Qed.

End EvaluateValues.

Lemma Evaluate_values_witness :
  exists out,
    Evaluate (net:=ToyNet.net) invalid_argument ToyNet.perplexity_operations
             (fun x => x) true 2 1
             [ToyNet.minibatch 3; ToyNet.minibatch 4; ToyNet.minibatch 5]
             ["err"; "ce"]
    = Ok (map (fun n =>
                 double_div
                   (node_total [ToyNet.minibatch 3; ToyNet.minibatch 4;
                                ToyNet.minibatch 5] n (of_int 0%Z))
                   (double_of_size_t
                      (sum_samples [ToyNet.minibatch 3; ToyNet.minibatch 4;
                                    ToyNet.minibatch 5]
                       mod 18446744073709551616)))
              [1; 3],
          out).
Proof.
  apply (Evaluate_values (net:=ToyNet.net) invalid_argument
           ToyNet.perplexity_operations (fun x => x) true 2 1
           [ToyNet.minibatch 3; ToyNet.minibatch 4; ToyNet.minibatch 5]
           ["err"; "ce"] [1; 3]).
  - reflexivity.
  - right. lia.
Defined.

(** ** The windows of the statistics lines *)

Lemma chained_app (lines : list (N * N * N)) (a b n : N) :
  forall previous,
    chained previous lines ->
    a = size_t_add (last_end previous lines) 1 ->
    chained previous (lines ++ [(a, b, n)]).
Proof.
  induction lines as [|[[a' b'] n'] lines IH]; intros previous;
    cbn [chained last_end app].
  - now intros _ ->.
  - intros (-> & Hrest) Ha. split; [reflexivity|]. now apply IH.
Qed.

Lemma last_end_app (lines : list (N * N * N)) (a b n : N) :
  forall previous, last_end previous (lines ++ [(a, b, n)]) = b.
Proof.
  induction lines as [|[[a' b'] n'] lines IH]; intros previous;
    cbn [last_end app]; [reflexivity | apply IH].
Qed.

Lemma line_samples_app (lines : list (N * N * N)) (a b n : N) :
  line_samples (lines ++ [(a, b, n)]) = line_samples lines + n.
Proof.
  unfold line_samples.
  induction lines as [|line lines IH]; cbn [fold_right app snd]; [lia|].
  rewrite IH. lia.
Qed.

Section EvaluateWindows.
Context {net : ComputationNetwork}.
Variable InvalidArgument_exception : string -> Error.
Variable perplexity_operations : string * string * string * string.
Variable exp : double -> double.
Variable GetTracingFlag : bool.
Variable m_numMBsToShowResult : N.
Variable m_traceLevel : Z.
Hypothesis trace_on : (0 < m_traceLevel)%Z.
Hypothesis interval : m_numMBsToShowResult <> 0.

(** With the trace on, the statistics lines printed so far follow one
    another up to [lastMBsRun], and with [numSamplesLastMBs] they count
    the samples seen. *)
Lemma minibatch_loop_windows (evalNodes : list Node)
    (minibatches : list Minibatch) :
  forall st,
    sized evalNodes st ->
    chained 0 (minibatch_lines (printed st)) ->
    last_end 0 (minibatch_lines (printed st)) = lastMBsRun st ->
    (line_samples (minibatch_lines (printed st)) + numSamplesLastMBs st)
      mod 18446744073709551616 = totalEpochSamples st ->
    exists st',
      minibatch_loop perplexity_operations exp GetTracingFlag
                     m_numMBsToShowResult m_traceLevel evalNodes st minibatches
      = Ok st'
      /\ chained 0 (minibatch_lines (printed st'))
      /\ last_end 0 (minibatch_lines (printed st')) = lastMBsRun st'
      /\ (line_samples (minibatch_lines (printed st')) + numSamplesLastMBs st')
           mod 18446744073709551616 = totalEpochSamples st'.
Proof.
  induction minibatches as [|mb rest IH]; intros st Hsized Hchain Hend Hsum;
    cbn [minibatch_loop].
  - now exists st.
  - destruct (minibatch_body_spec perplexity_operations exp GetTracingFlag
                m_numMBsToShowResult m_traceLevel evalNodes st mb Hsized)
      as (st1 & -> & Hsized1 & Ht1 & Hn1 & Hcase); [now right|].
    cbn [bind]. apply Z.ltb_lt in trace_on. rewrite trace_on in Hcase.
    apply IH; [assumption | | |];
      destruct (numMBsRun st1 mod m_numMBsToShowResult =? 0);
      destruct Hcase as (Hsamples & Hlast & Hlines); rewrite Hlines.
    + apply chained_app; [assumption | now rewrite Hend].
    + assumption.
    + now rewrite last_end_app.
    + congruence.
    + rewrite line_samples_app, Hsamples, Ht1, <- Hsum. unfold size_t_add.
      rewrite N.add_0_r, N.Div0.add_mod_idemp_r, N.Div0.add_mod_idemp_l.
      f_equal. lia.
    + rewrite Hsamples, Ht1, <- Hsum. unfold size_t_add.
      rewrite N.Div0.add_mod_idemp_r, N.Div0.add_mod_idemp_l.
      f_equal. lia.
Qed.

End EvaluateWindows.

Section EvaluateWindowsTheorem.
Context {net : ComputationNetwork}.
Variable InvalidArgument_exception : string -> Error.
Variable perplexity_operations : string * string * string * string.
Variable exp : double -> double.
Variable GetTracingFlag : bool.
Variable m_numMBsToShowResult : N.
Variable m_traceLevel : Z.

(** X21.  With a positive trace level and a display interval that is not
    zero, the statistics lines [Evaluate] prints before the final one
    follow one another: the first starts at minibatch 1 and each next one
    starts one minibatch after the end of the line before it.  Together
    they count all the labelled samples (modulo 2^64). *)
Theorem Evaluate_windows (minibatches : list Minibatch)
    (evalNodeNames : list string) (evalNodes : list Node) :
  determine_evalNodes InvalidArgument_exception evalNodeNames = Ok evalNodes ->
  (0 < m_traceLevel)%Z ->
  m_numMBsToShowResult <> 0 ->
  exists results out earlier final,
    Evaluate InvalidArgument_exception perplexity_operations exp GetTracingFlag
             m_numMBsToShowResult m_traceLevel minibatches evalNodeNames
    = Ok (results, out)
    /\ minibatch_lines out = (earlier ++ [final])%list
    /\ chained 0 earlier
    /\ line_samples earlier mod 18446744073709551616
       = sum_samples minibatches mod 18446744073709551616.
Proof.
  intros Hnodes Htrace Hinterval. unfold Evaluate. rewrite Hnodes. cbn [bind].
  set (out0 := if Std.size evalNodeNames =? 0 then [stderr_default_nodes] else []).
  assert (Hout0 : minibatch_lines out0 = []).
  { unfold out0. now destruct (_ =? _). }
  match goal with
  | |- context [minibatch_loop _ _ _ _ _ _ ?st0 _] =>
      assert (Hsized0 : sized evalNodes st0)
        by (split; cbn [evalResults evalResultsLastMBs];
            now rewrite ?length_map);
      destruct (minibatch_loop_spec perplexity_operations exp GetTracingFlag
                  m_numMBsToShowResult m_traceLevel evalNodes minibatches
                  st0 0 0 Hsized0)
        as (st & Hloop & (Hr & Hl) & Ht & _);
        [now right | reflexivity | reflexivity |];
      destruct (minibatch_loop_windows perplexity_operations exp GetTracingFlag
                  m_numMBsToShowResult m_traceLevel Htrace Hinterval
                  evalNodes minibatches st0 Hsized0)
        as (st' & Hloop' & Hchain & Hend & Hsum);
        [cbn [printed]; rewrite Hout0 .. |]
  end.
  { exact I. }
  { reflexivity. }
  { reflexivity. }
  rewrite Hloop in Hloop'. injection Hloop' as <-. rewrite Hloop.
  cbn [bind]. rewrite N.add_0_l in Ht.
  apply Z.ltb_lt in Htrace. rewrite Htrace. cbn [andb].
  destruct (DisplayEvalStatistics_Ok perplexity_operations exp 1 (numMBsRun st)
              (totalEpochSamples st) evalNodes (evalResults st)
              (clear_results (evalResultsLastMBs st)) true Hr)
    as (final & Hfinal & Hfinallines).
  { now rewrite clear_results_length. }
  destruct (divide_results_sized (totalEpochSamples st)
              (seq 0 (List.length (evalResults st))) (evalResults st)
              (seq_in_bounds _))
    as (results & Hdivide & _).
  destruct (N.ltb_spec 0 (numSamplesLastMBs st)) as [Hsome|Hnone].
  - destruct (DisplayEvalStatistics_Ok perplexity_operations exp
                (size_t_add (lastMBsRun st) 1) (numMBsRun st)
                (numSamplesLastMBs st) evalNodes (evalResults st)
                (evalResultsLastMBs st) false Hr Hl) as (last & -> & Hlast).
    cbn [bind]. rewrite Hfinal. cbn [bind]. rewrite Hdivide. cbn [bind].
    exists results. eexists.
    exists (minibatch_lines (printed st)
            ++ [(size_t_add (lastMBsRun st) 1, numMBsRun st,
                 numSamplesLastMBs st)])%list.
    eexists. split; [reflexivity|]. split; [|split].
    + rewrite !minibatch_lines_app, Hlast, Hfinallines.
      cbn [minibatch_lines app]. now rewrite <- app_assoc.
    + apply chained_app; [assumption | now rewrite Hend].
    + now rewrite line_samples_app, Hsum.
  - cbn [bind]. rewrite Hfinal. cbn [bind]. rewrite Hdivide. cbn [bind].
    exists results. eexists. exists (minibatch_lines (printed st)).
    eexists. split; [reflexivity|]. split; [|split].
    + rewrite !minibatch_lines_app, Hfinallines.
      cbn [minibatch_lines app]. reflexivity.
    + assumption.
    + replace (numSamplesLastMBs st) with 0 in Hsum by lia.
      now rewrite N.add_0_r in Hsum; rewrite Hsum.
Qed.

End EvaluateWindowsTheorem.

Lemma Evaluate_windows_witness :
  exists results out earlier final,
    Evaluate (net:=ToyNet.net) invalid_argument ToyNet.perplexity_operations
             (fun x => x) false 2 1
             [ToyNet.minibatch 3; ToyNet.minibatch 4; ToyNet.minibatch 5]
             ["err"; "ce"]
    = Ok (results, out)
    /\ minibatch_lines out = (earlier ++ [final])%list
    /\ chained 0 earlier
    /\ line_samples earlier mod 18446744073709551616
       = sum_samples [ToyNet.minibatch 3; ToyNet.minibatch 4;
                      ToyNet.minibatch 5]
         mod 18446744073709551616.
Proof.
  apply (Evaluate_windows (net:=ToyNet.net) invalid_argument
           ToyNet.perplexity_operations (fun x => x) false 2 1
           [ToyNet.minibatch 3; ToyNet.minibatch 4; ToyNet.minibatch 5]
           ["err"; "ce"] [1; 3]).
  - reflexivity.
  - lia.
  - lia.
Defined.

(** ** [DisplayEvalStatistics] outside its vectors *)

Lemma at_cases {A} (v : list A) (i : nat) :
  (exists a, Std.at_ v (N.of_nat i) = Ok a /\ (i < List.length v)%nat)
  \/ (Std.at_ v (N.of_nat i) = Err undefined_behaviour
      /\ (List.length v <= i)%nat).
Proof.
  unfold Std.at_. rewrite Nat2N.id.
  destruct (nth_error v i) as [a|] eqn:Hnth.
  - left. exists a. split; [reflexivity|].
    apply nth_error_Some. congruence.
  - right. split; [reflexivity|]. now apply nth_error_None.
Qed.

Section DisplayFacts.
Context {net : ComputationNetwork}.
Variable perplexity_operations : string * string * string * string.
Variable exp : double -> double.

Lemma display_nodes_outside (samples : N) (evalNodes : list Node)
    (results resultsLastMBs : list double) (converted : bool) (is_ : list nat) :
  Exists (fun i => (List.length results <= i)%nat
                   \/ (List.length resultsLastMBs <= i)%nat
                   \/ (List.length evalNodes <= i)%nat) is_ ->
  display_nodes perplexity_operations exp is_ samples evalNodes results
                resultsLastMBs converted = Err undefined_behaviour.
Proof.
  induction is_ as [|i is_ IH]; intros Hex; [inversion Hex|].
  cbn [display_nodes].
  destruct (at_cases results i) as [(r & -> & Hr)|(-> & Hr)];
    [|reflexivity].
  destruct (at_cases resultsLastMBs i) as [(l & -> & Hl)|(-> & Hl)];
    [|reflexivity].
  destruct (at_cases evalNodes i) as [(node & -> & Hn)|(-> & Hn)];
    [|reflexivity].
  cbn [bind]. rewrite IH; [reflexivity|].
  inversion Hex as [? ? Hbad|]; subst; [lia | assumption].
Qed.

(** X22.  [DisplayEvalStatistics] reads a node and an earlier result for
    every result: with fewer nodes or fewer earlier results than results
    it indexes a vector outside its bounds, which is undefined. *)
Theorem DisplayEvalStatistics_needs_a_node_per_result
    (startMBNum endMBNum samples : N) (evalNodes : list Node)
    (results resultsLastMBs : list double) (converted : bool) :
  (List.length evalNodes < List.length results)%nat
  \/ (List.length resultsLastMBs < List.length results)%nat ->
  DisplayEvalStatistics perplexity_operations exp startMBNum endMBNum samples
                        evalNodes results resultsLastMBs converted
  = Err undefined_behaviour.
Proof.
  intros Hshort. unfold DisplayEvalStatistics.
  rewrite display_nodes_outside; [reflexivity|].
  apply Exists_exists.
  destruct Hshort as [Hshort|Hshort].
  - exists (List.length evalNodes). split; [apply in_seq; lia | lia].
  - exists (List.length resultsLastMBs). split; [apply in_seq; lia | lia].
Qed.

(** X23.  The overload of [DisplayEvalStatistics] on two numbers shows the
    first node only, whatever follows it in [evalNodes]; without a node it
    indexes the empty vector, which is undefined. *)
Theorem DisplayEvalStatistics_scalar_shows_the_first_node
    (startMBNum endMBNum samples : N) (evalNodes : list Node)
    (result_ resultLastMBs : double) (converted : bool) :
  DisplayEvalStatistics_scalar perplexity_operations exp startMBNum endMBNum
                               samples evalNodes result_ resultLastMBs converted
  = match evalNodes with
    | [] => Err undefined_behaviour
    | node :: _ =>
        DisplayEvalStatistics perplexity_operations exp startMBNum endMBNum
                              samples [node] [result_] [resultLastMBs] converted
    end.
Proof.
  destruct evalNodes as [|node rest]; reflexivity.
Qed.

End DisplayFacts.

Lemma DisplayEvalStatistics_needs_a_node_per_result_witness :
  DisplayEvalStatistics (net:=ToyNet.net) ToyNet.perplexity_operations
                        (fun x => x) 1 2 7 [1] [of_int 1%Z; of_int 2%Z]
                        [of_int 0%Z; of_int 0%Z] true
  = Err undefined_behaviour.
Proof.
  apply (DisplayEvalStatistics_needs_a_node_per_result (net:=ToyNet.net)
           ToyNet.perplexity_operations (fun x => x) 1 2 7 [1]
           [of_int 1%Z; of_int 2%Z] [of_int 0%Z; of_int 0%Z] true).
  left. simpl. lia.
Defined.

(** ** Progress tracing *)

Lemma bind_Ok {A B} (r : result A) (k : A -> result B) (b : B) :
  bind r k = Ok b -> exists a, r = Ok a /\ k a = Ok b.
Proof. destruct r as [a|e]; [now exists a | discriminate]. Qed.

Lemma progress_lines_app (out out' : list Printed) :
  progress_lines (out ++ out') = progress_lines out + progress_lines out'.
Proof.
  induction out as [|line out IH]; [reflexivity|].
  destruct line; cbn [app progress_lines]; rewrite IH; lia.
Qed.

Section ProgressFacts.
Context {net : ComputationNetwork}.
Variable perplexity_operations : string * string * string * string.
Variable exp : double -> double.
Variable GetTracingFlag : bool.
Variable m_numMBsToShowResult : N.
Variable m_traceLevel : Z.

Lemma display_nodes_no_progress (samples : N) (evalNodes : list Node)
    (results resultsLastMBs : list double) (converted : bool) (is_ : list nat) :
  forall lines,
    display_nodes perplexity_operations exp is_ samples evalNodes results
                  resultsLastMBs converted = Ok lines ->
    progress_lines lines = 0.
Proof.
  induction is_ as [|i is_ IH]; intros lines; cbn [display_nodes].
  - now intros [= <-].
  - intros Hdisplay.
    apply bind_Ok in Hdisplay as (r & _ & Hdisplay).
    apply bind_Ok in Hdisplay as (l & _ & Hdisplay).
    apply bind_Ok in Hdisplay as (node & _ & Hdisplay).
    apply bind_Ok in Hdisplay as (rest & Hrest & Hdisplay).
    injection Hdisplay as <-. cbn [progress_lines].
    rewrite progress_lines_app, (IH rest Hrest).
    now destruct (converted && _).
Qed.

Lemma DisplayEvalStatistics_no_progress (startMBNum endMBNum samples : N)
    (evalNodes : list Node) (results resultsLastMBs : list double)
    (converted : bool) (lines : list Printed) :
  DisplayEvalStatistics perplexity_operations exp startMBNum endMBNum samples
                        evalNodes results resultsLastMBs converted = Ok lines ->
  progress_lines lines = 0.
Proof.
  unfold DisplayEvalStatistics. intros Hdisplay.
  apply bind_Ok in Hdisplay as (shown & Hshown & Hdisplay).
  injection Hdisplay as <-. cbn [progress_lines].
  rewrite progress_lines_app.
  now rewrite (display_nodes_no_progress _ _ _ _ _ _ _ Hshown).
Qed.

(** One turn of the loop counts one iteration towards the next line of
    progress, and prints the line at the hundredth. *)
Lemma minibatch_body_progress (evalNodes : list Node) (st st' : EvaluateState)
    (mb : Minibatch) :
  minibatch_body perplexity_operations exp GetTracingFlag m_numMBsToShowResult
                 m_traceLevel evalNodes st mb = Ok st' ->
  numItersSinceLastPrintOfProgress st < 100 ->
  if GetTracingFlag
  then progress_lines (printed st') * 100 + numItersSinceLastPrintOfProgress st'
       = progress_lines (printed st) * 100
         + numItersSinceLastPrintOfProgress st + 1
       /\ numItersSinceLastPrintOfProgress st' < 100
  else progress_lines (printed st') = progress_lines (printed st)
       /\ numItersSinceLastPrintOfProgress st'
          = numItersSinceLastPrintOfProgress st.
Proof.
  unfold minibatch_body. intros Hbody Hcount.
  apply bind_Ok in Hbody as (results & _ & Hbody).
  apply bind_Ok in Hbody as (st1 & Hshown & Hbody).
  assert (Hst1 : progress_lines (printed st1) = progress_lines (printed st)
                 /\ numItersSinceLastPrintOfProgress st1
                    = numItersSinceLastPrintOfProgress st).
  { destruct (0 <? m_traceLevel)%Z;
      [destruct (m_numMBsToShowResult =? 0); [discriminate|];
       destruct (_ mod _ =? 0)|].
    - apply bind_Ok in Hshown as (lines & Hlines & Hshown).
      apply bind_Ok in Hshown as (copied & _ & Hshown).
      injection Hshown as <-.
      cbn [printed numItersSinceLastPrintOfProgress].
      rewrite progress_lines_app.
      rewrite (DisplayEvalStatistics_no_progress _ _ _ _ _ _ _ _ Hlines).
      split; [lia | reflexivity].
    - injection Hshown as <-. now split.
    - injection Hshown as <-. now split. }
  destruct Hst1 as (Hprinted & Hiters).
  destruct GetTracingFlag.
  - unfold numIterationsBeforePrintingProgress, size_t_add in Hbody.
    rewrite Hiters in Hbody.
    rewrite N.mod_small in Hbody by lia.
    destruct (N.leb_spec 100 (numItersSinceLastPrintOfProgress st + 1));
      injection Hbody as <-;
      cbn [with_progress printed numItersSinceLastPrintOfProgress];
      rewrite ?progress_lines_app, Hprinted; cbn [progress_lines]; lia.
  - injection Hbody as <-. now split.
Qed.

Lemma minibatch_loop_progress (evalNodes : list Node)
    (minibatches : list Minibatch) :
  forall st st',
    minibatch_loop perplexity_operations exp GetTracingFlag
                   m_numMBsToShowResult m_traceLevel evalNodes st minibatches
    = Ok st' ->
    numItersSinceLastPrintOfProgress st < 100 ->
    if GetTracingFlag
    then progress_lines (printed st') * 100
         + numItersSinceLastPrintOfProgress st'
         = progress_lines (printed st) * 100
           + numItersSinceLastPrintOfProgress st
           + N.of_nat (List.length minibatches)
         /\ numItersSinceLastPrintOfProgress st' < 100
    else progress_lines (printed st') = progress_lines (printed st).
Proof.
  induction minibatches as [|mb rest IH]; intros st st';
    cbn [minibatch_loop].
  - intros [= <-] Hcount. destruct GetTracingFlag; [split; [cbn; lia|assumption] | reflexivity].
  - intros Hloop Hcount.
    apply bind_Ok in Hloop as (st1 & Hbody & Hloop).
    pose proof (minibatch_body_progress evalNodes st st1 mb Hbody Hcount)
      as Hstep.
    specialize (IH st1 st' Hloop).
    destruct GetTracingFlag.
    + destruct Hstep as (Hstep & Hcount1).
      destruct (IH Hcount1) as (Hrest & Hcount').
      split; [|assumption]. cbn [List.length]. lia.
    + destruct Hstep as (Hstep & Hiters).
      rewrite IH by (rewrite Hiters; assumption). exact Hstep.
Qed.

End ProgressFacts.

Section EvaluateProgress.
Context {net : ComputationNetwork}.
Variable InvalidArgument_exception : string -> Error.
Variable perplexity_operations : string * string * string * string.
Variable exp : double -> double.
Variable GetTracingFlag : bool.
Variable m_numMBsToShowResult : N.
Variable m_traceLevel : Z.

(** X24.  With progress tracing on, [Evaluate] prints the line of
    progress once every hundred minibatches, so as many times as the
    number of minibatches holds a hundred; with tracing off it never
    prints it. *)
Theorem Evaluate_progress (minibatches : list Minibatch)
    (evalNodeNames : list string) (evalNodes : list Node) :
  determine_evalNodes InvalidArgument_exception evalNodeNames = Ok evalNodes ->
  (m_traceLevel <= 0)%Z \/ m_numMBsToShowResult <> 0 ->
  exists results out,
    Evaluate InvalidArgument_exception perplexity_operations exp GetTracingFlag
             m_numMBsToShowResult m_traceLevel minibatches evalNodeNames
    = Ok (results, out)
    /\ progress_lines out
       = if GetTracingFlag then N.of_nat (List.length minibatches) / 100 else 0.
Proof.
  intros Hnodes Hshow. unfold Evaluate. rewrite Hnodes. cbn [bind].
  set (out0 := if Std.size evalNodeNames =? 0 then [stderr_default_nodes] else []).
  assert (Hout0 : progress_lines out0 = 0).
  { unfold out0. now destruct (_ =? _). }
  match goal with
  | |- context [minibatch_loop _ _ _ _ _ _ ?st0 _] =>
      destruct (minibatch_loop_spec perplexity_operations exp GetTracingFlag
                  m_numMBsToShowResult m_traceLevel evalNodes minibatches
                  st0 0 0)
        as (st & Hloop & (Hr & Hl) & _); try reflexivity; try assumption;
      [split; cbn [evalResults evalResultsLastMBs]; now rewrite ?length_map|];
      pose proof (minibatch_loop_progress perplexity_operations exp
                    GetTracingFlag m_numMBsToShowResult m_traceLevel
                    evalNodes minibatches st0 st Hloop) as Hprogress;
      rewrite Hloop
  end.
  cbn [bind printed numItersSinceLastPrintOfProgress] in *.
  rewrite Hout0 in Hprogress. specialize (Hprogress eq_refl).
  assert (Hlast : exists last,
             (if (0 <? m_traceLevel)%Z && (0 <? numSamplesLastMBs st)
              then DisplayEvalStatistics perplexity_operations exp
                     (size_t_add (lastMBsRun st) 1) (numMBsRun st)
                     (numSamplesLastMBs st) evalNodes (evalResults st)
                     (evalResultsLastMBs st) false
              else Ok []) = Ok last
             /\ progress_lines last = 0).
  { destruct ((0 <? m_traceLevel)%Z && (0 <? numSamplesLastMBs st));
      [|now exists []].
    destruct (DisplayEvalStatistics_Ok perplexity_operations exp
                (size_t_add (lastMBsRun st) 1) (numMBsRun st)
                (numSamplesLastMBs st) evalNodes (evalResults st)
                (evalResultsLastMBs st) false Hr Hl) as (last & Hlast & _).
    exists last. split; [assumption|].
    exact (DisplayEvalStatistics_no_progress _ _ _ _ _ _ _ _ _ _ Hlast). }
  destruct Hlast as (last & -> & Hlast). cbn [bind].
  destruct (DisplayEvalStatistics_Ok perplexity_operations exp 1 (numMBsRun st)
              (totalEpochSamples st) evalNodes (evalResults st)
              (clear_results (evalResultsLastMBs st)) true Hr)
    as (final & Hfinal & _).
  { now rewrite clear_results_length. }
  rewrite Hfinal. cbn [bind].
  destruct (divide_results_sized (totalEpochSamples st)
              (seq 0 (List.length (evalResults st))) (evalResults st)
              (seq_in_bounds _))
    as (results & -> & _).
  cbn [bind]. exists results. eexists. split; [reflexivity|].
  rewrite !progress_lines_app, Hlast.
  rewrite (DisplayEvalStatistics_no_progress _ _ _ _ _ _ _ _ _ _ Hfinal).
  cbn [progress_lines]. rewrite !N.add_0_r.
  destruct GetTracingFlag; [|assumption].
  destruct Hprogress as (Hcount & Hless).
  apply (N.div_unique _ _ _ (numItersSinceLastPrintOfProgress st));
    [assumption | lia].
Qed.

End EvaluateProgress.

Lemma Evaluate_progress_witness :
  exists results out,
    Evaluate (net:=ToyNet.net) invalid_argument ToyNet.perplexity_operations
             (fun x => x) true 2 1
             (repeat (ToyNet.minibatch 3) 250) ["err"; "ce"]
    = Ok (results, out)
    /\ progress_lines out
       = if true
         then N.of_nat (List.length (repeat (ToyNet.minibatch 3) 250)) / 100
         else 0.
Proof.
  apply (Evaluate_progress (net:=ToyNet.net) invalid_argument
           ToyNet.perplexity_operations (fun x => x) true 2 1
           (repeat (ToyNet.minibatch 3) 250) ["err"; "ce"] [1; 3]).
  - reflexivity.
  - right. lia.
Defined.
